(** * ARGoS space: placement generators, physics-engine binder, distribution,
      step orchestration, reset, and tag payloads.

    A shallow embedding of [core/simulator/space/space.cpp] and of
    [plugins/simulator/entities/tag_equipped_entity.cpp].

    Conventions.
    - [UInt32] and [UInt64] values are [Z] with the wrap-around written out
      ([wrap32], [wrap64]).
    - [Real] is the IEEE binary64 type (the typedef lives in a header outside
      these two files); arithmetic on it is the kernel's primitive float
      arithmetic, so rounding is the machine's.
    - A C++ exception is a value of [CARGoSException]; a function that can throw
      returns an [Outcome], which keeps the state reached when the exception
      left the function.
    - Pointers to entities are the entities' unique identifiers; the objects
      they point to live in the store [objects] of the space. *)

From Stdlib Require Import ZArith Floats Lia Bool.
From stdpp Require Import gmap strings list pretty.

Set Warnings "-register-all".
Set Default Proof Using "Type".

Open Scope Z_scope.

(** ** Machine integers and text *)

Definition wrap32 (z : Z) : Z := z mod 2 ^ 32.
Definition wrap64 (z : Z) : Z := z mod 2 ^ 64.

(** [ToString<T>] on an unsigned integer: its decimal digits. *)
Definition ToString (z : Z) : string := pretty (Z.to_N z).

(** The double-quote character, as the sources write it inside messages. *)
Definition dq : string := String (Ascii.ascii_of_nat 34) EmptyString.

Definition quoted (s : string) : string := dq +:+ s +:+ dq.

(** ** Exceptions and outcomes *)

(** [THROW_ARGOSEXCEPTION(message)] and [THROW_ARGOSEXCEPTION_NESTED(message, ex)].
    The macros are declared outside these files; the model keeps the streamed
    [message] (and the nested exception), not the file and line they prepend. *)
Inductive CARGoSException : Type :=
| Ex (what : string)
| ExNested (what : string) (nested : CARGoSException).

Inductive Outcome (S A : Type) : Type :=
| Returns (a : A) (s : S)
| Throws (e : CARGoSException) (s : S)
| OutOfFuel (s : S).

Arguments Returns {S A} a s.
Arguments Throws {S A} e s.
Arguments OutOfFuel {S A} s.

Definition M (S A : Type) : Type := S -> Outcome S A.

Definition ret {S A} (a : A) : M S A := fun s => Returns a s.
Definition throw {S A} (e : CARGoSException) : M S A := fun s => Throws e s.
Definition bind {S A B} (m : M S A) (k : A -> M S B) : M S B :=
  fun s => match m s with
           | Returns a s' => k a s'
           | Throws e s' => Throws e s'
           | OutOfFuel s' => OutOfFuel s'
           end.
Definition get {S} : M S S := fun s => Returns s s.
Definition modify {S} (f : S -> S) : M S unit := fun s => Returns tt (f s).

(** [try { body } catch(CARGoSException& ex) { THROW_ARGOSEXCEPTION_NESTED(msg, ex); }] *)
Definition rethrow_nested {S A} (msg : string) (body : M S A) : M S A :=
  fun s => match body s with
           | Throws e s' => Throws (ExNested msg e) s'
           | r => r
           end.

Declare Scope space_scope.
Delimit Scope space_scope with space.
Notation "x <~ m ;; k" := (bind m (fun x => k))
  (at level 100, m at next level, right associativity) : space_scope.
Notation "m ;;; k" := (bind m (fun _ => k))
  (at level 100, right associativity) : space_scope.

(** ** Reals and vectors *)

Definition Real : Set := float.

(** Conversion of a [UInt32] value to [Real] (exact for binary64). *)
Definition UInt32_to_Real (z : Z) : Real := PrimFloat.of_uint63 (Uint63.of_Z z).

Record CVector3 : Set := mkVector3 { GetX : Real; GetY : Real; GetZ : Real }.

Arguments mkVector3 (GetX GetY GetZ)%_float.

(** Modelled from the spec: [CVector3::operator<=] is declared outside these
    files; the spec reads the constructor check as "min <= max componentwise". *)
Definition CVector3_le (a b : CVector3) : bool :=
  (GetX a <=? GetX b)%float && (GetY a <=? GetY b)%float && (GetZ a <=? GetZ b)%float.

(** ** Random numbers

    [CSimulator::GetInstance().GetRNG()] is a generator object defined outside
    these files. Its state is a value of [RNG]; [Uniform] is
    [CRNG::Uniform(CRange<Real>(min, max))] and [Gaussian] is
    [CRNG::Gaussian(std_dev, mean)], each returning the draw and the next state. *)

Section Generators.

Variable RNG : Type.
Variable Uniform : RNG -> Real -> Real -> Real * RNG.
Variable Gaussian : RNG -> Real -> Real -> Real * RNG.

(** The four subclasses of [RealNumberGenerator], with their members. *)
Inductive RealNumberGenerator : Type :=
| ConstantGenerator (m_cValue : CVector3)
| UniformGenerator (m_cMin m_cMax : CVector3)
| GaussianGenerator (m_cMean m_cStdDev : CVector3)
| GridGenerator (m_cCenter : CVector3) (m_unLayout : Z * Z * Z)
                (m_cDistances : CVector3) (m_unNumEntityPlaced : Z).

(** [ConstantGenerator::operator()] *)
Definition Constant_call (m_cValue : CVector3) (b_is_retry : bool) : CVector3 :=
  m_cValue.

(** One axis of [UniformGenerator::operator()]:
    [max > min ? GetRNG()->Uniform(CRange<Real>(min, max)) : max]. *)
Definition Uniform_axis (fMin fMax : Real) (rng : RNG) : Real * RNG :=
  if (fMin <? fMax)%float then Uniform rng fMin fMax else (fMax, rng).

(** [UniformGenerator::operator()]: fRandX, fRandY, fRandZ in that order. *)
Definition Uniform_call (m_cMin m_cMax : CVector3) (b_is_retry : bool) (rng : RNG)
  : CVector3 * RNG :=
  let '(fRandX, rng) := Uniform_axis (GetX m_cMin) (GetX m_cMax) rng in
  let '(fRandY, rng) := Uniform_axis (GetY m_cMin) (GetY m_cMax) rng in
  let '(fRandZ, rng) := Uniform_axis (GetZ m_cMin) (GetZ m_cMax) rng in
  (mkVector3 fRandX fRandY fRandZ, rng).

(** [GaussianGenerator::operator()]. The three draws are constructor
    arguments, whose order of evaluation C++ leaves open; the model draws
    X, then Y, then Z. *)
Definition Gaussian_call (m_cMean m_cStdDev : CVector3) (b_is_retry : bool) (rng : RNG)
  : CVector3 * RNG :=
  let '(fX, rng) := Gaussian rng (GetX m_cStdDev) (GetX m_cMean) in
  let '(fY, rng) := Gaussian rng (GetY m_cStdDev) (GetY m_cMean) in
  let '(fZ, rng) := Gaussian rng (GetZ m_cStdDev) (GetZ m_cMean) in
  (mkVector3 fX fY fZ, rng).

(** The number of cells [m_unLayout[0] * m_unLayout[1] * m_unLayout[2]],
    a [UInt32] product. *)
Definition Grid_cells (m_unLayout : Z * Z * Z) : Z :=
  let '(l0, l1, l2) := m_unLayout in wrap32 (wrap32 (l0 * l1) * l2).

(** The coordinates [GridGenerator::operator()] computes for entity number
    [n] (the body of its [if]). *)
Definition Grid_position (m_cCenter : CVector3) (m_unLayout : Z * Z * Z)
           (m_cDistances : CVector3) (n : Z) : CVector3 :=
  let '(l0, l1, l2) := m_unLayout in
  mkVector3
    (GetX m_cCenter + UInt32_to_Real (wrap32 (l0 - 1)) * GetX m_cDistances * 0.5
     - UInt32_to_Real (n mod l0) * GetX m_cDistances)%float
    (GetY m_cCenter + UInt32_to_Real (wrap32 (l1 - 1)) * GetY m_cDistances * 0.5
     - UInt32_to_Real ((n / l0) mod l1) * GetY m_cDistances)%float
    (GetZ m_cCenter + UInt32_to_Real (wrap32 (l2 - 1)) * GetZ m_cDistances * 0.5
     - UInt32_to_Real (n / wrap32 (l0 * l1)) * GetZ m_cDistances)%float.

Definition GridRetryError (m_unNumEntityPlaced : Z) : CARGoSException :=
  Ex ("Impossible to place entity #" +:+ ToString m_unNumEntityPlaced +:+ " in grid").

Definition GridExhaustedError : CARGoSException :=
  Ex ("Distribute position, method 'grid': trying to place more entities than allowed "
      +:+ "by the 'layout', check your 'quantity' tag").

(** [RealNumberGenerator::operator()(bool b_is_retry)], dispatched on the
    subclass. The state is the generator object and the simulator's RNG. *)
Definition call (b_is_retry : bool) : M (RealNumberGenerator * RNG) CVector3 :=
  fun '(g, rng) =>
    match g with
    | ConstantGenerator v => Returns (Constant_call v b_is_retry) (g, rng)
    | UniformGenerator cMin cMax =>
        let '(v, rng') := Uniform_call cMin cMax b_is_retry rng in Returns v (g, rng')
    | GaussianGenerator cMean cStdDev =>
        let '(v, rng') := Gaussian_call cMean cStdDev b_is_retry rng in Returns v (g, rng')
    | GridGenerator cCenter unLayout cDistances unPlaced =>
        if b_is_retry then Throws (GridRetryError unPlaced) (g, rng)
        else if unPlaced <? Grid_cells unLayout then
          Returns (Grid_position cCenter unLayout cDistances unPlaced)
                  (GridGenerator cCenter unLayout cDistances (wrap32 (unPlaced + 1)), rng)
        else Throws GridExhaustedError (g, rng)
    end.

(** The constructor of [GridGenerator], with its sanity check. *)
Definition GridGenerator_new (c_center : CVector3) (un_layout : Z * Z * Z)
           (c_distances : CVector3) : CARGoSException + RealNumberGenerator :=
  let '(l0, l1, l2) := un_layout in
  if (l0 =? 0) || (l1 =? 0) || (l2 =? 0) then
    inl (Ex "'layout' values (distribute position, method 'grid') must all be different than 0")
  else inr (GridGenerator c_center un_layout c_distances 0).

End Generators.


(** ** Code that throws without touching any state *)

Definition Try (A : Type) : Type := (CARGoSException + A)%type.

Definition try_bind {A B} (m : Try A) (k : A -> Try B) : Try B :=
  match m with inl e => inl e | inr a => k a end.

Notation "x <-? m ;; k" := (try_bind m (fun x => k))
  (at level 100, m at next level, right associativity) : space_scope.

Definition lift_try {S A} (m : Try A) : M S A :=
  fun s => match m with inl e => Throws e s | inr a => Returns a s end.

(** ** The configuration tree

    Modelled from the spec: the tree type and its accessors ([GetNode],
    [NodeExists], [AddChildNode], [GetNodeAttribute], [GetNodeAttributeOrDefault],
    [SetNodeAttribute]) are declared outside these files. A node has a tag, named
    attributes and child nodes; reading a missing child or a missing or
    ill-typed required attribute is an error. Attribute values are kept in the
    C++ type they are read into. *)

Inductive Attribute : Type :=
| AttrString (s : string)
| AttrUInt (z : Z)
| AttrVector (v : CVector3)
| AttrValues (l : list Z).

Inductive TConfigurationNode : Type :=
| ConfigurationNode (tag : string) (attrs : list (string * Attribute))
                    (subnodes : list TConfigurationNode).

Definition Value (t : TConfigurationNode) : string :=
  match t with ConfigurationNode v _ _ => v end.
Definition attributes (t : TConfigurationNode) : list (string * Attribute) :=
  match t with ConfigurationNode _ a _ => a end.
Definition children (t : TConfigurationNode) : list TConfigurationNode :=
  match t with ConfigurationNode _ _ c => c end.

Definition NodeNotFoundError (name : string) : CARGoSException :=
  Ex ("Node '" +:+ name +:+ "' not found").
Definition AttributeError (name : string) : CARGoSException :=
  Ex ("Error parsing attribute " +:+ quoted name).

Definition find_child (name : string) (l : list TConfigurationNode) : option TConfigurationNode :=
  List.find (fun c => String.eqb (Value c) name) l.

Definition NodeExists (t : TConfigurationNode) (name : string) : bool :=
  match find_child name (children t) with Some _ => true | None => false end.

Definition GetNode (t : TConfigurationNode) (name : string) : Try TConfigurationNode :=
  match find_child name (children t) with
  | Some c => inr c
  | None => inl (NodeNotFoundError name)
  end.

Definition AddChildNode (t child : TConfigurationNode) : TConfigurationNode :=
  ConfigurationNode (Value t) (attributes t) (children t ++ [child]).

Fixpoint set_attribute (name : string) (a : Attribute) (l : list (string * Attribute))
  : list (string * Attribute) :=
  match l with
  | [] => [(name, a)]
  | (n, x) :: l' => if String.eqb n name then (n, a) :: l' else (n, x) :: set_attribute name a l'
  end.

Definition SetNodeAttribute (t : TConfigurationNode) (name : string) (a : Attribute)
  : TConfigurationNode :=
  ConfigurationNode (Value t) (set_attribute name a (attributes t)) (children t).

(** [SetNodeAttribute(GetNode(t, child), name, a)], the child being held by
    reference: the first child with that tag is updated inside [t]. *)
Fixpoint set_in_first (child name : string) (a : Attribute) (l : list TConfigurationNode)
  : list TConfigurationNode :=
  match l with
  | [] => []
  | c :: l' => if String.eqb (Value c) child then SetNodeAttribute c name a :: l'
               else c :: set_in_first child name a l'
  end.

Definition SetChildAttribute (t : TConfigurationNode) (child name : string) (a : Attribute)
  : TConfigurationNode :=
  ConfigurationNode (Value t) (attributes t) (set_in_first child name a (children t)).

Definition find_attribute (t : TConfigurationNode) (name : string) : option Attribute :=
  snd <$> List.find (fun na => String.eqb (fst na) name) (attributes t).

Definition GetNodeAttribute_string (t : TConfigurationNode) (name : string) : Try string :=
  match find_attribute t name with
  | Some (AttrString s) => inr s
  | _ => inl (AttributeError name)
  end.

Definition GetNodeAttribute_vector (t : TConfigurationNode) (name : string) : Try CVector3 :=
  match find_attribute t name with
  | Some (AttrVector v) => inr v
  | _ => inl (AttributeError name)
  end.

(** Reading into a [UInt32]: a value outside the type's range does not parse. *)
Definition GetNodeAttribute_UInt32 (t : TConfigurationNode) (name : string) : Try Z :=
  match find_attribute t name with
  | Some (AttrUInt z) => if (0 <=? z) && (z <? 2 ^ 32) then inr z else inl (AttributeError name)
  | _ => inl (AttributeError name)
  end.

(** [GetNodeAttributeOrDefault] into a [UInt64]. *)
Definition GetNodeAttributeOrDefault_UInt64 (t : TConfigurationNode) (name : string)
           (default : Z) : Try Z :=
  match find_attribute t name with
  | None => inr default
  | Some (AttrUInt z) => if (0 <=? z) && (z <? 2 ^ 64) then inr z else inl (AttributeError name)
  | Some _ => inl (AttributeError name)
  end.

(** [GetNodeAttribute(t, "layout", strLayout); ParseValues<UInt32>(strLayout, 3, unLayout, ',')] *)
Definition GetNodeAttribute_layout (t : TConfigurationNode) (name : string) : Try (Z * Z * Z) :=
  match find_attribute t name with
  | Some (AttrValues [l0; l1; l2]) =>
      if forallb (fun z => (0 <=? z) && (z <? 2 ^ 32)) [l0; l1; l2] then inr (l0, l1, l2)
      else inl (AttributeError name)
  | _ => inl (AttributeError name)
  end.

(** ** [CreateGenerator] *)

Section CreateGenerator.

(** [operator<<] on a [CVector3], declared outside these files. *)
Variable CVector3_text : CVector3 -> string.

Definition UniformBoundsError (cMin cMax : CVector3) : CARGoSException :=
  Ex ("Uniform generator: the min is not less than or equal to max: "
      +:+ CVector3_text cMin +:+ " / " +:+ CVector3_text cMax).

Definition UnknownMethodError (strMethod : string) : CARGoSException :=
  Ex ("Unknown distribution method " +:+ quoted strMethod).

Definition CreateGenerator (t_tree : TConfigurationNode) : Try RealNumberGenerator :=
  (strMethod <-? GetNodeAttribute_string t_tree "method" ;;
   if String.eqb strMethod "uniform" then
     cMin <-? GetNodeAttribute_vector t_tree "min" ;;
     cMax <-? GetNodeAttribute_vector t_tree "max" ;;
     if negb (CVector3_le cMin cMax) then inl (UniformBoundsError cMin cMax)
     else inr (UniformGenerator cMin cMax)
   else if String.eqb strMethod "gaussian" then
     cMean <-? GetNodeAttribute_vector t_tree "mean" ;;
     cStdDev <-? GetNodeAttribute_vector t_tree "std_dev" ;;
     inr (GaussianGenerator cMean cStdDev)
   else if String.eqb strMethod "constant" then
     cValues <-? GetNodeAttribute_vector t_tree "values" ;;
     inr (ConstantGenerator cValues)
   else if String.eqb strMethod "grid" then
     cCenter <-? GetNodeAttribute_vector t_tree "center" ;;
     cDistances <-? GetNodeAttribute_vector t_tree "distances" ;;
     unLayout <-? GetNodeAttribute_layout t_tree "layout" ;;
     GridGenerator_new cCenter unLayout cDistances
   else inl (UnknownMethodError strMethod))%space.

End CreateGenerator.

(** ** Entities

    The entity classes are declared outside these files; the model keeps what
    the two files use of them. [GetClass] is the most derived class as
    [dynamic_cast] sees it ([CEmbodiedEntity] derives from [CPositionalEntity]).
    [m_pcParent] is the chain of ancestors (a tree: no cycles). A composable
    entity owns its components; a component handed out by [GetComponent] has
    the owner as its parent. *)

Inductive EntityClass : Set :=
| ClassEntity | ClassPositional | ClassEmbodied | ClassComposable | ClassControllable.

Inductive CEntity : Type := mkEntity {
  GetId : string;
  GetTypeDescription : string;
  m_pcParent : option CEntity;
  GetClass : EntityClass;
  GetPosition : CVector3;
  IsMovable : bool;
  m_mapComponents : list (string * CEntity);
}.

Definition HasParent (e : CEntity) : bool :=
  match m_pcParent e with Some _ => true | None => false end.

Definition set_parent (parent : CEntity) (e : CEntity) : CEntity :=
  mkEntity (GetId e) (GetTypeDescription e) (Some parent) (GetClass e)
           (GetPosition e) (IsMovable e) (m_mapComponents e).

(** [dynamic_cast<CEmbodiedEntity*>], [dynamic_cast<CPositionalEntity*>],
    [dynamic_cast<CComposableEntity*>] succeed. *)
Definition is_embodied (e : CEntity) : bool :=
  match GetClass e with ClassEmbodied => true | _ => false end.
Definition is_positional (e : CEntity) : bool :=
  match GetClass e with ClassPositional | ClassEmbodied => true | _ => false end.
Definition is_composable (e : CEntity) : bool :=
  match GetClass e with ClassComposable => true | _ => false end.
Definition is_controllable (e : CEntity) : bool :=
  match GetClass e with ClassControllable => true | _ => false end.

Definition find_component (e : CEntity) (name : string) : option CEntity :=
  snd <$> List.find (fun nc => String.eqb (fst nc) name) (m_mapComponents e).

Definition HasComponent (e : CEntity) (name : string) : bool :=
  match find_component e name with Some _ => true | None => false end.

Definition ComponentTypeError (name owner : string) : CARGoSException :=
  Ex ("Type conversion failed for component type " +:+ quoted name
      +:+ ", requested by entity " +:+ quoted owner).
Definition ComponentNotFoundError (name owner : string) : CARGoSException :=
  Ex ("Component " +:+ quoted name +:+ " does not exist in entity " +:+ quoted owner).

(** [GetComponent<T>(name)]: the component as a [T&]; it cannot answer with a
    null reference, so a missing component or one of another class is an
    exception. [is_T] is the cast to [T]. *)
Definition GetComponent (is_T : CEntity -> bool) (e : CEntity) (name : string) : Try CEntity :=
  match find_component e name with
  | None => inl (ComponentNotFoundError name (GetId e))
  | Some c => if is_T c then inr (set_parent e c)
              else inl (ComponentTypeError name (GetId e))
  end.

(** [GetEmbodiedEntity]: the entity itself when it is embodied, else its
    component "body" when it is composable and has one, else [NULL]. *)
Definition GetEmbodiedEntity (pc_entity : CEntity) : Try (option CEntity) :=
  if is_embodied pc_entity then inr (Some pc_entity)
  else if is_composable pc_entity && HasComponent pc_entity "body" then
    (c <-? GetComponent is_embodied pc_entity "body" ;; inr (Some c))%space
  else inr None.

(** [GetPositionalEntity], the same with "position". *)
Definition GetPositionalEntity (pc_entity : CEntity) : Try (option CEntity) :=
  if is_positional pc_entity then inr (Some pc_entity)
  else if is_composable pc_entity && HasComponent pc_entity "position" then
    (c <-? GetComponent is_positional pc_entity "position" ;; inr (Some c))%space
  else inr None.

(** [while(pcToAdd->HasParent()) pcToAdd = &pcToAdd->GetParent();] *)
Fixpoint topmost (pcToAdd : CEntity) : CEntity :=
  match m_pcParent pcToAdd with
  | Some parent => topmost parent
  | None => pcToAdd
  end.

(** ** Physics engines and the space

    Modelled from the spec: a physics engine is "an entity's container with a
    spatial domain test and an entity add/remove operation"; its classes are
    declared outside these files. The container holds pointers to root
    entities, in the order they were added. *)

Record CPhysicsEngine : Type := mkEngine {
  Engine_GetId : string;
  IsPointContained : CVector3 -> bool;
  Engine_entities : list string;
}.

Definition Engine_AddEntity (root : string) (eng : CPhysicsEngine) : CPhysicsEngine :=
  mkEngine (Engine_GetId eng) (IsPointContained eng) (Engine_entities eng ++ [root]).

(** Erases the first pointer equal to [p]. *)
Fixpoint erase (p : string) (l : list string) : list string :=
  match l with
  | [] => []
  | q :: l' => if String.eqb q p then l' else q :: erase p l'
  end.

Definition Engine_RemoveEntity (root : string) (eng : CPhysicsEngine) : CPhysicsEngine :=
  mkEngine (Engine_GetId eng) (IsPointContained eng) (erase root (Engine_entities eng)).

(** The members of [CSpace] (declared in [space.h]). A pointer to an entity is
    the entity's identifier; [objects] holds the pointed-to objects.
    [m_ptPhysicsEngines] is the simulator's vector of engines, which the space
    reaches through a pointer. *)
Record CSpace : Type := mkSpace {
  m_unSimulationClock : Z;
  objects : gmap string CEntity;
  m_vecEntities : list string;
  m_vecRootEntities : list string;
  m_mapEntitiesPerTypePerId : gmap string (gmap string string);
  m_vecControllableEntities : list string;
  m_ptPhysicsEngines : list CPhysicsEngine;
}.

Definition set_engines (engines : list CPhysicsEngine) (s : CSpace) : CSpace :=
  mkSpace (m_unSimulationClock s) (objects s) (m_vecEntities s) (m_vecRootEntities s)
          (m_mapEntitiesPerTypePerId s) (m_vecControllableEntities s) engines.

(** ** [CSpace::AddEntityToPhysicsEngine] *)

(** The loop that fills [vecPotentialEngines]: the engines whose domain holds
    [cPos], as positions in [m_ptPhysicsEngines], from position [i] on. *)
Fixpoint potential_from (i : nat) (engines : list CPhysicsEngine) (cPos : CVector3) : list nat :=
  match engines with
  | [] => []
  | eng :: rest =>
      if IsPointContained eng cPos then i :: potential_from (S i) rest cPos
      else potential_from (S i) rest cPos
  end.

Definition NoHousingEngineError (root : string) : CARGoSException :=
  Ex ("No physics engine can house entity " +:+ quoted root +:+ ".").

(** What the loop over [vecPotentialEngines] leaves in [ossEngines]. *)
Definition ossEngines_str (ids : list string) : string :=
  match ids with
  | [] => EmptyString
  | id0 :: rest => fold_left (fun oss id => oss +:+ ", " +:+ quoted id) rest (quoted id0)
  end.

Section Binder.

(** [what << ossEngines] inserts the stream object, not [ossEngines.str()].
    No inserter takes a stream: before C++11 the operand converts to [void*] and
    the address of the object is written; from C++11 on the expression is
    rejected by the compiler. [stream_address] is the text of that address. *)
Variable stream_address : string.

Definition insert_ostringstream (what : string) (oss : string) : string :=
  what +:+ stream_address.

Definition AmbiguousEngineError (id : string) (ossEngines : string) : CARGoSException :=
  Ex (insert_ostringstream
        ("Multiple engines can house " +:+ quoted id
         +:+ ", but a movable entity and can only be added to a single engine. "
         +:+ "Conflicting engines: ")
        ossEngines).

Definition AddEntityToPhysicsEngine (c_entity : CEntity) : M CSpace unit :=
  fun s =>
    let pcToAdd := topmost c_entity in
    let cPos := GetPosition c_entity in
    let engines := m_ptPhysicsEngines s in
    let vecPotentialEngines := potential_from 0 engines cPos in
    match vecPotentialEngines with
    | [] => Throws (NoHousingEngineError (GetId pcToAdd)) s
    | first :: others =>
        if negb (IsMovable c_entity) then
          Returns tt (set_engines
                        (fold_left (fun engs p => alter (Engine_AddEntity (GetId pcToAdd)) p engs)
                                   vecPotentialEngines engines) s)
        else if (length vecPotentialEngines =? 1)%nat then
          Returns tt (set_engines (alter (Engine_AddEntity (GetId pcToAdd)) first engines) s)
        else
          let ids := omap (fun p => Engine_GetId <$> engines !! p) vecPotentialEngines in
          Throws (AmbiguousEngineError (GetId c_entity) (ossEngines_str ids)) s
    end.

End Binder.

(** ** The registry operations

    Modelled from the spec: [CallEntityOperation<CSpaceOperationAddEntity>] and
    [CallEntityOperation<CSpaceOperationRemoveEntity>] are defined outside these
    files. The spec: "add(entity) inserts into flat list, type/ID sub-mapping,
    and (if root) root list, and (if controllable) controllable list;
    remove(entity) is the inverse, and recursively removes all of the entity's
    owned children first (post-order)"; an embodied entity is also added to
    (removed from) its physics engines. *)

Definition register (e : CEntity) (s : CSpace) : CSpace :=
  let p := GetId e in
  let ty := GetTypeDescription e in
  mkSpace (m_unSimulationClock s)
          (<[p := e]> (objects s))
          (m_vecEntities s ++ [p])
          (if HasParent e then m_vecRootEntities s else m_vecRootEntities s ++ [p])
          (<[ty := <[p := p]> (default ∅ (m_mapEntitiesPerTypePerId s !! ty))]>
             (m_mapEntitiesPerTypePerId s))
          (if is_controllable e then m_vecControllableEntities s ++ [p]
           else m_vecControllableEntities s)
          (m_ptPhysicsEngines s).

Definition unregister (is_root : bool) (e : CEntity) (s : CSpace) : CSpace :=
  let p := GetId e in
  let ty := GetTypeDescription e in
  mkSpace (m_unSimulationClock s)
          (delete p (objects s))
          (erase p (m_vecEntities s))
          (if is_root then erase p (m_vecRootEntities s) else m_vecRootEntities s)
          (alter (delete p) ty (m_mapEntitiesPerTypePerId s))
          (if is_controllable e then erase p (m_vecControllableEntities s)
           else m_vecControllableEntities s)
          (m_ptPhysicsEngines s).

(** Children first (post-order), then the entity itself. *)
Fixpoint unregister_tree (is_root : bool) (e : CEntity) (s : CSpace) : CSpace :=
  let s' :=
    (fix children_first (cs : list (string * CEntity)) (s : CSpace) : CSpace :=
       match cs with
       | [] => s
       | nc :: cs' => children_first cs' (unregister_tree false (snd nc) s)
       end) (m_mapComponents e) s in
  unregister is_root e s'.

Definition RemoveEntityFromPhysicsEngine (root : string) (s : CSpace) : CSpace :=
  set_engines (Engine_RemoveEntity root <$> m_ptPhysicsEngines s) s.

Section Operations.

Variable stream_address : string.

(** [pcEmbodied] is the embodied entity found in [e] ([None] when there is none). *)
Definition CallEntityOperation_AddEntity (e : CEntity) (pcEmbodied : option CEntity)
  : M CSpace unit :=
  (modify (register e) ;;;
   match pcEmbodied with
   | Some body => AddEntityToPhysicsEngine stream_address body
   | None => ret tt
   end)%space.

Definition CallEntityOperation_RemoveEntity (e : CEntity) (pcEmbodied : option CEntity)
  : M CSpace unit :=
  modify (fun s =>
            let s' := unregister_tree (negb (HasParent e)) e s in
            match pcEmbodied with
            | Some body => RemoveEntityFromPhysicsEngine (GetId (topmost body)) s'
            | None => s'
            end).

End Operations.

(** ** [CSpace::Distribute] *)

Definition CannotDistributeError (type : string) : CARGoSException :=
  Ex ("Cannot distribute entities that are not positional nor embodied, and "
      +:+ quoted type +:+ " is neither.").

Definition MaxTrialsExceededError (type strBaseId : string) (i : Z) : CARGoSException :=
  Ex ("Exceeded max trials when trying to distribute objects of type " +:+ type
      +:+ " with base id " +:+ quoted strBaseId
      +:+ ". I managed to place only " +:+ ToString i +:+ " objects.").

Definition NoEntityError : CARGoSException := Ex "No entity to distribute specified.".

Definition DistributeError (ex : CARGoSException) : CARGoSException :=
  ExNested "Error while trying to distribute entities" ex.

(** What the head of [Distribute] reads from the directive. *)
Record Directive : Type := mkDirective {
  dir_position : RealNumberGenerator;
  dir_orientation : RealNumberGenerator;
  dir_unQuantity : Z;
  dir_unMaxTrials : Z;
  dir_unBaseNum : Z;
  dir_itEntity : TConfigurationNode;
  dir_strBaseId : string;
}.

Section Distribute.

Variable RNG : Type.
Variable Uniform : RNG -> Real -> Real -> Real * RNG.
Variable Gaussian : RNG -> Real -> Real -> Real * RNG.
Variable CVector3_text : CVector3 -> string.
Variable stream_address : string.

(** The entity classes registered with the factory, outside these files:
    [CFactory<CEntity>::New(type)] and the virtual [CEntity::Init(tree)]. *)
Variable CFactory_New : string -> Try CEntity.
Variable Init : CEntity -> TConfigurationNode -> Try CEntity.

(** [CEmbodiedEntity::IsCollidingWithSomething()], answered by the physics
    engines from the world as it is when asked. *)
Variable IsCollidingWithSomething : CSpace -> CEntity -> bool.

(** The state [Distribute] works on: the space, the simulator's RNG, and the
    two generator objects it allocates. *)
Record Placement : Type := mkPlacement {
  space : CSpace;
  rng : RNG;
  pcPositionGenerator : RealNumberGenerator;
  pcOrientationGenerator : RealNumberGenerator;
}.

Definition in_space {A} (m : M CSpace A) : M Placement A :=
  fun st =>
    let back s := mkPlacement s (rng st) (pcPositionGenerator st) (pcOrientationGenerator st) in
    match m (space st) with
    | Returns a s => Returns a (back s)
    | Throws e s => Throws e (back s)
    | OutOfFuel s => OutOfFuel (back s)
    end.

(** The call of the position generator with [bRetry]. *)
Definition position_draw (bRetry : bool) : M Placement CVector3 :=
  fun st =>
    let back '(g, r) := mkPlacement (space st) r g (pcOrientationGenerator st) in
    match call RNG Uniform Gaussian bRetry (pcPositionGenerator st, rng st) with
    | Returns v gr => Returns v (back gr)
    | Throws e gr => Throws e (back gr)
    | OutOfFuel gr => OutOfFuel (back gr)
    end.

(** The call of the orientation generator with [bRetry]. *)
Definition orientation_draw (bRetry : bool) : M Placement CVector3 :=
  fun st =>
    let back '(g, r) := mkPlacement (space st) r (pcPositionGenerator st) g in
    match call RNG Uniform Gaussian bRetry (pcOrientationGenerator st, rng st) with
    | Returns v gr => Returns v (back gr)
    | Throws e gr => Throws e (back gr)
    | OutOfFuel gr => OutOfFuel (back gr)
    end.

(** The [do { ... } while(!bDone);] loop placing copy [i]. Each iteration
    consumes one unit of [fuel]; [tEntityTree], [unTrials] and [bRetry] are the
    local variables carried from one iteration to the next. *)
Fixpoint place (fuel : nat) (i unMaxTrials : Z) (strBaseId : string)
         (tEntityTree : TConfigurationNode) (unTrials : Z) (bRetry : bool)
  : M Placement unit :=
  match fuel with
  | O => fun st => OutOfFuel st
  | S fuel' =>
      (pcEntity <~ lift_try (CFactory_New (Value tEntityTree)) ;;
       let tEntityTree :=
         if negb (NodeExists tEntityTree "body")
         then AddChildNode tEntityTree (ConfigurationNode "body" [] [])
         else tEntityTree in
       cPosition <~ position_draw bRetry ;;
       let tEntityTree := SetChildAttribute tEntityTree "body" "position" (AttrVector cPosition) in
       cOrientation <~ orientation_draw bRetry ;;
       let tEntityTree :=
         SetChildAttribute tEntityTree "body" "orientation" (AttrVector cOrientation) in
       pcEntity <~ lift_try (Init pcEntity tEntityTree) ;;
       pcEmbodiedEntity <~ lift_try (GetEmbodiedEntity pcEntity) ;;
       match pcEmbodiedEntity with
       | None =>
           pcPositionalEntity <~ lift_try (GetPositionalEntity pcEntity) ;;
           match pcPositionalEntity with
           | None => throw (CannotDistributeError (Value tEntityTree))
           | Some _ =>
               in_space (CallEntityOperation_AddEntity stream_address pcEntity None) ;;;
               (* bDone is still false *)
               place fuel' i unMaxTrials strBaseId tEntityTree unTrials bRetry
           end
       | Some body =>
           in_space (CallEntityOperation_AddEntity stream_address pcEntity (Some body)) ;;;
           st <~ get ;;
           if IsCollidingWithSomething (space st) body then
             in_space (CallEntityOperation_RemoveEntity pcEntity (Some body)) ;;;
             let unTrials := wrap32 (unTrials + 1) in
             if unTrials >? unMaxTrials then
               throw (MaxTrialsExceededError (Value tEntityTree) strBaseId i)
             else place fuel' i unMaxTrials strBaseId tEntityTree unTrials true
           else ret tt (* bDone = true *)
       end)%space
  end.

(** [for(UInt32 i = 0; i < unQuantity; ++i)], from [i] on; [remaining] is
    [unQuantity - i]. *)
Fixpoint copies (fuel : nat) (itEntity : TConfigurationNode) (strBaseId : string)
         (unMaxTrials unBaseNum : Z) (remaining : nat) (i : Z) : M Placement unit :=
  match remaining with
  | O => ret tt
  | S remaining' =>
      let tEntityTree :=
        SetNodeAttribute itEntity "id"
                         (AttrString (strBaseId +:+ ToString (wrap64 (i + unBaseNum)))) in
      (place fuel i unMaxTrials strBaseId tEntityTree 0 false ;;;
       copies fuel itEntity strBaseId unMaxTrials unBaseNum remaining' (i + 1))%space
  end.

(** The generators live from their creation to the end of the call. *)
Definition with_generators {A} (gp go : RealNumberGenerator) (m : M Placement A)
  : M (CSpace * RNG) A :=
  fun '(s, r) =>
    match m (mkPlacement s r gp go) with
    | Returns a st => Returns a (space st, rng st)
    | Throws e st => Throws e (space st, rng st)
    | OutOfFuel st => OutOfFuel (space st, rng st)
    end.

(** The head of [Distribute], up to the loop: the nodes, the generators and
    the attributes, read in the order of the source. *)
Definition read_directive (t_tree : TConfigurationNode) : Try Directive :=
  (cPositionNode <-? GetNode t_tree "position" ;;
   cOrientationNode <-? GetNode t_tree "orientation" ;;
   cEntityNode <-? GetNode t_tree "entity" ;;
   gp <-? CreateGenerator CVector3_text cPositionNode ;;
   go <-? CreateGenerator CVector3_text cOrientationNode ;;
   unQuantity <-? GetNodeAttribute_UInt32 cEntityNode "quantity" ;;
   unMaxTrials <-? GetNodeAttribute_UInt32 cEntityNode "max_trials" ;;
   unBaseNum <-? GetNodeAttributeOrDefault_UInt64 cEntityNode "base_num" 0 ;;
   match children cEntityNode with
   | [] => inl NoEntityError
   | itEntity :: _ =>
       strBaseId <-? GetNodeAttribute_string itEntity "id" ;;
       inr (mkDirective gp go unQuantity unMaxTrials unBaseNum itEntity strBaseId)
   end)%space.

Definition Distribute (fuel : nat) (t_tree : TConfigurationNode) : M (CSpace * RNG) unit :=
  rethrow_nested "Error while trying to distribute entities"
    (d <~ lift_try (read_directive t_tree) ;;
     with_generators (dir_position d) (dir_orientation d)
       (copies fuel (dir_itEntity d) (dir_strBaseId d) (dir_unMaxTrials d) (dir_unBaseNum d)
               (Z.to_nat (dir_unQuantity d)) 0))%space.

End Distribute.

(** ** [CSpace::Update] *)

(** The calls [Update] makes, in the order of the function body below. All but
    the first are virtual functions or collaborators defined outside these
    files. *)
Inductive Phase : Set :=
| IncreaseSimulationClock
| UpdateControllableEntitiesAct
| UpdatePhysics
| UpdateMedia
| PreStep
| UpdateControllableEntitiesSenseStep
| PostStep
| LogFlush
| LogErrFlush.

(** What an observer of one step sees: a call begins, a call returns. *)
Inductive Event : Set :=
| Begins (p : Phase)
| Completes (p : Phase).

Section Update.

(** The state of the collaborators (controllers, engine internals, media, loop
    functions, logs), and what each call does to it and to the space. *)
Variable Collaborators : Type.
Variable run : Phase -> M (CSpace * Collaborators) unit.

Record Simulation : Type := mkSimulation {
  sim_space : CSpace;
  sim_collaborators : Collaborators;
  sim_trace : list Event;
}.

(** Modelled from the spec: [IncreaseSimulationClock()] is an inline member
    declared in [space.h]; it "advances a discrete tick counter", a [UInt32]. *)
Definition increase_clock (s : CSpace) : CSpace :=
  mkSpace (wrap32 (m_unSimulationClock s + 1)) (objects s) (m_vecEntities s)
          (m_vecRootEntities s) (m_mapEntitiesPerTypePerId s)
          (m_vecControllableEntities s) (m_ptPhysicsEngines s).

Definition effect (p : Phase) : M (CSpace * Collaborators) unit :=
  match p with
  | IncreaseSimulationClock => modify (fun sc => (increase_clock (fst sc), snd sc))
  | _ => run p
  end.

(** One call statement of [Update]: it begins, runs to its end, and only
    then returns to [Update]. *)
Definition perform (p : Phase) : M Simulation unit :=
  fun st =>
    let begun := sim_trace st ++ [Begins p] in
    match effect p (sim_space st, sim_collaborators st) with
    | Returns _ (s, c) => Returns tt (mkSimulation s c (begun ++ [Completes p]))
    | Throws e (s, c) => Throws e (mkSimulation s c begun)
    | OutOfFuel (s, c) => OutOfFuel (mkSimulation s c begun)
    end.

Definition Update : M Simulation unit :=
  (perform IncreaseSimulationClock ;;;
   perform UpdateControllableEntitiesAct ;;;
   perform UpdatePhysics ;;;
   perform UpdateMedia ;;;
   perform PreStep ;;;
   perform UpdateControllableEntitiesSenseStep ;;;
   perform PostStep ;;;
   perform LogFlush ;;;
   perform LogErrFlush)%space.

End Update.

(** ** [CSpace::Reset] *)

Section Reset.

(** The virtual [CEntity::Reset()], defined by the entity classes outside these
    files: what it makes of the object it is called on. *)
Variable CEntity_Reset : CEntity -> Try CEntity.

(** [m_vecEntities[i]->Reset()] on the object [p] points to. *)
Definition reset_object (p : string) : M CSpace unit :=
  fun s =>
    match objects s !! p with
    | None => Returns tt s
    | Some e =>
        match CEntity_Reset e with
        | inl ex => Throws ex s
        | inr e' =>
            Returns tt (mkSpace (m_unSimulationClock s) (<[p := e']> (objects s))
                                (m_vecEntities s) (m_vecRootEntities s)
                                (m_mapEntitiesPerTypePerId s)
                                (m_vecControllableEntities s) (m_ptPhysicsEngines s))
        end
    end.

(** [for(UInt32 i = 0; i < m_vecEntities.size(); ++i)] over the pointers
    the vector holds when the loop starts (a vector of fewer than 2^32
    elements, so that [i] does not wrap). *)
Fixpoint reset_all (ps : list string) : M CSpace unit :=
  match ps with
  | [] => ret tt
  | p :: ps' => (reset_object p ;;; reset_all ps')%space
  end.

Definition Reset : M CSpace unit :=
  (modify (fun s => mkSpace 0 (objects s) (m_vecEntities s) (m_vecRootEntities s)
                            (m_mapEntitiesPerTypePerId s) (m_vecControllableEntities s)
                            (m_ptPhysicsEngines s)) ;;;
   s <~ get ;;
   reset_all (m_vecEntities s))%space.

End Reset.

(** ** [CTagEquippedEntity::SetTagPayloads] *)

Record CQuaternion : Set := mkQuaternion { GetW : Real; QX : Real; QY : Real; QZ : Real }.

(** [CTagEntity], of which these files use the payload. *)
Record CTagEntity : Type := mkTag {
  Tag_GetId : string;
  GetPayload : string;
}.

Definition SetPayload (str_payload : string) (t : CTagEntity) : CTagEntity :=
  mkTag (Tag_GetId t) str_payload.

(** [SInstance]; [Anchor] is a reference to an anchor of the body, kept by name. *)
Record SInstance : Type := mkInstance {
  Tag : CTagEntity;
  Anchor : string;
  PositionOffset : CVector3;
  OrientationOffset : CQuaternion;
}.

Record CTagEquippedEntity : Type := mkTagEquipped {
  GetContext : string;
  TagEquipped_GetId : string;
  m_vecInstances : list SInstance;
}.

Definition Instance_SetPayload (str_payload : string) (i : SInstance) : SInstance :=
  mkInstance (SetPayload str_payload (Tag i)) (Anchor i) (PositionOffset i) (OrientationOffset i).

Definition PayloadSizeError (e : CTagEquippedEntity) (vec_payloads : list string)
  : CARGoSException :=
  Ex ("CTagEquippedEntity::SetTagPayloads(), id=" +:+ dq
      +:+ (GetContext e +:+ TagEquipped_GetId e) +:+ dq
      +:+ ": number of tags (" +:+ ToString (Z.of_nat (length (m_vecInstances e)))
      +:+ ") does not equal the passed payload vector size ("
      +:+ ToString (Z.of_nat (length vec_payloads)) +:+ ")").

(** [for(UInt32 i = 0; i < vec_payloads.size(); ++i)
       m_vecInstances[i].Tag.SetPayload(vec_payloads[i]);] from index [i] on,
    [rest] being the payloads from [i] on (a vector of fewer than 2^32
    payloads, so that the [UInt32] index reaches its size). *)
Fixpoint payload_loop (i : nat) (rest : list string) (instances : list SInstance)
  : list SInstance :=
  match rest with
  | [] => instances
  | str_payload :: rest' =>
      payload_loop (S i) rest' (alter (Instance_SetPayload str_payload) i instances)
  end.

Definition SetTagPayloads (vec_payloads : list string) : M CTagEquippedEntity unit :=
  fun e =>
    if (length vec_payloads =? length (m_vecInstances e))%nat then
      Returns tt (mkTagEquipped (GetContext e) (TagEquipped_GetId e)
                                (payload_loop 0 vec_payloads (m_vecInstances e)))
    else Throws (PayloadSizeError e vec_payloads) e.

(** ** Observations used to state the properties *)

Section Successive.

Variable RNG : Type.
Variable Uniform : RNG -> Real -> Real -> Real * RNG.
Variable Gaussian : RNG -> Real -> Real -> Real * RNG.

(** What [n] successive calls with [b_is_retry = false] answer, first call first. *)
Fixpoint successive (n : nat) (st : RealNumberGenerator * RNG)
  : list (CARGoSException + CVector3) :=
  match n with
  | O => []
  | S n' =>
      match call RNG Uniform Gaussian false st with
      | Returns v st' => inr v :: successive n' st'
      | Throws e st' => inl e :: successive n' st'
      | OutOfFuel _ => []
      end
  end.

End Successive.

(** The cell of a grid at indices [(ix, iy, iz)]: on each axis the cells are
    spaced by the distance and centred on the centre, the index counting down
    from the far end. *)
Definition Grid_cell (c_center : CVector3) (un_layout : Z * Z * Z) (c_distances : CVector3)
           (ix iy iz : Z) : CVector3 :=
  let '(l0, l1, l2) := un_layout in
  mkVector3
    (GetX c_center + UInt32_to_Real (l0 - 1) * GetX c_distances * 0.5
     - UInt32_to_Real ix * GetX c_distances)%float
    (GetY c_center + UInt32_to_Real (l1 - 1) * GetY c_distances * 0.5
     - UInt32_to_Real iy * GetY c_distances)%float
    (GetZ c_center + UInt32_to_Real (l2 - 1) * GetZ c_distances * 0.5
     - UInt32_to_Real iz * GetZ c_distances)%float.

(** [lo <= v <= hi] on binary64. *)
Definition within (lo v hi : Real) : bool := ((lo <=? v) && (v <=? hi))%float.

Arguments within (lo v hi)%_float.

(** The contract of the RNG's [Uniform] on a non-empty range: the draw lies in
    the range. *)
Definition Uniform_in_range {RNG : Type} (Uniform : RNG -> Real -> Real -> Real * RNG) : Prop :=
  forall rng lo hi, (lo <? hi)%float = true -> within lo (fst (Uniform rng lo hi)) hi = true.

(** An RNG whose [Uniform] answers the lower bound and whose [Gaussian] answers
    the mean; its state is [unit]. *)
Definition lowest_Uniform (rng : unit) (lo hi : Real) : Real * unit := (lo, rng).
Definition mean_Gaussian (rng : unit) (std_dev mean : Real) : Real * unit := (mean, rng).

(** The engine's domain holds the position of the embodied entity. *)
Definition houses (c_entity : CEntity) (eng : CPhysicsEngine) : bool :=
  IsPointContained eng (GetPosition c_entity).

(** The engines once the root of [c_entity] has been added to each engine that
    houses [c_entity], the others left as they were. *)
Definition added_to_housing (c_entity : CEntity) (engines : list CPhysicsEngine)
  : list CPhysicsEngine :=
  (fun eng => if houses c_entity eng
              then Engine_AddEntity (GetId (topmost c_entity)) eng else eng) <$> engines.

(** [a] is [e] or one of its ancestors. *)
Inductive ancestor_or_self (a : CEntity) : CEntity -> Prop :=
| itself : ancestor_or_self a a
| above (e parent : CEntity) :
    m_pcParent e = Some parent -> ancestor_or_self a parent -> ancestor_or_self a e.

(** [needle] occurs in [text]. *)
Fixpoint occurs_in (needle text : string) : bool :=
  String.prefix needle text
  || match text with
     | EmptyString => false
     | String _ rest => occurs_in needle rest
     end.

(** A movable body at the origin, component "body" of the root "fb0", and two
    engines whose domains both hold the origin. *)
Definition fb0 : CEntity :=
  mkEntity "fb0" "foot-bot" None ClassComposable (mkVector3 0 0 0) true [].
Definition fb0_body : CEntity :=
  mkEntity "body" "body" (Some fb0) ClassEmbodied (mkVector3 0 0 0) true [].
Definition dyn2d_a : CPhysicsEngine := mkEngine "dyn2d_a" (fun _ => true) [].
Definition dyn2d_b : CPhysicsEngine := mkEngine "dyn2d_b" (fun _ => true) [].
Definition empty_space (engines : list CPhysicsEngine) : CSpace :=
  mkSpace 0 ∅ [] [] ∅ [] engines.

(** The entry of the type/ID index for type [ty] and identifier [id]. *)
Definition entry (s : CSpace) (ty id : string) : option string :=
  m_mapEntitiesPerTypePerId s !! ty ≫= (.!! id).

(** Two spaces with the same clock, objects, flat collection, roots,
    controllables, engines, and the same entries in the type/ID index. *)
Record same_registry (s s' : CSpace) : Prop := mkSame {
  same_clock : m_unSimulationClock s = m_unSimulationClock s';
  same_objects : objects s = objects s';
  same_entities : m_vecEntities s = m_vecEntities s';
  same_roots : m_vecRootEntities s = m_vecRootEntities s';
  same_controllables : m_vecControllableEntities s = m_vecControllableEntities s';
  same_engines : m_ptPhysicsEngines s = m_ptPhysicsEngines s';
  same_entries : forall ty id, entry s ty id = entry s' ty id;
}.

(** No index of the registry, and no engine, holds the identifier [p]. *)
Record unregistered (s : CSpace) (p : string) : Prop := mkUnregistered {
  not_object : objects s !! p = None;
  not_entity : p ∉ m_vecEntities s;
  not_root : p ∉ m_vecRootEntities s;
  not_controllable : p ∉ m_vecControllableEntities s;
  not_entry : forall ty, entry s ty p = None;
  not_in_engine : forall eng, eng ∈ m_ptPhysicsEngines s -> p ∉ Engine_entities eng;
}.

(** The identifiers of [e] and of all the components below it are unregistered. *)
Inductive FreshTree (s : CSpace) : CEntity -> Prop :=
| FreshNode (e : CEntity) :
    unregistered s (GetId e) ->
    (forall nc, In nc (m_mapComponents e) -> FreshTree s (snd nc)) ->
    FreshTree s e.

(** The engines can take the embodied entity: some domain holds its position,
    and exactly one does when it is movable. *)
Definition housable (engines : list CPhysicsEngine) (body : CEntity) : Prop :=
  if IsMovable body then length (List.filter (houses body) engines) = 1%nat
  else (1 <= length (List.filter (houses body) engines))%nat.

(** A generator that answers every call, retries included: any but the grid. *)
Definition steady (g : RealNumberGenerator) : Prop :=
  match g with GridGenerator _ _ _ _ => False | _ => True end.

(** A generator that can answer [n] more calls without retry. *)
Definition has_cells (n : Z) (g : RealNumberGenerator) : Prop :=
  match g with
  | GridGenerator _ l _ placed => 0 <= placed /\ placed + n <= Grid_cells l
  | _ => True
  end.

(** The tree [Distribute] hands to [Init] for a copy named [id]: the "id"
    attribute is [id], and the "body" child carries a position and an
    orientation. *)
Definition ready (id : string) (tree : TConfigurationNode) : Prop :=
  GetNodeAttribute_string tree "id" = inr id
  /\ exists body cPosition cOrientation,
      GetNode tree "body" = inr body
      /\ GetNodeAttribute_vector body "position" = inr cPosition
      /\ GetNodeAttribute_vector body "orientation" = inr cOrientation.

(** The identifier of copy [i]: [strBaseId + ToString(i + unBaseNum)], the sum
    taken in [UInt64]. *)
Definition copy_id (strBaseId : string) (unBaseNum i : Z) : string :=
  strBaseId +:+ ToString (wrap64 (i + unBaseNum)).

(** The tree one pass of the placement loop hands to [Init]: the "body" child
    is created if missing, then given the drawn position and orientation. *)
Definition prepared (tEntityTree : TConfigurationNode) (cPosition cOrientation : CVector3)
  : TConfigurationNode :=
  SetChildAttribute
    (SetChildAttribute
       (if negb (NodeExists tEntityTree "body")
        then AddChildNode tEntityTree (ConfigurationNode "body" [] [])
        else tEntityTree)
       "body" "position" (AttrVector cPosition))
    "body" "orientation" (AttrVector cOrientation).

Section PlacementObservations.

Variable RNG : Type.

(** The placement state with its space replaced. *)
Definition with_space (s : CSpace) (st : Placement RNG) : Placement RNG :=
  mkPlacement RNG s (rng RNG st) (pcPositionGenerator RNG st) (pcOrientationGenerator RNG st).

End PlacementObservations.

(** What an outcome leaves of the space, and whether the call returned. *)
Definition final_space {R A : Type} (o : Outcome (CSpace * R) A) : CSpace :=
  match o with Returns _ (s, _) | Throws _ (s, _) | OutOfFuel (s, _) => s end.

Definition thrown {S A : Type} (o : Outcome S A) : option CARGoSException :=
  match o with Throws e _ => Some e | _ => None end.

(** The object the pointer [p] leads to carries [p] as its identifier. *)
Definition holds (s : CSpace) (p : string) : Prop :=
  exists e, objects s !! p = Some e /\ GetId e = p.

(** ** A small scene

    Two entity types: "box", a composable entity whose [Init] creates an
    embodied component "body" at the position of the "body" node, and "light",
    a positional entity. One engine whose domain is the whole space. *)

Definition origin : CVector3 := mkVector3 0 0 0.

Definition sample_New (type : string) : Try CEntity :=
  if String.eqb type "box" then
    inr (mkEntity EmptyString "box" None ClassComposable origin true [])
  else if String.eqb type "light" then
    inr (mkEntity EmptyString "light" None ClassPositional origin true [])
  else inl (Ex ("Symbol " +:+ quoted type +:+ " not found")).

Definition sample_Init (e : CEntity) (t : TConfigurationNode) : Try CEntity :=
  (id <-? GetNodeAttribute_string t "id" ;;
   body <-? GetNode t "body" ;;
   cPosition <-? GetNodeAttribute_vector body "position" ;;
   inr (mkEntity id (GetTypeDescription e) None (GetClass e) cPosition true
                 (if is_composable e
                  then [("body", mkEntity "body" "body" None ClassEmbodied cPosition true [])]
                  else [])))%space.

Definition sample_text (v : CVector3) : string := "<vector>".

Definition constant_at_origin : list (string * Attribute) :=
  [("method", AttrString "constant"); ("values", AttrVector origin)].

Definition grid_of_two : list (string * Attribute) :=
  [("method", AttrString "grid"); ("center", AttrVector origin);
   ("distances", AttrVector (mkVector3 1 0 0)); ("layout", AttrValues [2; 1; 1])].

(** [<distribute> <position .../> <orientation .../>
      <entity quantity max_trials [base_num]> <type id="type"/> </entity> </distribute>] *)
Definition sample_directive (position : list (string * Attribute)) (type : string)
           (quantity max_trials : Z) (base_num : list (string * Attribute))
  : TConfigurationNode :=
  ConfigurationNode "distribute" []
    [ConfigurationNode "position" position [];
     ConfigurationNode "orientation" constant_at_origin [];
     ConfigurationNode "entity"
       ([("quantity", AttrUInt quantity); ("max_trials", AttrUInt max_trials)] ++ base_num)
       [ConfigurationNode type [("id", AttrString type)] []]].

Definition everywhere : CPhysicsEngine := mkEngine "dyn2d" (fun _ => true) [].

Definition sample_Distribute (colliding : bool) (fuel : nat) (t_tree : TConfigurationNode)
  : Outcome (CSpace * unit) unit :=
  Distribute unit lowest_Uniform mean_Gaussian sample_text "0x7ffc0d367dd0"
             sample_New sample_Init (fun _ _ => colliding) fuel t_tree
             (empty_space [everywhere], tt).

(** The spatial domains of the engines, in order. *)
Definition domains (engines : list CPhysicsEngine) : list (CVector3 -> bool) :=
  IsPointContained <$> engines.

Definition returned {S A : Type} (o : Outcome S A) : bool :=
  match o with Returns _ _ => true | _ => false end.

(** The calls of one step, in order. *)
Definition step_order : list Phase :=
  [IncreaseSimulationClock; UpdateControllableEntitiesAct; UpdatePhysics; UpdateMedia;
   PreStep; UpdateControllableEntitiesSenseStep; PostStep; LogFlush; LogErrFlush].

(** What the observer sees when the calls [ps] all run to their end, one after
    the other. *)
Definition completed (ps : list Phase) : list Event :=
  flat_map (fun p => [Begins p; Completes p]) ps.

Section UpdateObservations.

Variable Collaborators : Type.
Variable run : Phase -> M (CSpace * Collaborators) unit.

(** The calls [ps] as successive statements. *)
Fixpoint in_sequence (ps : list Phase) : M (Simulation Collaborators) unit :=
  match ps with
  | [] => ret tt
  | p :: ps' => bind (perform Collaborators run p) (fun _ => in_sequence ps')
  end.

End UpdateObservations.

(** The registry of [s'] has the structure of that of [s]: the same pointers
    in the flat collection, the root and controllable collections and the
    type/ID index, the same engines, and behind every pointer an object with
    the identifier it had. *)
Record same_structure (s s' : CSpace) : Prop := mkSameStructure {
  kept_entities : m_vecEntities s' = m_vecEntities s;
  kept_roots : m_vecRootEntities s' = m_vecRootEntities s;
  kept_index : m_mapEntitiesPerTypePerId s' = m_mapEntitiesPerTypePerId s;
  kept_controllables : m_vecControllableEntities s' = m_vecControllableEntities s;
  kept_engines : m_ptPhysicsEngines s' = m_ptPhysicsEngines s;
  kept_identifiers : forall p, GetId <$> objects s' !! p = GetId <$> objects s !! p;
}.

(** An entity class whose [Reset] puts the entity back at the origin. *)
Definition sample_Reset (e : CEntity) : Try CEntity :=
  inr (mkEntity (GetId e) (GetTypeDescription e) (m_pcParent e) (GetClass e) origin
                (IsMovable e) (m_mapComponents e)).

(** What [SetTagPayloads] leaves alone in an instance. *)
Definition instance_frame (i : SInstance) : string * string * CVector3 * CQuaternion :=
  (Tag_GetId (Tag i), Anchor i, PositionOffset i, OrientationOffset i).

(** ** Induction principles for entities *)

(** Induction along the chain of ancestors. *)
Fixpoint CEntity_parent_ind (P : CEntity -> Prop)
         (step : forall e, (forall parent, m_pcParent e = Some parent -> P parent) -> P e)
         (e : CEntity) {struct e} : P e :=
  match e as e0 return P e0 with
  | mkEntity id ty parent cls pos mov comps =>
      step (mkEntity id ty parent cls pos mov comps)
           (match parent as o return forall p, o = Some p -> P p with
            | Some q => fun p E => eq_rect q P (CEntity_parent_ind P step q) p
                                           (f_equal (fun o => default q o) E)
            | None => fun p E => match Some_ne_None _ (eq_sym E) with end
            end)
  end.

(** Induction down the tree of components. *)
Fixpoint CEntity_components_ind (P : CEntity -> Prop)
         (step : forall x, (forall nc, In nc (m_mapComponents x) -> P (snd nc)) -> P x)
         (x : CEntity) {struct x} : P x :=
  match x as x0 return P x0 with
  | mkEntity id ty parent cls pos mov comps =>
      step (mkEntity id ty parent cls pos mov comps)
           ((fix all (cs : list (string * CEntity)) : forall nc, In nc cs -> P (snd nc) :=
               match cs with
               | [] => fun nc (H : In nc []) => match H with end
               | c :: cs' =>
                   fun nc (H : In nc (c :: cs')) =>
                     match H with
                     | or_introl E =>
                         eq_rect c (fun z => P (snd z))
                                 (CEntity_components_ind P step (snd c)) nc E
                     | or_intror H' => all cs' nc H'
                     end
               end) comps)
  end.

(** * The rest of the two files

    The member functions of [CSpace] and [CTagEquippedEntity] that the sections
    above do not need: the registry lookups, the controllable collection,
    tear-down, scene construction, and the accessors of the tags. *)

(** ** [CSpace::GetEntitiesMatching] *)

Section Matching.

(** [MatchPattern(str_input, str_pattern)], declared in [string_utilities.h]. *)
Variable MatchPattern : string -> string -> bool.

(** The test of the loop on the entity the iterator [it] points to. *)
Definition matches (s : CSpace) (str_pattern : string) (it : string) : bool :=
  match objects s !! it with
  | Some e => MatchPattern (GetId e) str_pattern
  | None => false
  end.

(** The loop from the iterator position on: [its] are the pointers from [it]
    to the end of [m_vecEntities]; a match is pushed at the back of
    [t_buffer]. *)
Fixpoint matching_from (s : CSpace) (str_pattern : string) (its : list string)
         (t_buffer : list string) : list string :=
  match its with
  | [] => t_buffer
  | it :: rest =>
      matching_from s str_pattern rest
                    (if matches s str_pattern it then t_buffer ++ [it] else t_buffer)
  end.

(** The buffer is passed by reference; the function answers what it holds at
    the end. The space is not changed. *)
Definition GetEntitiesMatching (t_buffer : list string) (str_pattern : string) (s : CSpace)
  : list string :=
  matching_from s str_pattern (m_vecEntities s) t_buffer.

End Matching.

(** ** [CSpace::GetEntitiesByType] *)

Definition TypeNotFoundError (str_type : string) : CARGoSException :=
  Ex ("Entity map for type " +:+ quoted str_type +:+ " not found.").

Definition GetEntitiesByType (str_type : string) (s : CSpace) : Try (gmap string string) :=
  match m_mapEntitiesPerTypePerId s !! str_type with
  | Some itEntities_second => inr itEntities_second
  | None => inl (TypeNotFoundError str_type)
  end.

(** ** [CSpace::AddControllableEntity], [CSpace::RemoveControllableEntity] *)

Definition set_controllables (l : list string) (s : CSpace) : CSpace :=
  mkSpace (m_unSimulationClock s) (objects s) (m_vecEntities s) (m_vecRootEntities s)
          (m_mapEntitiesPerTypePerId s) l (m_ptPhysicsEngines s).

(** [m_vecControllableEntities.push_back(&c_entity)] *)
Definition AddControllableEntity (c_entity : string) : M CSpace unit :=
  modify (fun s => set_controllables (m_vecControllableEntities s ++ [c_entity]) s).

(** [find] gives the first position that holds the pointer; it is erased when
    there is one. *)
Definition RemoveControllableEntity (c_entity : string) : M CSpace unit :=
  modify (fun s => set_controllables (erase c_entity (m_vecControllableEntities s)) s).

(** ** [CSpace::Destroy] *)

Section Destroy.

(** [CallEntityOperation<CSpaceOperationRemoveEntity, CSpace, void>] on the
    entity a pointer leads to: the operation registered for the class of the
    entity, outside these files. *)
Variable RemoveEntity : string -> M CSpace unit.

(** [while(!m_vecRootEntities.empty())]: the test comes first, and each pass of
    the body takes one unit of [fuel]. *)
Fixpoint Destroy (fuel : nat) : M CSpace unit :=
  fun s =>
    match last (m_vecRootEntities s), fuel with
    | None, _ => Returns tt s
    | Some _, O => OutOfFuel s
    | Some back, S fuel' => bind (RemoveEntity back) (fun _ => Destroy fuel') s
    end.

End Destroy.

(** ** [CSpace::Init] *)

(** [GetNodeAttributeOrDefault] into a [CVector3]. *)
Definition GetNodeAttributeOrDefault_vector (t : TConfigurationNode) (name : string)
           (default : CVector3) : Try CVector3 :=
  match find_attribute t name with
  | None => inr default
  | Some (AttrVector v) => inr v
  | Some _ => inl (AttributeError name)
  end.

Section Init.

Variable RNG : Type.
Variable Uniform : RNG -> Real -> Real -> Real * RNG.
Variable Gaussian : RNG -> Real -> Real -> Real * RNG.
Variable CVector3_text : CVector3 -> string.
Variable stream_address : string.
Variable CFactory_New : string -> Try CEntity.
Variable Init : CEntity -> TConfigurationNode -> Try CEntity.
Variable IsCollidingWithSomething : CSpace -> CEntity -> bool.

(** [CallEntityOperation<CSpaceOperationAddEntity, CSpace, void>] on an entity
    read from the tree: the operation registered for its class, outside these
    files. *)
Variable AddEntity : CEntity -> M CSpace unit.

(** [m_cSimulator.GetPhysicsEngines()], the vector the space points to from
    [Init] on. *)
Variable GetPhysicsEngines : list CPhysicsEngine.

(** What [Init] works on: the space, the simulator's RNG (used by
    [Distribute]), and the two arena members. *)
Record Scene : Type := mkScene {
  scene_space : CSpace;
  scene_rng : RNG;
  m_cArenaCenter : CVector3;
  m_cArenaSize : CVector3;
}.

Definition on_space {A} (m : M CSpace A) : M Scene A :=
  fun st =>
    let back s := mkScene s (scene_rng st) (m_cArenaCenter st) (m_cArenaSize st) in
    match m (scene_space st) with
    | Returns a s => Returns a (back s)
    | Throws e s => Throws e (back s)
    | OutOfFuel s => OutOfFuel (back s)
    end.

Definition on_space_and_rng {A} (m : M (CSpace * RNG) A) : M Scene A :=
  fun st =>
    let back '(s, r) := mkScene s r (m_cArenaCenter st) (m_cArenaSize st) in
    match m (scene_space st, scene_rng st) with
    | Returns a sr => Returns a (back sr)
    | Throws e sr => Throws e (back sr)
    | OutOfFuel sr => OutOfFuel (back sr)
    end.

(** The first loop over the children of the tree, from [itArenaItem] on: the
    entities placed manually. *)
Fixpoint manual_items (items : list TConfigurationNode) : M Scene unit :=
  match items with
  | [] => ret tt
  | itArenaItem :: rest =>
      ((if negb (String.eqb (Value itArenaItem) "distribute") then
          pcEntity <~ lift_try (CFactory_New (Value itArenaItem)) ;;
          pcEntity <~ lift_try (Init pcEntity itArenaItem) ;;
          on_space (AddEntity pcEntity)
        else ret tt) ;;;
       manual_items rest)%space
  end.

(** The second loop: the entities to distribute. *)
Fixpoint distribute_items (fuel : nat) (items : list TConfigurationNode) : M Scene unit :=
  match items with
  | [] => ret tt
  | itArenaItem :: rest =>
      ((if String.eqb (Value itArenaItem) "distribute" then
          on_space_and_rng
            (Distribute RNG Uniform Gaussian CVector3_text stream_address CFactory_New Init
                        IsCollidingWithSomething fuel itArenaItem)
        else ret tt) ;;;
       distribute_items fuel rest)%space
  end.

(** [CSpace::Init]. [fuel] bounds the passes of each placement loop of
    [Distribute]. The pointer to the media is not used in these files. *)
Definition Space_Init (fuel : nat) (t_tree : TConfigurationNode) : M Scene unit :=
  (modify (fun st => mkScene (set_engines GetPhysicsEngines (scene_space st)) (scene_rng st)
                             (m_cArenaCenter st) (m_cArenaSize st)) ;;;
   st <~ get ;;
   cCenter <~ lift_try (GetNodeAttributeOrDefault_vector t_tree "center" (m_cArenaCenter st)) ;;
   modify (fun st => mkScene (scene_space st) (scene_rng st) cCenter (m_cArenaSize st)) ;;;
   cSize <~ lift_try (GetNodeAttribute_vector t_tree "size") ;;
   modify (fun st => mkScene (scene_space st) (scene_rng st) (m_cArenaCenter st) cSize) ;;;
   manual_items (children t_tree) ;;;
   distribute_items fuel (children t_tree))%space.

End Init.

(** ** The accessors of [CTagEquippedEntity] *)

(** [ARGOS_ASSERT(condition, message)] is a macro declared outside these files:
    it throws [message] as a [CARGoSException] when [condition] does not hold. *)
Definition IndexOutOfBoundsError (strFunction : string) (e : CTagEquippedEntity) (un_index : Z)
  : CARGoSException :=
  Ex ("CTagEquippedEntity::" +:+ strFunction +:+ "(), id=" +:+ dq
      +:+ (GetContext e +:+ TagEquipped_GetId e) +:+ dq
      +:+ ": index out of bounds: un_index = " +:+ ToString un_index
      +:+ ", m_vecInstances.size() = " +:+ ToString (Z.of_nat (length (m_vecInstances e)))).

(** [CTagEquippedEntity::GetTag]; [un_index] is a [UInt32]. *)
Definition GetTag (un_index : Z) (e : CTagEquippedEntity) : Try CTagEntity :=
  if un_index <? Z.of_nat (length (m_vecInstances e)) then
    match m_vecInstances e !! Z.to_nat un_index with
    | Some s_instance => inr (Tag s_instance)
    | None => inl (IndexOutOfBoundsError "GetTag" e un_index)
    end
  else inl (IndexOutOfBoundsError "GetTag" e un_index).

(** [CTagEquippedEntity::SetTagPayload] *)
Definition SetTagPayload (un_index : Z) (str_payload : string) : M CTagEquippedEntity unit :=
  fun e =>
    if un_index <? Z.of_nat (length (m_vecInstances e)) then
      Returns tt (mkTagEquipped (GetContext e) (TagEquipped_GetId e)
                                (alter (Instance_SetPayload str_payload) (Z.to_nat un_index)
                                       (m_vecInstances e)))
    else Throws (IndexOutOfBoundsError "SetTagPayload" e un_index) e.

(** [CTagEquippedEntity::SetTagPayloads(const std::string&)]: the range-based
    loop over the instances, first to last. *)
Fixpoint payload_each (str_payload : string) (instances : list SInstance) : list SInstance :=
  match instances with
  | [] => []
  | s_instance :: rest =>
      Instance_SetPayload str_payload s_instance :: payload_each str_payload rest
  end.

Definition SetTagPayloads_string (str_payload : string) : M CTagEquippedEntity unit :=
  fun e =>
    Returns tt (mkTagEquipped (GetContext e) (TagEquipped_GetId e)
                              (payload_each str_payload (m_vecInstances e))).

(** ** Observations on the rest of the two files *)

Section RemovalObservations.

Variable RemoveEntity : string -> M CSpace unit.

(** The removals of the entities [ps] point to, one after the other. *)
Fixpoint remove_each (ps : list string) : M CSpace unit :=
  match ps with
  | [] => ret tt
  | p :: ps' => bind (RemoveEntity p) (fun _ => remove_each ps')
  end.

End RemovalObservations.

(** The removal of an entity without components and without a body, by the
    pointer to it, as the registry operation above does it for a root. *)
Definition remove_root (p : string) : M CSpace unit :=
  CallEntityOperation_RemoveEntity
    (mkEntity p EmptyString None ClassEntity (mkVector3 0 0 0) false []) None.

(** A child of the arena node that the first loop of [Init] handles, and one
    that the second loop handles. *)
Definition placed_manually (item : TConfigurationNode) : bool :=
  negb (String.eqb (Value item) "distribute").
Definition distributed (item : TConfigurationNode) : bool :=
  String.eqb (Value item) "distribute".

(** The calls [SetTagPayload(i, ps[0])], [SetTagPayload(i + 1, ps[1])], ... *)
Fixpoint payloads_one_by_one (i : nat) (ps : list string) : M CTagEquippedEntity unit :=
  match ps with
  | [] => ret tt
  | p :: ps' => bind (SetTagPayload (Z.of_nat i) p) (fun _ => payloads_one_by_one (S i) ps')
  end.

(** The space with its root collection replaced. *)
Definition set_roots (l : list string) (s : CSpace) : CSpace :=
  mkSpace (m_unSimulationClock s) (objects s) (m_vecEntities s) l
          (m_mapEntitiesPerTypePerId s) (m_vecControllableEntities s) (m_ptPhysicsEngines s).

(** An entity with two tags, "tag_0" and "tag_1", carrying the payloads [a]
    and [b]. *)
Definition sample_instance (id payload : string) : SInstance :=
  mkInstance (mkTag id payload) "origin" (mkVector3 0 0 0)
             (mkQuaternion 1%float 0%float 0%float 0%float).
Definition two_tags (a b : string) : CTagEquippedEntity :=
  mkTagEquipped "fb0." "tags" [sample_instance "tag_0" a; sample_instance "tag_1" b].

(** A factory whose entities are plain: neither embodied, positional,
    composable nor controllable. *)
Definition plain_New (type : string) : Try CEntity :=
  inr (mkEntity EmptyString type None ClassEntity origin false []).

(** The registry operation of the model on an entity read from the arena
    node, with the body [GetEmbodiedEntity] finds in it. *)
Definition sample_AddEntity (e : CEntity) : M CSpace unit :=
  fun s =>
    match GetEmbodiedEntity e with
    | inr pcEmbodied => CallEntityOperation_AddEntity "0x7ffc0d367dd0" e pcEmbodied s
    | inl ex => Throws ex s
    end.

(** [<arena size="4,4,2"> items </arena>], and a box placed by hand. *)
Definition sample_arena (items : list TConfigurationNode) : TConfigurationNode :=
  ConfigurationNode "arena" [("size", AttrVector (mkVector3 4 4 2))] items.

Definition wall_north : TConfigurationNode :=
  ConfigurationNode "box" [("id", AttrString "wall_north")]
    [ConfigurationNode "body"
       [("position", AttrVector (mkVector3 0 2 0)); ("orientation", AttrVector origin)] []].

Definition sample_Space_Init (fuel : nat) (t_tree : TConfigurationNode)
  : Outcome (Scene unit) unit :=
  Space_Init unit lowest_Uniform mean_Gaussian sample_text "0x7ffc0d367dd0"
             sample_New sample_Init (fun _ _ => false) sample_AddEntity [everywhere]
             fuel t_tree (mkScene unit (empty_space []) tt origin origin).

(** [f] applied to the first node named [child]. *)
Fixpoint alter_first (child : string) (f : TConfigurationNode -> TConfigurationNode)
         (l : list TConfigurationNode) : list TConfigurationNode :=
  match l with
  | [] => []
  | y :: l' => if String.eqb (Value y) child then f y :: l' else y :: alter_first child f l'
  end.

(** * Properties *)

(** ** Facts on binary64 comparisons used below *)

Lemma SFcompare_refl_not_nan (x y : spec_float) c :
  SFcompare x y = Some c -> SFcompare x x = Some Eq /\ SFcompare y y = Some Eq.
Proof.
  assert (R : forall e m s,
             (if (s : bool)
              then match (e ?= e)%Z with
                   | Eq => CompOpp (Pos.compare_cont Eq m m) | Lt => Gt | Gt => Lt end
              else match (e ?= e)%Z with
                   | Eq => Pos.compare_cont Eq m m | Lt => Lt | Gt => Gt end) = Eq).
  { intros e m s. rewrite Z.compare_refl.
    change (Pos.compare_cont Eq m m) with (Pos.compare m m).
    rewrite Pos.compare_refl. by destruct s. }
  destruct x as [|[]| |s1 m1 e1], y as [|[]| |s2 m2 e2]; simpl; intros H;
    try discriminate; split; try reflexivity;
    try (destruct s1; f_equal; apply (R _ _ true) || apply (R _ _ false));
    try (destruct s2; f_equal; apply (R _ _ true) || apply (R _ _ false)).
Qed.

Lemma float_leb_refl_r (x y : float) : (x <=? y)%float = true -> (y <=? y)%float = true.
Proof.
  rewrite !FloatAxioms.leb_spec. unfold SFleb.
  destruct (SFcompare (Prim2SF x) (Prim2SF y)) as [c|] eqn:E; [|discriminate].
  destruct (SFcompare_refl_not_nan _ _ _ E) as [_ ->]. done.
Qed.

Lemma float_leb_refl_l (x y : float) : (x <=? y)%float = true -> (x <=? x)%float = true.
Proof.
  rewrite !FloatAxioms.leb_spec. unfold SFleb.
  destruct (SFcompare (Prim2SF x) (Prim2SF y)) as [c|] eqn:E; [|discriminate].
  destruct (SFcompare_refl_not_nan _ _ _ E) as [-> _]. done.
Qed.

Lemma float_ltb_leb (x y : float) : (x <? y)%float = true -> (x <=? y)%float = true.
Proof.
  rewrite FloatAxioms.leb_spec, FloatAxioms.ltb_spec. unfold SFleb, SFltb.
  by destruct (SFcompare _ _) as [[]|].
Qed.

Lemma float_eqb_not_ltb (x y : float) : (x =? y)%float = true -> (x <? y)%float = false.
Proof.
  rewrite FloatAxioms.eqb_spec, FloatAxioms.ltb_spec. unfold SFeqb, SFltb.
  by destruct (SFcompare _ _) as [[]|].
Qed.

Lemma float_eqb_sym (x y : float) : (x =? y)%float = true -> (y =? x)%float = true.
Proof.
  rewrite !FloatAxioms.eqb_spec. unfold SFeqb.
  destruct (Prim2SF x) as [sx|sx| |s1 m1 e1], (Prim2SF y) as [sy|sy| |s2 m2 e2]; simpl;
    repeat match goal with s : bool |- _ => destruct s end; try done.
  all: destruct (e1 ?= e2)%Z eqn:E; try done.
  all: apply Z.compare_eq in E; subst; rewrite Z.compare_refl.
  all: change (Pos.compare_cont Eq m1 m2) with (Pos.compare m1 m2);
    change (Pos.compare_cont Eq m2 m1) with (Pos.compare m2 m1);
    rewrite (Pos.compare_antisym m1 m2); by destruct (Pos.compare m1 m2).
Qed.

Lemma float_leb_not_ltb_eqb (x y : float) :
  (x <=? y)%float = true -> (x <? y)%float = false -> (x =? y)%float = true.
Proof.
  rewrite FloatAxioms.leb_spec, FloatAxioms.ltb_spec, FloatAxioms.eqb_spec.
  unfold SFleb, SFltb, SFeqb. by destruct (SFcompare _ _) as [[]|].
Qed.

(** ** The grid generator *)

Section GridFacts.

Variable RNG : Type.
Variable Uniform : RNG -> Real -> Real -> Real * RNG.
Variable Gaussian : RNG -> Real -> Real -> Real * RNG.

Lemma wrap32_small (z : Z) : 0 <= z < 2 ^ 32 -> wrap32 z = z.
Proof. intros H. unfold wrap32. by apply Z.mod_small. Qed.

Lemma wrap32_range (z : Z) : 0 <= wrap32 z < 2 ^ 32.
Proof. unfold wrap32. apply Z.mod_pos_bound. lia. Qed.

(** From entity number [k] on, the calls without retry answer the positions of
    the entities [k], [k+1], ... up to the last cell, and then fail. *)
Lemma successive_grid c l d rng (n : nat) :
  forall k, 0 <= k -> k + Z.of_nat n = Grid_cells l ->
  successive RNG Uniform Gaussian (S n) (GridGenerator c l d k, rng)
  = ((fun j : nat => inr (Grid_position c l d (k + Z.of_nat j))) <$> seq 0 n)
      ++ [inl GridExhaustedError].
Proof.
  assert (Hc : 0 <= Grid_cells l < 2 ^ 32).
  { destruct l as [[l0 l1] l2]. apply wrap32_range. }
  induction n as [|n IH]; intros k Hk Hn.
  - cbn [successive call]. replace k with (Grid_cells l) by lia.
    by rewrite Z.ltb_irrefl.
  - change (successive RNG Uniform Gaussian (S (S n)) (GridGenerator c l d k, rng))
      with (match call RNG Uniform Gaussian false (GridGenerator c l d k, rng) with
            | Returns v st' => inr v :: successive RNG Uniform Gaussian (S n) st'
            | Throws e st' => inl e :: successive RNG Uniform Gaussian (S n) st'
            | OutOfFuel _ => []
            end).
    cbn [call].
    destruct (Z.ltb_spec k (Grid_cells l)) as [_|Hge]; [|lia].
    rewrite wrap32_small by lia.
    rewrite IH by lia.
    cbn [seq fmap list_fmap app]. rewrite Z.add_0_r. do 2 f_equal.
    rewrite <- seq_shift, <- list_fmap_compose.
    apply list_fmap_ext. intros _ j _. cbn. do 2 f_equal. lia.
Qed.

(** Entity number [ix + l0 * (iy + l1 * iz)] is the cell [(ix, iy, iz)]:
    x runs fastest, then y, then z. *)
Lemma Grid_position_cell c l0 l1 l2 d ix iy iz :
  0 < l0 -> 0 < l1 -> 0 < l2 -> l0 * l1 * l2 < 2 ^ 32 ->
  0 <= ix < l0 -> 0 <= iy < l1 -> 0 <= iz < l2 ->
  Grid_position c (l0, l1, l2) d (ix + l0 * (iy + l1 * iz)) = Grid_cell c (l0, l1, l2) d ix iy iz.
Proof.
  intros H0 H1 H2 Hp Hx Hy Hz.
  assert (B01 : l0 * l1 < 2 ^ 32) by nia.
  assert (B0 : l0 < 2 ^ 32) by nia.
  assert (B1 : l1 < 2 ^ 32) by nia.
  assert (B2 : l2 < 2 ^ 32) by nia.
  unfold Grid_position, Grid_cell.
  rewrite !wrap32_small by nia.
  assert (Ex : (ix + l0 * (iy + l1 * iz)) mod l0 = ix).
  { rewrite (Z.mul_comm l0), Z_mod_plus_full. apply Z.mod_small. lia. }
  assert (Eq : (ix + l0 * (iy + l1 * iz)) / l0 = iy + l1 * iz).
  { rewrite (Z.mul_comm l0), Z_div_plus_full by lia. rewrite Z.div_small; lia. }
  assert (Ey : (iy + l1 * iz) mod l1 = iy).
  { rewrite (Z.mul_comm l1), Z_mod_plus_full. apply Z.mod_small. lia. }
  assert (Ez : (ix + l0 * (iy + l1 * iz)) / (l0 * l1) = iz).
  { replace (ix + l0 * (iy + l1 * iz)) with ((ix + l0 * iy) + iz * (l0 * l1)) by ring.
    rewrite Z_div_plus_full by nia. rewrite Z.div_small; nia. }
  by rewrite Ex, Eq, Ey, Ez.
Qed.

(** C6, amended. For a layout whose number of cells is below 2^32: called
    without retry, the grid generator answers the cells in row-major order (x
    fastest, then y, then z), centred on the configured centre, and fails once
    the cells are used up. With layout (2,1,1), centre
    (0,0,0) and distances (1,0,0) the calls answer (0.5,0,0), then (-0.5,0,0),
    then fail with the exhaustion error; a call with retry fails whatever the
    number of cells left. *)
Theorem GridGenerator_row_major :
  (forall c l0 l1 l2 d g rng,
      GridGenerator_new c (l0, l1, l2) d = inr g ->
      0 <= l0 -> 0 <= l1 -> 0 <= l2 -> l0 * l1 * l2 < 2 ^ 32 ->
      let answers :=
        successive RNG Uniform Gaussian (S (Z.to_nat (l0 * l1 * l2))) (g, rng) in
      (forall ix iy iz,
          0 <= ix < l0 -> 0 <= iy < l1 -> 0 <= iz < l2 ->
          answers !! Z.to_nat (ix + l0 * (iy + l1 * iz))
          = Some (inr (Grid_cell c (l0, l1, l2) d ix iy iz)))
      /\ answers !! Z.to_nat (l0 * l1 * l2) = Some (inl GridExhaustedError))
  /\ (forall g rng,
        GridGenerator_new (mkVector3 0 0 0) (2, 1, 1) (mkVector3 1 0 0) = inr g ->
        successive RNG Uniform Gaussian 3 (g, rng)
        = [inr (mkVector3 0.5 0 0); inr (mkVector3 (-0.5) 0 0); inl GridExhaustedError])
  /\ (forall c l d n rng,
        call RNG Uniform Gaussian true (GridGenerator c l d n, rng)
        = Throws (GridRetryError n) (GridGenerator c l d n, rng)).
Proof.
  split; [|split].
  - intros c l0 l1 l2 d g rng Hnew P0 P1 P2 Hp answers.
    unfold GridGenerator_new in Hnew.
    destruct (Z.eqb_spec l0 0), (Z.eqb_spec l1 0), (Z.eqb_spec l2 0);
      cbn in Hnew; try discriminate.
    injection Hnew as <-.
    assert (P01 : 0 < l0 * l1) by (apply Z.mul_pos_pos; lia).
    assert (P012 : 0 < l0 * l1 * l2) by (apply Z.mul_pos_pos; lia).
    assert (Hcells : Grid_cells (l0, l1, l2) = l0 * l1 * l2).
    { unfold Grid_cells. rewrite (wrap32_small (l0 * l1)) by nia.
      apply wrap32_small. lia. }
    assert (Hall : answers
                   = ((fun j : nat => inr (Grid_position c (l0, l1, l2) d (0 + Z.of_nat j)))
                        <$> seq 0 (Z.to_nat (l0 * l1 * l2)))
                       ++ [inl GridExhaustedError]).
    { apply successive_grid; [lia|]. rewrite Hcells, Z2Nat.id by lia. lia. }
    rewrite Hall. split.
    + intros ix iy iz Hx Hy Hz.
      assert (Hm : 0 <= iy + l1 * iz <= l1 * l2 - 1) by nia.
      assert (Hn : 0 <= ix + l0 * (iy + l1 * iz) < l0 * l1 * l2) by nia.
      rewrite lookup_app_l by (rewrite length_fmap, length_seq; lia).
      rewrite list_lookup_fmap, lookup_seq_lt by lia.
      cbn. rewrite Z2Nat.id by lia. do 2 f_equal.
      apply Grid_position_cell; lia.
    + rewrite lookup_app_r by (rewrite length_fmap, length_seq; lia).
      rewrite length_fmap, length_seq, Nat.sub_diag. done.
  - intros g rng Hnew. injection Hnew as <-. reflexivity.
  - intros. reflexivity.
Qed.

End GridFacts.

(** C6 as stated fails when the number of cells passes 2^32. The layout
    (65536, 65537, 2) is accepted; its products are taken in [UInt32], so that
    entity number 65536, which row-major order puts in the cell (0, 1, 0), is
    answered with the z of the second layer, and the generator is exhausted
    after 131072 calls. *)
Lemma GridGenerator_cell_count_wraps :
  GridGenerator_new origin (65536, 65537, 2) (mkVector3 1 1 1)
  = inr (GridGenerator origin (65536, 65537, 2) (mkVector3 1 1 1) 0)
  /\ successive unit lowest_Uniform mean_Gaussian (S (Z.to_nat 131072))
                (GridGenerator origin (65536, 65537, 2) (mkVector3 1 1 1) 0, tt)
     !! Z.to_nat 65536
     = Some (inr (mkVector3 32767.5 32767 (-0.5)))
  /\ Grid_cell origin (65536, 65537, 2) (mkVector3 1 1 1) 0 1 0
     = mkVector3 32767.5 32767 0.5
  /\ successive unit lowest_Uniform mean_Gaussian (S (Z.to_nat 131072))
                (GridGenerator origin (65536, 65537, 2) (mkVector3 1 1 1) 0, tt)
     !! Z.to_nat 131072
     = Some (inl GridExhaustedError).
Proof.
  assert (Hall := successive_grid unit lowest_Uniform mean_Gaussian origin (65536, 65537, 2)
                    (mkVector3 1 1 1) tt (Z.to_nat 131072) 0 ltac:(lia)).
  rewrite Hall by (rewrite Z2Nat.id by lia; vm_compute; reflexivity).
  split; [reflexivity|]. split; [|split].
  - rewrite lookup_app_l by (rewrite length_fmap, length_seq; lia).
    rewrite list_lookup_fmap, lookup_seq_lt by lia.
    cbn [fmap option_fmap option_map Nat.add]. rewrite Z2Nat.id by lia.
    vm_compute. reflexivity.
  - vm_compute. reflexivity.
  - rewrite lookup_app_r by (rewrite length_fmap, length_seq; lia).
    rewrite length_fmap, length_seq, Nat.sub_diag. reflexivity.
Qed.

(** ** The uniform generator *)

Section UniformFacts.

Variable RNG : Type.
Variable Uniform : RNG -> Real -> Real -> Real * RNG.
Variable Gaussian : RNG -> Real -> Real -> Real * RNG.

Lemma Uniform_axis_within lo hi rng :
  Uniform_in_range Uniform ->
  (lo <=? hi)%float = true ->
  let v := fst (Uniform_axis RNG Uniform lo hi rng) in
  within lo v hi = true
  /\ ((lo =? hi)%float = true -> v = hi /\ (v =? lo)%float = true).
Proof.
  intros HU Hle. unfold Uniform_axis.
  destruct (lo <? hi)%float eqn:Hlt; cbn.
  - split; [by apply HU|]. intros Heq. apply float_eqb_not_ltb in Heq. congruence.
  - split.
    + unfold within. rewrite Hle. cbn. by apply float_leb_refl_r with lo.
    + intros Heq. split; [done|]. by apply float_eqb_sym.
Qed.

(** A generator that [CreateGenerator] built as uniform has [min <= max]. *)
Lemma CreateGenerator_uniform_bounds CVector3_text t cMin cMax :
  CreateGenerator CVector3_text t = inr (UniformGenerator cMin cMax) ->
  CVector3_le cMin cMax = true.
Proof.
  unfold CreateGenerator, try_bind, GridGenerator_new.
  repeat match goal with
         | |- context [match ?x with _ => _ end] => destruct x eqn:?; try discriminate
         end.
  all: try (intros [= <- <-]; by apply negb_false_iff).
Qed.

(** C7. A uniform generator with [min <= max] on every axis answers, at each
    call, a vector within [[min, max]] on every axis; on an axis where
    [min == max] the answer is that value, the [max] the generator holds. *)
Theorem UniformGenerator_within_bounds cMin cMax b_is_retry rng :
  Uniform_in_range Uniform ->
  CVector3_le cMin cMax = true ->
  exists v rng',
    call RNG Uniform Gaussian b_is_retry (UniformGenerator cMin cMax, rng)
    = Returns v (UniformGenerator cMin cMax, rng')
    /\ within (GetX cMin) (GetX v) (GetX cMax) = true
    /\ within (GetY cMin) (GetY v) (GetY cMax) = true
    /\ within (GetZ cMin) (GetZ v) (GetZ cMax) = true
    /\ ((GetX cMin =? GetX cMax)%float = true ->
        GetX v = GetX cMax /\ (GetX v =? GetX cMin)%float = true)
    /\ ((GetY cMin =? GetY cMax)%float = true ->
        GetY v = GetY cMax /\ (GetY v =? GetY cMin)%float = true)
    /\ ((GetZ cMin =? GetZ cMax)%float = true ->
        GetZ v = GetZ cMax /\ (GetZ v =? GetZ cMin)%float = true).
Proof.
  intros HU Hle. unfold CVector3_le in Hle.
  apply andb_prop in Hle as [Hle Hz]. apply andb_prop in Hle as [Hx Hy].
  cbn [call]. unfold Uniform_call.
  pose proof (Uniform_axis_within (GetX cMin) (GetX cMax) rng HU Hx) as Ax.
  destruct (Uniform_axis RNG Uniform (GetX cMin) (GetX cMax) rng) as [fRandX rng1].
  pose proof (Uniform_axis_within (GetY cMin) (GetY cMax) rng1 HU Hy) as Ay.
  destruct (Uniform_axis RNG Uniform (GetY cMin) (GetY cMax) rng1) as [fRandY rng2].
  pose proof (Uniform_axis_within (GetZ cMin) (GetZ cMax) rng2 HU Hz) as Az.
  destruct (Uniform_axis RNG Uniform (GetZ cMin) (GetZ cMax) rng2) as [fRandZ rng3].
  cbn in Ax, Ay, Az. exists (mkVector3 fRandX fRandY fRandZ), rng3. cbn. tauto.
Qed.

End UniformFacts.

Lemma lowest_Uniform_in_range : Uniform_in_range lowest_Uniform.
Proof.
  intros rng lo hi Hlt. unfold within, lowest_Uniform. cbn.
  apply float_ltb_leb in Hlt. rewrite Hlt, andb_true_r.
  by apply float_leb_refl_l with hi.
Qed.

(** The theorem at bounds (0,0,0) and (1,0,2), with the RNG that answers the
    lower bound. *)
Lemma UniformGenerator_within_bounds_witness :
  exists v rng',
    call unit lowest_Uniform mean_Gaussian false
         (UniformGenerator (mkVector3 0 0 0) (mkVector3 1 0 2), tt)
    = Returns v (UniformGenerator (mkVector3 0 0 0) (mkVector3 1 0 2), rng')
    /\ within 0 (GetX v) 1 = true
    /\ within 0 (GetY v) 0 = true
    /\ within 0 (GetZ v) 2 = true
    /\ ((0 =? 1)%float = true -> GetX v = 1%float /\ (GetX v =? 0)%float = true)
    /\ ((0 =? 0)%float = true -> GetY v = 0%float /\ (GetY v =? 0)%float = true)
    /\ ((0 =? 2)%float = true -> GetZ v = 2%float /\ (GetZ v =? 0)%float = true).
Proof.
  apply (UniformGenerator_within_bounds unit lowest_Uniform mean_Gaussian
           (mkVector3 0 0 0) (mkVector3 1 0 2) false tt).
  - exact lowest_Uniform_in_range.
  - reflexivity.
Defined.

(** ** The physics-engine binder *)

Lemma topmost_is_root (e : CEntity) : HasParent (topmost e) = false.
Proof.
  induction e as [e IH] using CEntity_parent_ind.
  destruct e as [id ty [parent|] cls pos mov comps]; cbn; [|done].
  by apply IH.
Qed.

Lemma topmost_is_ancestor (e : CEntity) : ancestor_or_self (topmost e) e.
Proof.
  induction e as [e IH] using CEntity_parent_ind.
  destruct e as [id ty [parent|] cls pos mov comps]; cbn; [|constructor].
  eapply above; [reflexivity|]. by apply IH.
Qed.

Section BinderFacts.

Variable stream_address : string.

(** The loop over [vecPotentialEngines] adds through the pointers it collected:
    the engines from position [length pre] on that hold [cPos] get [f]. *)
Lemma add_through_potential (f : CPhysicsEngine -> CPhysicsEngine) cPos rest :
  forall pre,
    fold_left (fun engs p => alter f p engs)
              (potential_from (length pre) rest cPos) (pre ++ rest)
    = pre ++ ((fun eng => if IsPointContained eng cPos then f eng else eng) <$> rest).
Proof.
  induction rest as [|eng rest IH]; intros pre; [done|].
  cbn [potential_from fmap list_fmap].
  assert (Hnext : forall x, pre ++ x :: rest = (pre ++ [x]) ++ rest)
    by (intros; by rewrite <- app_assoc).
  assert (Hlen : forall x, S (length pre) = length (pre ++ [x]))
    by (intros; rewrite length_app; cbn; lia).
  destruct (IsPointContained eng cPos).
  - cbn [fold_left].
    replace (alter f (length pre) (pre ++ eng :: rest)) with ((pre ++ [f eng]) ++ rest).
    + rewrite (Hlen (f eng)), IH. by rewrite <- app_assoc.
    + rewrite <- app_assoc. cbn.
      rewrite alter_app_r_alt by lia. by rewrite Nat.sub_diag.
  - rewrite (Hnext eng), (Hlen eng), IH. by rewrite <- app_assoc.
Qed.

Lemma potential_from_filter (c_entity : CEntity) engines :
  forall i,
    length (potential_from i engines (GetPosition c_entity))
    = length (List.filter (houses c_entity) engines).
Proof.
  induction engines as [|eng engines IH]; intros i; [done|].
  cbn [potential_from List.filter]. unfold houses at 1.
  destruct (IsPointContained eng (GetPosition c_entity)); cbn; by rewrite IH.
Qed.

Lemma potential_from_nil (c_entity : CEntity) engines i :
  potential_from i engines (GetPosition c_entity) = []
  <-> existsb (houses c_entity) engines = false.
Proof.
  revert i. induction engines as [|eng engines IH]; intros i; [done|].
  cbn [potential_from existsb]. unfold houses at 1.
  destruct (IsPointContained eng (GetPosition c_entity)); cbn; [|apply IH].
  split; discriminate.
Qed.

(** With one pointer collected, adding through it is adding to every housing
    engine. *)
Lemma add_through_single (c_entity : CEntity) engines first :
  potential_from 0 engines (GetPosition c_entity) = [first] ->
  alter (Engine_AddEntity (GetId (topmost c_entity))) first engines
  = added_to_housing c_entity engines.
Proof.
  intros H.
  pose proof (add_through_potential (Engine_AddEntity (GetId (topmost c_entity)))
                (GetPosition c_entity) engines []) as Hall.
  cbn [length app] in Hall. rewrite H in Hall. exact Hall.
Qed.

(** What [AddEntityToPhysicsEngine] does with an immovable embodied entity. *)
Lemma AddEntityToPhysicsEngine_not_movable (c_entity : CEntity) (s : CSpace) :
  IsMovable c_entity = false ->
  AddEntityToPhysicsEngine stream_address c_entity s
  = if existsb (houses c_entity) (m_ptPhysicsEngines s)
    then Returns tt (set_engines (added_to_housing c_entity (m_ptPhysicsEngines s)) s)
    else Throws (NoHousingEngineError (GetId (topmost c_entity))) s.
Proof.
  intros Hmov. unfold AddEntityToPhysicsEngine.
  destruct (potential_from 0 (m_ptPhysicsEngines s) (GetPosition c_entity))
    as [|first others] eqn:Hpot.
  - apply potential_from_nil in Hpot. by rewrite Hpot.
  - destruct (existsb (houses c_entity) (m_ptPhysicsEngines s)) eqn:Hex.
    + rewrite Hmov. cbn [negb]. do 2 f_equal.
      rewrite <- Hpot.
      apply (add_through_potential _ (GetPosition c_entity) (m_ptPhysicsEngines s) []).
    + apply potential_from_nil with (i := 0%nat) in Hex. congruence.
Qed.

(** C3. For an immovable embodied entity, [AddEntityToPhysicsEngine] takes the
    topmost ancestor of the entity, tests the entity's own position against
    every engine and adds that root to every engine whose domain holds the
    position; it fails with the no-housing error, changing nothing, when no
    domain holds it. *)
Theorem AddEntityToPhysicsEngine_immovable (c_entity : CEntity) (s : CSpace) :
  IsMovable c_entity = false ->
  ancestor_or_self (topmost c_entity) c_entity
  /\ HasParent (topmost c_entity) = false
  /\ AddEntityToPhysicsEngine stream_address c_entity s
     = if existsb (houses c_entity) (m_ptPhysicsEngines s)
       then Returns tt (set_engines (added_to_housing c_entity (m_ptPhysicsEngines s)) s)
       else Throws (NoHousingEngineError (GetId (topmost c_entity))) s.
Proof.
  intros Hmov. split; [apply topmost_is_ancestor|]. split; [apply topmost_is_root|].
  by apply AddEntityToPhysicsEngine_not_movable.
Qed.

(** What [AddEntityToPhysicsEngine] does with a movable embodied entity, by the
    number of engines whose domain holds its position. With two or more the
    exception text ends with the address of [ossEngines]; the identifiers
    collected in [ossEngines] are not part of it. *)
Lemma AddEntityToPhysicsEngine_movable (c_entity : CEntity) (s : CSpace) :
  IsMovable c_entity = true ->
  AddEntityToPhysicsEngine stream_address c_entity s
  = match length (List.filter (houses c_entity) (m_ptPhysicsEngines s)) with
    | 0%nat => Throws (NoHousingEngineError (GetId (topmost c_entity))) s
    | 1%nat => Returns tt (set_engines (added_to_housing c_entity (m_ptPhysicsEngines s)) s)
    | _ => Throws (Ex (("Multiple engines can house " +:+ quoted (GetId c_entity)
                        +:+ ", but a movable entity and can only be added to a single engine. "
                        +:+ "Conflicting engines: ") +:+ stream_address)) s
    end.
Proof.
  intros Hmov. unfold AddEntityToPhysicsEngine.
  rewrite <- (potential_from_filter c_entity (m_ptPhysicsEngines s) 0).
  destruct (potential_from 0 (m_ptPhysicsEngines s) (GetPosition c_entity))
    as [|first [|second others]] eqn:Hpot; [done| |].
  - rewrite Hmov. cbn. by rewrite (add_through_single c_entity).
  - rewrite Hmov. cbn [negb length Nat.eqb].
    reflexivity.
Qed.

End BinderFacts.

(** The theorem on an immovable wall inside the two overlapping engines. *)
Lemma AddEntityToPhysicsEngine_immovable_witness :
  let wall := mkEntity "wall" "box" None ClassEmbodied (mkVector3 0 0 0) false [] in
  ancestor_or_self (topmost wall) wall
  /\ HasParent (topmost wall) = false
  /\ AddEntityToPhysicsEngine "0x7ffc0d367dd0" wall (empty_space [dyn2d_a; dyn2d_b])
     = if existsb (houses wall) (m_ptPhysicsEngines (empty_space [dyn2d_a; dyn2d_b]))
       then Returns tt (set_engines
                          (added_to_housing wall
                             (m_ptPhysicsEngines (empty_space [dyn2d_a; dyn2d_b])))
                          (empty_space [dyn2d_a; dyn2d_b]))
       else Throws (NoHousingEngineError (GetId (topmost wall)))
                   (empty_space [dyn2d_a; dyn2d_b]).
Proof.
  intros wall.
  apply (AddEntityToPhysicsEngine_immovable "0x7ffc0d367dd0" wall (empty_space [dyn2d_a; dyn2d_b])).
  reflexivity.
Defined.

(** C2, on the movable body [fb0_body] inside the two overlapping engines: the
    call fails and leaves both engines as they were, but the text of the
    exception ends with the address of the local stream and names neither
    engine. *)
Theorem AddEntityToPhysicsEngine_ambiguous_text (stream_address : string) :
  AddEntityToPhysicsEngine stream_address fb0_body (empty_space [dyn2d_a; dyn2d_b])
  = Throws (Ex (("Multiple engines can house " +:+ quoted "body"
                 +:+ ", but a movable entity and can only be added to a single engine. "
                 +:+ "Conflicting engines: ") +:+ stream_address))
           (empty_space [dyn2d_a; dyn2d_b])
  /\ occurs_in "dyn2d_a"
       ("Multiple engines can house " +:+ quoted "body"
        +:+ ", but a movable entity and can only be added to a single engine. "
        +:+ "Conflicting engines: " +:+ "0x7ffc0d367dd0") = false
  /\ occurs_in "dyn2d_b"
       ("Multiple engines can house " +:+ quoted "body"
        +:+ ", but a movable entity and can only be added to a single engine. "
        +:+ "Conflicting engines: " +:+ "0x7ffc0d367dd0") = false.
Proof.
  split; [|split; vm_compute; reflexivity].
  rewrite AddEntityToPhysicsEngine_movable by reflexivity. reflexivity.
Qed.

(** ** The registry: removing what was just added *)

Lemma erase_notin (p : string) (l : list string) : p ∉ l -> erase p l = l.
Proof.
  induction l as [|q l IH]; intros Hp; [done|].
  apply not_elem_of_cons in Hp as [Hne Hp]. cbn.
  destruct (String.eqb_spec q p); [congruence|]. by rewrite IH.
Qed.

Lemma erase_snoc (p : string) (l : list string) : p ∉ l -> erase p (l ++ [p]) = l.
Proof.
  induction l as [|q l IH]; intros Hp; cbn.
  - by rewrite String.eqb_refl.
  - apply not_elem_of_cons in Hp as [Hne Hp].
    destruct (String.eqb_spec q p); [congruence|]. by rewrite IH.
Qed.

Lemma entry_register (e : CEntity) (s : CSpace) (ty id : string) :
  entry (register e s) ty id
  = if decide (ty = GetTypeDescription e /\ id = GetId e) then Some (GetId e)
    else entry s ty id.
Proof.
  unfold entry, register. cbn.
  destruct (decide (ty = GetTypeDescription e)) as [->|Hty].
  - rewrite lookup_insert_eq. cbn.
    destruct (decide (id = GetId e)) as [->|Hid].
    + rewrite lookup_insert_eq. by rewrite decide_True.
    + rewrite lookup_insert_ne by done. rewrite decide_False by tauto.
      by destruct (m_mapEntitiesPerTypePerId s !! GetTypeDescription e).
  - rewrite lookup_insert_ne by done. by rewrite decide_False by tauto.
Qed.

Lemma entry_unregister (r : bool) (x : CEntity) (s : CSpace) (ty id : string) :
  entry (unregister r x s) ty id
  = if decide (ty = GetTypeDescription x /\ id = GetId x) then None else entry s ty id.
Proof.
  unfold entry, unregister. cbn.
  destruct (decide (ty = GetTypeDescription x)) as [->|Hty].
  - rewrite lookup_alter_eq.
    destruct (m_mapEntitiesPerTypePerId s !! GetTypeDescription x) as [bucket|]; cbn.
    + destruct (decide (id = GetId x)) as [->|Hid].
      * rewrite lookup_delete_eq. by rewrite decide_True.
      * rewrite lookup_delete_ne by done. by rewrite decide_False by tauto.
    + by destruct (decide _).
  - rewrite lookup_alter_ne by done. by rewrite decide_False by tauto.
Qed.

(** While the subtree of a freshly registered [e] is being removed from
    [register e s0], each index is either still as [register] left it or
    already back to what [s0] held. *)
Record unwinding (s0 : CSpace) (e : CEntity) (s : CSpace) : Prop := mkUnwinding {
  unw_clock : m_unSimulationClock s = m_unSimulationClock s0;
  unw_engines : m_ptPhysicsEngines s = m_ptPhysicsEngines s0;
  unw_objects : objects s = <[GetId e := e]> (objects s0) \/ objects s = objects s0;
  unw_entities : m_vecEntities s = m_vecEntities s0 ++ [GetId e]
                 \/ m_vecEntities s = m_vecEntities s0;
  unw_roots : m_vecRootEntities s = m_vecRootEntities (register e s0);
  unw_controllables :
    m_vecControllableEntities s = m_vecControllableEntities (register e s0)
    \/ m_vecControllableEntities s = m_vecControllableEntities s0;
  unw_entries : forall ty id,
      entry s ty id = entry (register e s0) ty id \/ entry s ty id = entry s0 ty id;
}.

Lemma unwinding_start s0 e : unwinding s0 e (register e s0).
Proof. split; auto. Qed.

Lemma unwinding_unregister s0 e x s :
  unregistered s0 (GetId x) ->
  unwinding s0 e s -> unwinding s0 e (unregister false x s).
Proof.
  intros [Ho Hv Hr Hc He _] [Uc Ug Uo Uv Ur Uk Ue].
  split; cbn; try done.
  - destruct Uo as [-> | ->].
    + destruct (decide (GetId x = GetId e)) as [E|E].
      * right. rewrite E, delete_insert_eq. apply delete_id. by rewrite <- E.
      * left. rewrite delete_insert_ne by done. f_equal. by apply delete_id.
    + right. by apply delete_id.
  - destruct Uv as [-> | ->].
    + destruct (decide (GetId x = GetId e)) as [E|E].
      * right. rewrite E. apply erase_snoc. by rewrite <- E.
      * left. apply erase_notin. rewrite not_elem_of_app, not_elem_of_cons.
        split; [done|]. split; [done|]. apply not_elem_of_nil.
    + right. by apply erase_notin.
  - destruct (is_controllable x); [|done].
    destruct Uk as [-> | ->]; [|right; by apply erase_notin].
    unfold register; cbn. destruct (is_controllable e); [|right; by apply erase_notin].
    destruct (decide (GetId x = GetId e)) as [E|E].
    + right. rewrite E. apply erase_snoc. by rewrite <- E.
    + left. apply erase_notin. rewrite not_elem_of_app, not_elem_of_cons.
      split; [done|]. split; [done|]. apply not_elem_of_nil.
  - intros ty id. rewrite entry_unregister.
    destruct (decide _) as [[-> ->]|_]; [right; by rewrite He|apply Ue].
Qed.

Lemma unwinding_tree s0 e x :
  FreshTree s0 x -> forall s, unwinding s0 e s -> unwinding s0 e (unregister_tree false x s).
Proof.
  induction 1 as [x Hx Hcs IH]. intros s Hs.
  destruct x as [id ty parent cls pos mov comps]. cbn [unregister_tree m_mapComponents].
  apply unwinding_unregister; [done|].
  cbn [m_mapComponents] in IH. clear Hcs Hx.
  revert s Hs. induction comps as [|nc comps IHc]; intros s Hs; [done|].
  apply IHc.
  - intros nc' Hin. apply IH. by right.
  - apply IH; [by left|done].
Qed.

(** Removing the tree of [e] from [register e s0] gives back the registry of [s0]. *)
Lemma unregister_register s0 e :
  FreshTree s0 e ->
  same_registry s0 (unregister_tree (negb (HasParent e)) e (register e s0)).
Proof.
  intros HF. pose proof HF as HF'.
  destruct HF' as [e [Ho Hv Hr Hc He _] Hcs].
  assert (Hchildren : forall comps s,
             (forall nc, In nc comps -> FreshTree s0 (snd nc)) ->
             unwinding s0 e s ->
             unwinding s0 e
               ((fix children_first (cs : list (string * CEntity)) (s : CSpace) : CSpace :=
                   match cs with
                   | [] => s
                   | nc :: cs' => children_first cs' (unregister_tree false (snd nc) s)
                   end) comps s)).
  { induction comps as [|nc comps IHc]; intros s Hall Hs; [done|].
    apply IHc; [intros; apply Hall; by right|].
    apply unwinding_tree; [apply Hall; by left|done]. }
  specialize (Hchildren (m_mapComponents e) (register e s0) Hcs (unwinding_start s0 e)).
  destruct e as [id ty parent cls pos mov comps].
  cbn [unregister_tree m_mapComponents] in *.
  destruct Hchildren as [Uc Ug Uo Uv Ur Uk Ue].
  cbn [GetId] in *.
  split; cbn -[register]; try done.
  - destruct Uo as [-> | ->].
    + rewrite delete_insert_eq. symmetry. by apply delete_id.
    + symmetry. by apply delete_id.
  - destruct Uv as [-> | ->]; symmetry; [by apply erase_snoc|by apply erase_notin].
  - rewrite Ur. unfold register, HasParent. cbn.
    destruct parent; cbn; [done|]. symmetry. by apply erase_snoc.
  - unfold register, is_controllable in *. cbn in *.
    destruct cls; cbn in *; try (by destruct Uk as [-> | ->]).
    destruct Uk as [-> | ->]; symmetry; [by apply erase_snoc|by apply erase_notin].
  - intros ty' id'. rewrite entry_unregister. cbn.
    destruct (decide _) as [[-> ->]|Hne]; [apply He|].
    destruct (Ue ty' id') as [-> | ->]; [|done].
    rewrite entry_register. cbn. by rewrite decide_False.
Qed.

(** ** Adding an entity, and removing it again *)

Section OperationFacts.

Variable stream_address : string.

Lemma housable_adds (body : CEntity) (s : CSpace) :
  housable (m_ptPhysicsEngines s) body ->
  AddEntityToPhysicsEngine stream_address body s
  = Returns tt (set_engines (added_to_housing body (m_ptPhysicsEngines s)) s).
Proof.
  unfold housable. intros H.
  destruct (IsMovable body) eqn:Hmov.
  - rewrite AddEntityToPhysicsEngine_movable by done. by rewrite H.
  - rewrite AddEntityToPhysicsEngine_not_movable by done.
    destruct (existsb (houses body) (m_ptPhysicsEngines s)) eqn:Hex; [done|].
    exfalso. revert H Hex. generalize (m_ptPhysicsEngines s) as engines.
    induction engines as [|eng engines IH]; cbn; [lia|].
    destruct (houses body eng); cbn; [discriminate|apply IH].
Qed.

Lemma added_then_removed (body : CEntity) (engines : list CPhysicsEngine) :
  (forall eng, eng ∈ engines -> GetId (topmost body) ∉ Engine_entities eng) ->
  Engine_RemoveEntity (GetId (topmost body)) <$> added_to_housing body engines = engines.
Proof.
  intros Hfresh. unfold added_to_housing. rewrite <- list_fmap_compose.
  rewrite <- (list_fmap_id engines) at 2.
  apply list_fmap_ext. intros k eng Hin. apply list_elem_of_lookup_2 in Hin.
  specialize (Hfresh eng Hin). clear Hin. destruct eng as [id dom l]. cbn in *.
  unfold houses, Engine_RemoveEntity. cbn.
  destruct (dom (GetPosition body)); cbn; f_equal.
  - by apply erase_snoc.
  - by apply erase_notin.
Qed.

(** Adding a fresh embodied entity and removing it gives back the registry and
    the engines. *)
Lemma add_then_remove (e body : CEntity) (s : CSpace) :
  FreshTree s e ->
  housable (m_ptPhysicsEngines s) body ->
  (forall eng, eng ∈ m_ptPhysicsEngines s -> GetId (topmost body) ∉ Engine_entities eng) ->
  exists s1 s2,
    CallEntityOperation_AddEntity stream_address e (Some body) s = Returns tt s1
    /\ CallEntityOperation_RemoveEntity e (Some body) s1 = Returns tt s2
    /\ same_registry s s2.
Proof.
  intros HF Hh Hroot.
  unfold CallEntityOperation_AddEntity, CallEntityOperation_RemoveEntity, bind, modify.
  rewrite housable_adds by done.
  eexists; eexists. split; [reflexivity|]. split; [reflexivity|].
  pose proof (unregister_register s e HF) as [Sc So Sv Sr Sk Sg Se].
  assert (Hsame : forall engs r x,
             unregister_tree r x (set_engines engs (register e s))
             = set_engines engs (unregister_tree r x (register e s))).
  { intros engs r x. generalize (register e s) as s'. revert r.
    induction x as [x IHx] using CEntity_components_ind.
    intros r s'. destruct x as [id ty parent cls pos mov comps].
    cbn [unregister_tree m_mapComponents] in *.
    assert (Hcs : forall s'',
               (fix children_first (cs : list (string * CEntity)) (s : CSpace) : CSpace :=
                  match cs with
                  | [] => s
                  | nc :: cs' => children_first cs' (unregister_tree false (snd nc) s)
                  end) comps (set_engines engs s'')
               = set_engines engs
                   ((fix children_first (cs : list (string * CEntity)) (s : CSpace) : CSpace :=
                       match cs with
                       | [] => s
                       | nc :: cs' => children_first cs' (unregister_tree false (snd nc) s)
                       end) comps s'')).
    { induction comps as [|nc comps IHc]; intros s''; [done|].
      rewrite IHx by (by left). apply IHc. intros; apply IHx; by right. }
    rewrite Hcs. done. }
  change (set_engines (added_to_housing body (m_ptPhysicsEngines (register e s))) (register e s))
    with (set_engines (added_to_housing body (m_ptPhysicsEngines s)) (register e s)).
  rewrite Hsame.
  unfold RemoveEntityFromPhysicsEngine, set_engines. cbn.
  split; cbn; try done.
  by rewrite added_then_removed.
Qed.

End OperationFacts.

(** ** The configuration tree of a copy *)

Lemma find_attribute_set_same (name : string) (a : Attribute) (l : list (string * Attribute)) :
  List.find (fun na => String.eqb (fst na) name) (set_attribute name a l) = Some (name, a).
Proof.
  induction l as [|[n x] l IH]; cbn.
  - by rewrite String.eqb_refl.
  - destruct (String.eqb_spec n name) as [->|Hne]; cbn.
    + by rewrite String.eqb_refl.
    + by destruct (String.eqb_spec n name).
Qed.

Lemma find_attribute_set_other (name other : string) (a : Attribute)
      (l : list (string * Attribute)) :
  name <> other ->
  List.find (fun na => String.eqb (fst na) other) (set_attribute name a l)
  = List.find (fun na => String.eqb (fst na) other) l.
Proof.
  intros Hne. induction l as [|[n x] l IH]; cbn.
  - by destruct (String.eqb_spec name other).
  - destruct (String.eqb_spec n name) as [->|Hn]; cbn.
    + by destruct (String.eqb_spec name other).
    + by destruct (String.eqb_spec n other).
Qed.

Lemma find_child_set_in_first (child name : string) (a : Attribute)
      (l : list TConfigurationNode) (b : TConfigurationNode) :
  find_child child l = Some b ->
  find_child child (set_in_first child name a l) = Some (SetNodeAttribute b name a).
Proof.
  unfold find_child. induction l as [|c l IH]; cbn; [done|].
  destruct (String.eqb_spec (Value c) child) as [E|Hne]; cbn.
  - intros [= ->]. by rewrite E, String.eqb_refl.
  - intros H. destruct (String.eqb_spec (Value c) child); [done|]. by apply IH.
Qed.

Lemma find_child_ensured (t : TConfigurationNode) :
  exists b,
    find_child "body"
      (children (if negb (NodeExists t "body")
                 then AddChildNode t (ConfigurationNode "body" [] []) else t))
    = Some b.
Proof.
  unfold NodeExists.
  destruct (find_child "body" (children t)) as [b|] eqn:E; cbn; [by exists b|].
  exists (ConfigurationNode "body" [] []).
  unfold find_child in *. revert E. generalize (children t) as l.
  induction l as [|c l IH]; cbn; [done|].
  destruct (String.eqb (Value c) "body"); [done|apply IH].
Qed.

Lemma prepared_Value t p o : Value (prepared t p o) = Value t.
Proof. unfold prepared. by destruct (negb (NodeExists t "body")). Qed.

Lemma prepared_attributes t p o : attributes (prepared t p o) = attributes t.
Proof. unfold prepared. by destruct (negb (NodeExists t "body")). Qed.

Lemma prepared_string t p o name :
  GetNodeAttribute_string (prepared t p o) name = GetNodeAttribute_string t name.
Proof. unfold GetNodeAttribute_string, find_attribute. by rewrite prepared_attributes. Qed.

Lemma prepared_ready t p o id :
  GetNodeAttribute_string t "id" = inr id -> ready id (prepared t p o).
Proof.
  intros Hid. split; [by rewrite prepared_string|].
  destruct (find_child_ensured t) as [b Hb].
  exists (SetNodeAttribute (SetNodeAttribute b "position" (AttrVector p))
                           "orientation" (AttrVector o)), p, o.
  split; [|split].
  - unfold GetNode, prepared. cbn [children SetChildAttribute].
    erewrite find_child_set_in_first; [done|].
    by apply find_child_set_in_first.
  - unfold GetNodeAttribute_vector, find_attribute. cbn [attributes SetNodeAttribute].
    rewrite find_attribute_set_other by done.
    by rewrite find_attribute_set_same.
  - unfold GetNodeAttribute_vector, find_attribute. cbn [attributes SetNodeAttribute].
    by rewrite find_attribute_set_same.
Qed.

Lemma copy_tree_id (itEntity : TConfigurationNode) (id : string) :
  GetNodeAttribute_string (SetNodeAttribute itEntity "id" (AttrString id)) "id" = inr id.
Proof.
  unfold GetNodeAttribute_string, find_attribute. cbn [attributes SetNodeAttribute].
  by rewrite find_attribute_set_same.
Qed.

(** ** The placement loop *)

Lemma same_registry_refl s : same_registry s s.
Proof. by split. Qed.

Lemma same_registry_trans s1 s2 s3 :
  same_registry s1 s2 -> same_registry s2 s3 -> same_registry s1 s3.
Proof.
  intros [] []. split; first [congruence | intros ty id; etrans; eauto].
Qed.

Lemma unregistered_same s s' p : same_registry s s' -> unregistered s p -> unregistered s' p.
Proof.
  intros [Sc So Sv Sr Sk Sg Se] [Ho Hv Hr Hc He Hg].
  split.
  - by rewrite <- So.
  - by rewrite <- Sv.
  - by rewrite <- Sr.
  - by rewrite <- Sk.
  - intros ty. by rewrite <- Se.
  - by rewrite <- Sg.
Qed.

Lemma FreshTree_same s s' e : same_registry s s' -> FreshTree s e -> FreshTree s' e.
Proof.
  intros Hs. induction 1 as [e He Hcs IH]. constructor; [|done].
  by apply unregistered_same with s.
Qed.

Section DistributeFacts.

Variable RNG : Type.
Variable Uniform : RNG -> Real -> Real -> Real * RNG.
Variable Gaussian : RNG -> Real -> Real -> Real * RNG.
Variable CVector3_text : CVector3 -> string.
Variable stream_address : string.
Variable CFactory_New : string -> Try CEntity.
Variable Init : CEntity -> TConfigurationNode -> Try CEntity.
Variable IsCollidingWithSomething : CSpace -> CEntity -> bool.

Abbreviation place_ :=
  (place RNG Uniform Gaussian stream_address CFactory_New Init IsCollidingWithSomething).
Abbreviation copies_ :=
  (copies RNG Uniform Gaussian stream_address CFactory_New Init IsCollidingWithSomething).
Abbreviation Distribute_ :=
  (Distribute RNG Uniform Gaussian CVector3_text stream_address CFactory_New Init
              IsCollidingWithSomething).

(** A generator with a cell left answers a call without retry; one that is
    steady answers any call and stays as it is. *)
Lemma call_answers (b : bool) (n : Z) (g : RealNumberGenerator) (r : RNG) :
  (b = true -> steady g) -> has_cells n g -> 1 <= n ->
  exists v g' r',
    call RNG Uniform Gaussian b (g, r) = Returns v (g', r')
    /\ has_cells (n - 1) g' /\ (steady g -> g' = g).
Proof.
  intros Hb Hn H1. destruct g as [v|cMin cMax|cMean cStdDev|c l d placed]; cbn [call].
  - by eexists _, _, _.
  - destruct (Uniform_call _ _ _ _ _ _) as [v r']. by eexists _, _, _.
  - destruct (Gaussian_call _ _ _ _ _ _) as [v r']. by eexists _, _, _.
  - destruct b; [by destruct Hb|]. cbn in Hn. destruct Hn as [Hp Hc].
    assert (Hr : 0 <= Grid_cells l < 2 ^ 32).
    { destruct l as [[l0 l1] l2]. apply wrap32_range. }
    destruct (Z.ltb_spec placed (Grid_cells l)); [|lia].
    eexists _, _, _. split; [reflexivity|]. split; [|done].
    cbn. rewrite wrap32_small by lia. lia.
Qed.

Lemma draw_pair (b : bool) (n : Z) (st : Placement RNG) :
  (b = true -> steady (pcPositionGenerator RNG st) /\ steady (pcOrientationGenerator RNG st)) ->
  has_cells n (pcPositionGenerator RNG st) ->
  has_cells n (pcOrientationGenerator RNG st) ->
  1 <= n ->
  exists cPos st1 cOri st2,
    position_draw RNG Uniform Gaussian b st = Returns cPos st1
    /\ orientation_draw RNG Uniform Gaussian b st1 = Returns cOri st2
    /\ space RNG st2 = space RNG st
    /\ has_cells (n - 1) (pcPositionGenerator RNG st2)
    /\ has_cells (n - 1) (pcOrientationGenerator RNG st2)
    /\ (steady (pcPositionGenerator RNG st) ->
        pcPositionGenerator RNG st2 = pcPositionGenerator RNG st)
    /\ (steady (pcOrientationGenerator RNG st) ->
        pcOrientationGenerator RNG st2 = pcOrientationGenerator RNG st).
Proof.
  intros Hb Hp Ho H1. destruct st as [s r gp go]. cbn in *.
  assert (Hbp : b = true -> steady gp) by (intros Hb'; by destruct (Hb Hb')).
  assert (Hbo : b = true -> steady go) by (intros Hb'; by destruct (Hb Hb')).
  destruct (call_answers b n gp r Hbp Hp H1) as (cPos & gp' & r1 & E1 & Hp' & Sp).
  destruct (call_answers b n go r1 Hbo Ho H1) as (cOri & go' & r2 & E2 & Ho' & So).
  exists cPos, (mkPlacement RNG s r1 gp' go), cOri, (mkPlacement RNG s r2 gp' go').
  unfold position_draw, orientation_draw.
  cbn [space rng pcPositionGenerator pcOrientationGenerator]. rewrite E1.
  cbn [space rng pcPositionGenerator pcOrientationGenerator]. rewrite E2. cbn.
  repeat split; done.
Qed.

(** One pass of the loop on an embodied entity that could be added. *)
Lemma place_embodied_step fuel i mt base tree unTrials bRetry st
      blank cPos st1 cOri st2 e body s3 :
  CFactory_New (Value tree) = inr blank ->
  position_draw RNG Uniform Gaussian bRetry st = Returns cPos st1 ->
  orientation_draw RNG Uniform Gaussian bRetry st1 = Returns cOri st2 ->
  Init blank (prepared tree cPos cOri) = inr e ->
  GetEmbodiedEntity e = inr (Some body) ->
  CallEntityOperation_AddEntity stream_address e (Some body) (space RNG st2) = Returns tt s3 ->
  place_ (S fuel) i mt base tree unTrials bRetry st
  = if IsCollidingWithSomething s3 body then
      match CallEntityOperation_RemoveEntity e (Some body) s3 with
      | Returns _ s4 =>
          if wrap32 (unTrials + 1) >? mt then
            Throws (MaxTrialsExceededError (Value tree) base i) (with_space RNG s4 st2)
          else
            place_ fuel i mt base (prepared tree cPos cOri) (wrap32 (unTrials + 1)) true
                   (with_space RNG s4 st2)
      | Throws ex s4 => Throws ex (with_space RNG s4 st2)
      | OutOfFuel s4 => OutOfFuel (with_space RNG s4 st2)
      end
    else Returns tt (with_space RNG s3 st2).
Proof.
  intros Hnew Hpos Hori Hinit Hemb Hadd.
  cbn [place]. unfold bind at 1. unfold lift_try at 1. rewrite Hnew.
  unfold bind at 1. rewrite Hpos.
  unfold bind at 1. rewrite Hori.
  fold (prepared tree cPos cOri).
  unfold bind at 1. unfold lift_try at 1. rewrite Hinit.
  unfold bind at 1. unfold lift_try at 1. rewrite Hemb.
  unfold bind at 1. unfold in_space at 1. rewrite Hadd.
  unfold bind at 1. unfold get at 1. cbn [space with_space].
  destruct (IsCollidingWithSomething s3 body); [|done].
  unfold bind at 1. unfold in_space at 1. cbn [space].
  destruct (CallEntityOperation_RemoveEntity e (Some body) s3) as [[] s4|ex s4|s4]; try done.
  rewrite prepared_Value. by destruct (wrap32 (unTrials + 1) >? mt).
Qed.

Lemma steady_has_cells (n : Z) (g : RealNumberGenerator) : steady g -> has_cells n g.
Proof. by destruct g. Qed.

(** One pass of the loop when the entity built is embodied, fresh, housable
    and colliding: it is added, found colliding and removed, and the registry
    is what it was. *)
Lemma place_colliding_once (s0 : CSpace) (ty id base : string) (blank : CEntity) (i mt : Z) :
  CFactory_New ty = inr blank ->
  (forall tree,
      ready id tree -> Value tree = ty ->
      exists e body,
        Init blank tree = inr e
        /\ GetEmbodiedEntity e = inr (Some body)
        /\ housable (m_ptPhysicsEngines s0) body
        /\ FreshTree s0 e
        /\ (forall eng, eng ∈ m_ptPhysicsEngines s0 ->
                        GetId (topmost body) ∉ Engine_entities eng)) ->
  (forall s body, IsCollidingWithSomething s body = true) ->
  forall (fuel : nat) unTrials bRetry tree st,
    Value tree = ty -> GetNodeAttribute_string tree "id" = inr id ->
    same_registry s0 (space RNG st) ->
    (bRetry = true ->
     steady (pcPositionGenerator RNG st) /\ steady (pcOrientationGenerator RNG st)) ->
    has_cells 1 (pcPositionGenerator RNG st) ->
    has_cells 1 (pcOrientationGenerator RNG st) ->
    exists cPos cOri st',
      same_registry s0 (space RNG st')
      /\ (steady (pcPositionGenerator RNG st) ->
          pcPositionGenerator RNG st' = pcPositionGenerator RNG st)
      /\ (steady (pcOrientationGenerator RNG st) ->
          pcOrientationGenerator RNG st' = pcOrientationGenerator RNG st)
      /\ place_ (S fuel) i mt base tree unTrials bRetry st
         = if wrap32 (unTrials + 1) >? mt
           then Throws (MaxTrialsExceededError ty base i) st'
           else place_ fuel i mt base (prepared tree cPos cOri) (wrap32 (unTrials + 1)) true st'.
Proof.
  intros Hnew Hinit Hcoll fuel unTrials bRetry tree st Hty Hid Hs0 Hb Hp Ho.
  destruct (draw_pair bRetry 1 st Hb Hp Ho ltac:(lia))
    as (cPos & st1 & cOri & st2 & Hpos & Hori & Hsp & _ & _ & Kp & Ko).
  destruct (Hinit (prepared tree cPos cOri)) as (e & body & Hi & He & Hh & HF & Hroot);
    [by apply prepared_ready|by rewrite prepared_Value|].
  assert (Hs2 : same_registry s0 (space RNG st2)) by (by rewrite Hsp).
  destruct (add_then_remove stream_address e body (space RNG st2))
    as (s3 & s4 & Hadd & Hrem & Hs4).
  { by apply FreshTree_same with s0. }
  { by rewrite <- (same_engines _ _ Hs2). }
  { by rewrite <- (same_engines _ _ Hs2). }
  exists cPos, cOri, (with_space RNG s4 st2).
  split; [cbn; by apply same_registry_trans with (space RNG st2)|].
  split; [done|]. split; [done|].
  rewrite (place_embodied_step fuel i mt base tree unTrials bRetry st
             blank cPos st1 cOri st2 e body s3); try done; [|by rewrite Hty].
  by rewrite Hcoll, Hrem, Hty.
Qed.

(** The loop on entities that always collide: after the trials the budget
    allows it throws, the registry being what it was. *)
Lemma place_always_colliding (s0 : CSpace) (ty id base : string) (blank : CEntity) (i mt : Z) :
  CFactory_New ty = inr blank ->
  (forall tree,
      ready id tree -> Value tree = ty ->
      exists e body,
        Init blank tree = inr e
        /\ GetEmbodiedEntity e = inr (Some body)
        /\ housable (m_ptPhysicsEngines s0) body
        /\ FreshTree s0 e
        /\ (forall eng, eng ∈ m_ptPhysicsEngines s0 ->
                        GetId (topmost body) ∉ Engine_entities eng)) ->
  (forall s body, IsCollidingWithSomething s body = true) ->
  mt < 2 ^ 32 - 1 ->
  forall (n fuel : nat) unTrials bRetry tree st,
    (n < fuel)%nat -> 0 <= unTrials -> unTrials + Z.of_nat n = mt ->
    Value tree = ty -> GetNodeAttribute_string tree "id" = inr id ->
    same_registry s0 (space RNG st) ->
    (n = 0%nat /\ bRetry = false
     /\ has_cells 1 (pcPositionGenerator RNG st) /\ has_cells 1 (pcOrientationGenerator RNG st))
    \/ (steady (pcPositionGenerator RNG st) /\ steady (pcOrientationGenerator RNG st)) ->
    exists st',
      place_ fuel i mt base tree unTrials bRetry st
      = Throws (MaxTrialsExceededError ty base i) st'
      /\ same_registry s0 (space RNG st').
Proof.
  intros Hnew Hinit Hcoll Hmt.
  induction n as [|n IH]; intros fuel unTrials bRetry tree st Hfuel Hu Hn Hty Hid Hs0 Hgen.
  all: destruct fuel as [|fuel]; [lia|].
  all: destruct (place_colliding_once s0 ty id base blank i mt Hnew Hinit Hcoll
                   fuel unTrials bRetry tree st Hty Hid Hs0)
    as (cPos & cOri & st' & Hs' & Kp & Ko & ->);
    [destruct Hgen as [(_ & -> & _)|Hst]; [done|by intros _]
    |destruct Hgen as [(_ & _ & Hp & _)|[Hp _]]; [done|by apply steady_has_cells]
    |destruct Hgen as [(_ & _ & _ & Ho)|[_ Ho]]; [done|by apply steady_has_cells]
    |].
  all: rewrite wrap32_small by lia.
  - destruct (Z.gtb_spec (unTrials + 1) mt); [|lia]. by exists st'.
  - destruct (Z.gtb_spec (unTrials + 1) mt); [lia|].
    destruct Hgen as [(Hn0 & _)|[Hp Ho]]; [lia|].
    apply IH; try lia; try done.
    + by rewrite prepared_Value.
    + by rewrite prepared_string.
    + right. by rewrite Kp, Ko.
Qed.

Lemma GetNodeAttribute_UInt32_range t name z :
  GetNodeAttribute_UInt32 t name = inr z -> 0 <= z < 2 ^ 32.
Proof using Type.
  unfold GetNodeAttribute_UInt32.
  destruct (find_attribute t name) as [[| z' | |]|]; try discriminate.
  destruct (Z.leb_spec 0 z'), (Z.ltb_spec z' (2 ^ 32)); cbn; try discriminate.
  intros [= <-]. lia.
Qed.

Lemma try_bind_inr {A B} (m : Try A) (k : A -> Try B) (b : B) :
  try_bind m k = inr b -> exists a, m = inr a /\ k a = inr b.
Proof using Type. destruct m as [ex|a]; [discriminate|]. intros H. by exists a. Qed.

Lemma read_directive_ranges t_tree d :
  read_directive CVector3_text t_tree = inr d ->
  0 <= dir_unQuantity d < 2 ^ 32 /\ 0 <= dir_unMaxTrials d < 2 ^ 32.
Proof using Type.
  unfold read_directive. intros H.
  apply try_bind_inr in H as (cPositionNode & _ & H).
  apply try_bind_inr in H as (cOrientationNode & _ & H).
  apply try_bind_inr in H as (cEntityNode & _ & H).
  apply try_bind_inr in H as (gp & _ & H).
  apply try_bind_inr in H as (go & _ & H).
  apply try_bind_inr in H as (unQuantity & Hq & H).
  apply try_bind_inr in H as (unMaxTrials & Hmt & H).
  apply try_bind_inr in H as (unBaseNum & _ & H).
  destruct (children cEntityNode) as [|itEntity rest]; [discriminate|].
  apply try_bind_inr in H as (strBaseId & _ & H).
  injection H as <-. cbn.
  apply GetNodeAttribute_UInt32_range in Hmt. by apply GetNodeAttribute_UInt32_range in Hq.
Qed.


End DistributeFacts.

(** ** The small scene *)

Lemma FreshTree_empty_space (engines : list CPhysicsEngine) (e : CEntity) :
  (forall eng, eng ∈ engines -> Engine_entities eng = []) ->
  FreshTree (empty_space engines) e.
Proof.
  intros Hengines. induction e as [e IH] using CEntity_components_ind.
  constructor; [|done].
  split; cbn; try apply not_elem_of_nil; try done.
  intros eng Hin. rewrite (Hengines eng Hin). apply not_elem_of_nil.
Qed.

Lemma everywhere_is_empty (eng : CPhysicsEngine) :
  eng ∈ [everywhere] -> Engine_entities eng = [].
Proof. intros Hin. apply list_elem_of_singleton in Hin. by subst. Qed.

(** What [sample_Init] makes of a box, given a tree that is ready. *)
Lemma sample_Init_box (id : string) (tree : TConfigurationNode) :
  ready id tree ->
  exists e body,
    sample_Init (mkEntity EmptyString "box" None ClassComposable origin true []) tree = inr e
    /\ GetId e = id
    /\ GetEmbodiedEntity e = inr (Some body)
    /\ housable [everywhere] body
    /\ FreshTree (empty_space [everywhere]) e
    /\ (forall eng, eng ∈ [everywhere] -> GetId (topmost body) ∉ Engine_entities eng).
Proof.
  intros (Hid & b & p & o & Hb & Hp & Ho).
  unfold sample_Init, try_bind. rewrite Hid, Hb, Hp. cbn.
  eexists _, _. split; [reflexivity|]. split; [reflexivity|]. split; [reflexivity|].
  split; [reflexivity|]. split.
  - apply FreshTree_empty_space, everywhere_is_empty.
  - intros eng Hin. rewrite (everywhere_is_empty eng Hin). apply not_elem_of_nil.
Qed.



(** ** Placements accepted at the first trial *)

Lemma housing_count_domains (body : CEntity) (engines : list CPhysicsEngine) :
  length (List.filter (houses body) engines)
  = length (List.filter (fun dom => dom (GetPosition body)) (domains engines)).
Proof.
  induction engines as [|eng engines IH]; [done|].
  cbn. unfold houses at 1. destruct (IsPointContained eng (GetPosition body)); cbn; by rewrite IH.
Qed.

Lemma housable_domains (body : CEntity) (engines engines' : list CPhysicsEngine) :
  domains engines = domains engines' -> housable engines body -> housable engines' body.
Proof.
  unfold housable. rewrite !housing_count_domains. by intros ->.
Qed.

Lemma added_to_housing_domains (body : CEntity) (engines : list CPhysicsEngine) :
  domains (added_to_housing body engines) = domains engines.
Proof.
  unfold domains, added_to_housing. rewrite <- list_fmap_compose.
  apply list_fmap_ext. intros k eng _. cbn. by destruct (houses body eng).
Qed.

Lemma holds_register (e : CEntity) (s : CSpace) (p : string) :
  holds s p \/ p = GetId e -> holds (register e s) p.
Proof.
  unfold holds, register. cbn.
  destruct (decide (p = GetId e)) as [->|Hne].
  - intros _. exists e. by rewrite lookup_insert_eq.
  - intros [(x & Hx & Hid)|?]; [|done]. exists x. by rewrite lookup_insert_ne.
Qed.

Section FirstTrialFacts.

Variable RNG : Type.
Variable Uniform : RNG -> Real -> Real -> Real * RNG.
Variable Gaussian : RNG -> Real -> Real -> Real * RNG.
Variable CVector3_text : CVector3 -> string.
Variable stream_address : string.
Variable CFactory_New : string -> Try CEntity.
Variable Init : CEntity -> TConfigurationNode -> Try CEntity.
Variable IsCollidingWithSomething : CSpace -> CEntity -> bool.

Abbreviation place1_ :=
  (place RNG Uniform Gaussian stream_address CFactory_New Init IsCollidingWithSomething).
Abbreviation copies1_ :=
  (copies RNG Uniform Gaussian stream_address CFactory_New Init IsCollidingWithSomething).
Abbreviation Distribute1_ :=
  (Distribute RNG Uniform Gaussian CVector3_text stream_address CFactory_New Init
              IsCollidingWithSomething).

Lemma add_embodied (e body : CEntity) (s : CSpace) :
  housable (m_ptPhysicsEngines s) body ->
  CallEntityOperation_AddEntity stream_address e (Some body) s
  = Returns tt (set_engines (added_to_housing body (m_ptPhysicsEngines s)) (register e s)).
Proof using Type.
  intros Hh. unfold CallEntityOperation_AddEntity, bind, modify.
  by rewrite housable_adds.
Qed.

(** The loop for one copy when the entity built is embodied, can be housed and
    does not collide: one pass, and the copy is registered. *)
Lemma place_first_trial (engines0 : list CPhysicsEngine) (ty id base : string)
      (blank : CEntity) (i mt n : Z) (fuel : nat) (tree : TConfigurationNode)
      (st : Placement RNG) :
  CFactory_New ty = inr blank ->
  (forall tree',
      ready id tree' -> Value tree' = ty ->
      exists e body,
        Init blank tree' = inr e /\ GetId e = id
        /\ GetEmbodiedEntity e = inr (Some body) /\ housable engines0 body) ->
  (forall s body, IsCollidingWithSomething s body = false) ->
  Value tree = ty -> GetNodeAttribute_string tree "id" = inr id ->
  domains (m_ptPhysicsEngines (space RNG st)) = domains engines0 ->
  has_cells n (pcPositionGenerator RNG st) ->
  has_cells n (pcOrientationGenerator RNG st) ->
  1 <= n ->
  exists st',
    place1_ (S fuel) i mt base tree 0 false st = Returns tt st'
    /\ m_vecEntities (space RNG st') = m_vecEntities (space RNG st) ++ [id]
    /\ (forall p, holds (space RNG st) p \/ p = id -> holds (space RNG st') p)
    /\ domains (m_ptPhysicsEngines (space RNG st')) = domains engines0
    /\ has_cells (n - 1) (pcPositionGenerator RNG st')
    /\ has_cells (n - 1) (pcOrientationGenerator RNG st').
Proof using Type.
  intros Hnew Hinit Hfree Hty Hid Hdom Hp Ho Hn.
  destruct (draw_pair RNG Uniform Gaussian false n st ltac:(done) Hp Ho Hn)
    as (cPos & st1 & cOri & st2 & Hpos & Hori & Hsp & Hp' & Ho' & _ & _).
  destruct (Hinit (prepared tree cPos cOri)) as (e & body & Hi & Hide & He & Hh);
    [by apply prepared_ready|by rewrite prepared_Value|].
  assert (Hh2 : housable (m_ptPhysicsEngines (space RNG st2)) body).
  { apply housable_domains with engines0; [|done]. by rewrite Hsp, Hdom. }
  exists (with_space RNG
            (set_engines (added_to_housing body (m_ptPhysicsEngines (space RNG st2)))
                         (register e (space RNG st2))) st2).
  split.
  - rewrite (place_embodied_step RNG Uniform Gaussian stream_address CFactory_New Init
               IsCollidingWithSomething fuel i mt base tree 0 false st
               blank cPos st1 cOri st2 e body _ ltac:(by rewrite Hty) Hpos Hori Hi He
               (add_embodied e body _ Hh2)).
    by rewrite Hfree.
  - cbn. rewrite Hsp, Hide. split; [done|]. split.
    + intros p Hp0. destruct (holds_register e (space RNG st) p) as (x & Hx & Hxid).
      * by rewrite Hide.
      * by exists x.
    + split; [|done]. by rewrite added_to_housing_domains.
Qed.

(** The [for] loop when every copy is accepted at its first trial. *)
Lemma copies_first_trial (engines0 : list CPhysicsEngine) (base : string)
      (blank : CEntity) (itEntity : TConfigurationNode) (mt bn : Z) (fuel : nat) :
  CFactory_New (Value itEntity) = inr blank ->
  (forall i tree,
      ready (copy_id base bn i) tree -> Value tree = Value itEntity ->
      exists e body,
        Init blank tree = inr e /\ GetId e = copy_id base bn i
        /\ GetEmbodiedEntity e = inr (Some body) /\ housable engines0 body) ->
  (forall s body, IsCollidingWithSomething s body = false) ->
  (1 <= fuel)%nat ->
  forall (remaining : nat) (i : Z) (st : Placement RNG),
    domains (m_ptPhysicsEngines (space RNG st)) = domains engines0 ->
    has_cells (Z.of_nat remaining) (pcPositionGenerator RNG st) ->
    has_cells (Z.of_nat remaining) (pcOrientationGenerator RNG st) ->
    exists st',
      copies1_ fuel itEntity base mt bn remaining i st = Returns tt st'
      /\ m_vecEntities (space RNG st')
         = m_vecEntities (space RNG st)
             ++ ((fun j : nat => copy_id base bn (i + Z.of_nat j)) <$> seq 0 remaining)
      /\ (forall p, holds (space RNG st) p -> holds (space RNG st') p)
      /\ (forall j : nat, (j < remaining)%nat ->
                          holds (space RNG st') (copy_id base bn (i + Z.of_nat j))).
Proof using Type.
  intros Hnew Hinit Hfree Hfuel. destruct fuel as [|fuel]; [lia|].
  induction remaining as [|remaining IH]; intros i st Hdom Hp Ho.
  - exists st. cbn. rewrite app_nil_r. repeat split; try done. lia.
  - cbn [copies]. unfold bind at 1.
    destruct (place_first_trial engines0 (Value itEntity) (copy_id base bn i) base blank
                i mt (Z.of_nat (S remaining)) fuel
                (SetNodeAttribute itEntity "id" (AttrString (base +:+ ToString (wrap64 (i + bn)))))
                st Hnew (Hinit i) Hfree eq_refl (copy_tree_id _ _) Hdom Hp Ho ltac:(lia))
      as (st1 & -> & Hv1 & Hh1 & Hd1 & Hp1 & Ho1).
    replace (Z.of_nat (S remaining) - 1) with (Z.of_nat remaining) in Hp1, Ho1 by lia.
    destruct (IH (i + 1) st1 Hd1 Hp1 Ho1) as (st' & -> & Hv' & Hh' & Hn').
    exists st'. split; [done|]. split; [|split].
    + rewrite Hv', Hv1, <- app_assoc. f_equal. cbn [seq fmap list_fmap app].
      rewrite Z.add_0_r. f_equal.
      rewrite <- seq_shift, <- list_fmap_compose.
      apply list_fmap_ext. intros k j _. cbn. f_equal. lia.
    + intros p Hp0. apply Hh', Hh1. by left.
    + intros [|j] Hj.
      * rewrite Z.add_0_r. apply Hh', Hh1. by right.
      * replace (i + Z.of_nat (S j)) with (i + 1 + Z.of_nat j) by lia.
        apply Hn'. lia.
Qed.

(** C5, amended. Take a directive whose generators can answer one call
    without retry per copy. If every entity built is embodied, carries the
    identifier its tree gives it, can be housed, and never collides, then
    [Distribute] returns, for every retry budget (0 included) and with one
    unit of fuel per copy; it appends to the flat collection exactly
    [quantity] identifiers, the i-th being the base identifier followed by the
    decimal digits of [(i + base_num) mod 2^64], and each of them leads to an
    object that carries it. *)
Theorem Distribute_first_trial (t_tree : TConfigurationNode) (d : Directive)
        (blank : CEntity) (s0 : CSpace) (r0 : RNG) (fuel : nat) :
  read_directive CVector3_text t_tree = inr d ->
  has_cells (dir_unQuantity d) (dir_position d) ->
  has_cells (dir_unQuantity d) (dir_orientation d) ->
  CFactory_New (Value (dir_itEntity d)) = inr blank ->
  (forall i tree,
      ready (copy_id (dir_strBaseId d) (dir_unBaseNum d) i) tree ->
      Value tree = Value (dir_itEntity d) ->
      exists e body,
        Init blank tree = inr e
        /\ GetId e = copy_id (dir_strBaseId d) (dir_unBaseNum d) i
        /\ GetEmbodiedEntity e = inr (Some body)
        /\ housable (m_ptPhysicsEngines s0) body) ->
  (forall s body, IsCollidingWithSomething s body = false) ->
  (1 <= fuel)%nat ->
  exists s' r',
    Distribute1_ fuel t_tree (s0, r0) = Returns tt (s', r')
    /\ m_vecEntities s'
       = m_vecEntities s0
           ++ ((fun i : nat =>
                  dir_strBaseId d +:+ ToString ((Z.of_nat i + dir_unBaseNum d) mod 2 ^ 64))
                 <$> seq 0 (Z.to_nat (dir_unQuantity d)))
    /\ (forall i : nat,
           (i < Z.to_nat (dir_unQuantity d))%nat ->
           holds s' (dir_strBaseId d +:+ ToString ((Z.of_nat i + dir_unBaseNum d) mod 2 ^ 64))).
Proof using Type.
  intros Hread Hp Ho Hnew Hinit Hfree Hfuel.
  unfold Distribute, rethrow_nested, bind, lift_try. rewrite Hread.
  unfold with_generators.
  set (st := mkPlacement RNG s0 r0 (dir_position d) (dir_orientation d)).
  assert (Hcells : forall g, has_cells (dir_unQuantity d) g ->
                             has_cells (Z.of_nat (Z.to_nat (dir_unQuantity d))) g).
  { pose proof (read_directive_ranges CVector3_text t_tree d Hread) as [Hq _].
    intros [| | |c l dd placed]; try done. cbn. lia. }
  destruct (copies_first_trial (m_ptPhysicsEngines s0) (dir_strBaseId d) blank
              (dir_itEntity d) (dir_unMaxTrials d) (dir_unBaseNum d) fuel
              Hnew Hinit Hfree Hfuel (Z.to_nat (dir_unQuantity d)) 0 st
              eq_refl (Hcells _ Hp) (Hcells _ Ho))
    as (st' & -> & Hv & _ & Hh).
  exists (space RNG st'), (rng RNG st'). split; [done|]. split.
  - rewrite Hv. done.
  - intros i Hi. apply (Hh i Hi).
Qed.

End FirstTrialFacts.

(** ** Entities that are positional but not embodied *)

Section PositionalFacts.

Variable RNG : Type.
Variable Uniform : RNG -> Real -> Real -> Real * RNG.
Variable Gaussian : RNG -> Real -> Real -> Real * RNG.
Variable CVector3_text : CVector3 -> string.
Variable stream_address : string.
Variable CFactory_New : string -> Try CEntity.
Variable Init : CEntity -> TConfigurationNode -> Try CEntity.
Variable IsCollidingWithSomething : CSpace -> CEntity -> bool.

Abbreviation place2_ :=
  (place RNG Uniform Gaussian stream_address CFactory_New Init IsCollidingWithSomething).

(** One pass of the loop on an entity that is positional and not embodied: the
    entity is registered and the loop goes round again, with the same trial
    counter and retry flag. *)
Lemma place_positional_step fuel i mt base tree unTrials bRetry st
      blank cPos st1 cOri st2 e positional :
  CFactory_New (Value tree) = inr blank ->
  position_draw RNG Uniform Gaussian bRetry st = Returns cPos st1 ->
  orientation_draw RNG Uniform Gaussian bRetry st1 = Returns cOri st2 ->
  Init blank (prepared tree cPos cOri) = inr e ->
  GetEmbodiedEntity e = inr None ->
  GetPositionalEntity e = inr (Some positional) ->
  place2_ (S fuel) i mt base tree unTrials bRetry st
  = place2_ fuel i mt base (prepared tree cPos cOri) unTrials bRetry
            (with_space RNG (register e (space RNG st2)) st2).
Proof using Type.
  intros Hnew Hpos Hori Hinit Hemb Hposl.
  cbn [place]. unfold bind at 1. unfold lift_try at 1. rewrite Hnew.
  unfold bind at 1. rewrite Hpos.
  unfold bind at 1. rewrite Hori.
  fold (prepared tree cPos cOri).
  unfold bind at 1. unfold lift_try at 1. rewrite Hinit.
  unfold bind at 1. unfold lift_try at 1. rewrite Hemb.
  unfold bind at 1. unfold lift_try at 1. rewrite Hposl.
  unfold bind at 1. reflexivity.
Qed.

(** Whatever the generators, the factory and the fuel: when no entity that
    [Init] builds has an embodied part, the loop for one copy never ends its
    last pass with [bDone] set. *)
Lemma place_not_embodied_never_returns :
  (forall blank tree e, Init blank tree = inr e -> GetEmbodiedEntity e = inr None) ->
  forall fuel i mt base tree unTrials bRetry st,
    returned (place2_ fuel i mt base tree unTrials bRetry st) = false.
Proof using Type.
  intros Hinit. induction fuel as [|fuel IH]; intros i mt base tree unTrials bRetry st; [done|].
  cbn [place]. unfold bind at 1. unfold lift_try at 1.
  destruct (CFactory_New (Value tree)) as [ex|blank]; [done|].
  unfold bind at 1.
  destruct (position_draw RNG Uniform Gaussian bRetry st) as [cPos st1|ex st1|st1]; try done.
  unfold bind at 1.
  destruct (orientation_draw RNG Uniform Gaussian bRetry st1) as [cOri st2|ex st2|st2]; try done.
  unfold bind at 1. unfold lift_try at 1.
  destruct (Init blank _) as [ex|e] eqn:Hi; [done|].
  rewrite (Hinit _ _ _ Hi).
  unfold bind at 1. unfold lift_try at 1.
  unfold bind at 1. unfold lift_try at 1.
  destruct (GetPositionalEntity e) as [ex|[positional|]]; try done.
  unfold bind at 1. unfold in_space at 1.
  destruct (CallEntityOperation_AddEntity stream_address e None (space RNG st2))
    as [[] s3|ex s3|s3]; first [apply IH | done].
Qed.

End PositionalFacts.

(** What [sample_Init] makes of a light, given a tree that is ready. *)
Lemma sample_Init_light (id : string) (tree : TConfigurationNode) :
  ready id tree ->
  exists cPosition,
    sample_Init (mkEntity EmptyString "light" None ClassPositional origin true []) tree
    = inr (mkEntity id "light" None ClassPositional cPosition true []).
Proof.
  intros (Hid & b & p & o & Hb & Hp & Ho).
  unfold sample_Init, try_bind. rewrite Hid, Hb, Hp. by exists p.
Qed.

Lemma sample_light_loop (fuel : nat) :
  forall (tree : TConfigurationNode) (s : CSpace),
    Value tree = "light" -> GetNodeAttribute_string tree "id" = inr "light0" ->
    exists s',
      place unit lowest_Uniform mean_Gaussian "0x7ffc0d367dd0" sample_New sample_Init
            (fun _ _ => false) fuel 0 0 "light" tree 0 false
            (mkPlacement unit s tt (ConstantGenerator origin) (ConstantGenerator origin))
      = OutOfFuel (mkPlacement unit s' tt (ConstantGenerator origin) (ConstantGenerator origin))
      /\ m_vecEntities s' = m_vecEntities s ++ replicate fuel "light0".
Proof.
  induction fuel as [|fuel IH]; intros tree s Hty Hid.
  - exists s. cbn. by rewrite app_nil_r.
  - destruct (sample_Init_light "light0" (prepared tree origin origin)) as [cPosition Hi];
      [by apply prepared_ready|].
    erewrite place_positional_step; cycle 1.
    + by rewrite Hty.
    + reflexivity.
    + reflexivity.
    + exact Hi.
    + reflexivity.
    + reflexivity.
    + destruct (IH (prepared tree origin origin)
                   (register (mkEntity "light0" "light" None ClassPositional cPosition true []) s))
        as (s' & Hrun & Hv); [by rewrite prepared_Value|by rewrite prepared_string|].
      exists s'. split; [exact Hrun|].
      rewrite Hv. cbn. by rewrite <- app_assoc.
Qed.

(** C1, on one light (positional, not embodied) with constant generators:
    whatever the fuel, the loop for the first copy is still running when the
    fuel is spent, and has by then registered the identifier "light0" once per
    pass. The entity is not added exactly once, and the loop does not go on to
    the next copy. *)
Theorem Distribute_positional_loops (fuel : nat) :
  exists s,
    sample_Distribute false fuel (sample_directive constant_at_origin "light" 1 0 [])
    = OutOfFuel (s, tt)
    /\ m_vecEntities s = replicate fuel "light0".
Proof.
  destruct (sample_light_loop fuel
              (SetNodeAttribute (ConfigurationNode "light" [("id", AttrString "light")] [])
                                "id" (AttrString ("light" +:+ ToString (wrap64 (0 + 0)))))
              (empty_space [everywhere]) eq_refl eq_refl) as (s & Hrun & Hv).
  exists s. split; [|exact Hv].
  unfold sample_Distribute, Distribute, rethrow_nested, bind, lift_try.
  replace (read_directive sample_text (sample_directive constant_at_origin "light" 1 0 []))
    with (inr (A := CARGoSException)
              (mkDirective (ConstantGenerator origin) (ConstantGenerator origin) 1 0 0
                           (ConfigurationNode "light" [("id", AttrString "light")] []) "light"))
    by reflexivity.
  unfold with_generators.
  cbn [dir_position dir_orientation dir_itEntity dir_strBaseId dir_unMaxTrials dir_unBaseNum
       dir_unQuantity].
  change (Z.to_nat 1) with 1%nat. cbn [copies]. unfold bind at 1.
  rewrite Hrun. reflexivity.
Qed.

(** The amended C5 on five boxes, constant generators and no retry budget. *)
Lemma Distribute_first_trial_witness :
  exists s' r',
    sample_Distribute false 1 (sample_directive constant_at_origin "box" 5 0 [])
    = Returns tt (s', r')
    /\ m_vecEntities s' = [] ++ ["box0"; "box1"; "box2"; "box3"; "box4"]
    /\ (forall i : nat,
           (i < 5)%nat -> holds s' ("box" +:+ ToString ((Z.of_nat i + 0) mod 2 ^ 64))).
Proof.
  apply (Distribute_first_trial
           unit lowest_Uniform mean_Gaussian sample_text "0x7ffc0d367dd0"
           sample_New sample_Init (fun _ _ => false)
           (sample_directive constant_at_origin "box" 5 0 [])
           (mkDirective (ConstantGenerator origin) (ConstantGenerator origin) 5 0 0
                        (ConfigurationNode "box" [("id", AttrString "box")] []) "box")
           (mkEntity EmptyString "box" None ClassComposable origin true [])
           (empty_space [everywhere]) tt 1%nat).
  - reflexivity.
  - exact I.
  - exact I.
  - reflexivity.
  - intros i tree Hready _.
    destruct (sample_Init_box _ tree Hready) as (e & body & H1 & H2 & H3 & H4 & _).
    by exists e, body.
  - reflexivity.
  - lia.
Defined.

(** C5 as stated fails when [i + base_num] passes 2^64: with
    [base_num = 2^64 - 1] and two boxes, the call returns and the second copy
    is named "box0", not "box18446744073709551616". *)
Lemma Distribute_identifier_wraps :
  returned (sample_Distribute
              false 1
              (sample_directive constant_at_origin "box" 2 0
                                [("base_num", AttrUInt 18446744073709551615)])) = true
  /\ m_vecEntities
       (final_space
          (sample_Distribute
             false 1
             (sample_directive constant_at_origin "box" 2 0
                               [("base_num", AttrUInt 18446744073709551615)])))
     = ["box18446744073709551615"; "box0"]
  /\ "box" +:+ ToString (1 + 18446744073709551615) = "box18446744073709551616"
  /\ "box0" <> "box" +:+ ToString (1 + 18446744073709551615).
Proof.
  split; [vm_compute; reflexivity|]. split; [vm_compute; reflexivity|].
  split; [vm_compute; reflexivity|]. vm_compute. discriminate.
Qed.

(** ** One simulation step *)

Section UpdateFacts.

Variable Collaborators : Type.
Variable run : Phase -> M (CSpace * Collaborators) unit.

Lemma perform_trace (p : Phase) (st : Simulation Collaborators) :
  match perform Collaborators run p st with
  | Returns _ st' => sim_trace _ st' = sim_trace _ st ++ completed [p]
  | Throws _ st' | OutOfFuel st' => sim_trace _ st' = sim_trace _ st ++ [Begins p]
  end.
Proof using Type.
  unfold perform.
  destruct (effect Collaborators run p (sim_space _ st, sim_collaborators _ st))
    as [[] [s c]|ex [s c]|[s c]]; cbn; try done.
  by rewrite <- app_assoc.
Qed.

(** Running the calls [ps] in sequence: either all complete, in order, or the
    trace stops inside the first call that does not return. *)
Lemma sequence_trace (ps : list Phase) :
  forall st,
    match in_sequence Collaborators run ps st with
    | Returns _ st' => sim_trace _ st' = sim_trace _ st ++ completed ps
    | Throws _ st' | OutOfFuel st' =>
        exists before p after,
          ps = before ++ p :: after
          /\ sim_trace _ st' = sim_trace _ st ++ completed before ++ [Begins p]
    end.
Proof using Type.
  induction ps as [|p ps IH]; intros st; cbn [in_sequence].
  - cbn. by rewrite app_nil_r.
  - unfold bind at 1. pose proof (perform_trace p st) as Hp.
    destruct (perform Collaborators run p st) as [[] st1|ex st1|st1].
    + specialize (IH st1).
      destruct (in_sequence Collaborators run ps st1) as [[] st2|ex st2|st2].
      * rewrite IH, Hp, <- app_assoc. done.
      * destruct IH as (before & q & after & -> & Ht).
        exists (p :: before), q, after. split; [done|].
        rewrite Ht, Hp, <- !app_assoc. done.
      * destruct IH as (before & q & after & -> & Ht).
        exists (p :: before), q, after. split; [done|].
        rewrite Ht, Hp, <- !app_assoc. done.
    + exists [], p, ps. by rewrite Hp.
    + exists [], p, ps. by rewrite Hp.
Qed.

Lemma bind_ret_unit {S} (m : M S unit) (s : S) : bind m (fun _ => ret tt) s = m s.
Proof using Type. unfold bind, ret. by destruct (m s) as [[] s'|ex s'|s']. Qed.

Lemma Update_in_sequence (st : Simulation Collaborators) :
  Update Collaborators run st = in_sequence Collaborators run step_order st.
Proof using Type.
  unfold Update, step_order. cbn [in_sequence].
  repeat (unfold bind at 1; symmetry; unfold bind at 1; symmetry;
          destruct (perform Collaborators run _ _) as [[] ?|? ?|?]; [|done|done]).
  by rewrite bind_ret_unit.
Qed.


End UpdateFacts.

(** ** Reset *)

Lemma same_structure_refl s : same_structure s s.
Proof. by split. Qed.

Lemma same_structure_trans s1 s2 s3 :
  same_structure s1 s2 -> same_structure s2 s3 -> same_structure s1 s3.
Proof.
  intros [] []. split; first [congruence | intros p; etrans; eauto].
Qed.

Section ResetFacts.

Variable CEntity_Reset : CEntity -> Try CEntity.

Lemma reset_object_frame (p : string) (s : CSpace) :
  (forall e e', CEntity_Reset e = inr e' -> GetId e' = GetId e) ->
  match reset_object CEntity_Reset p s with
  | Returns _ s' | Throws _ s' =>
      same_structure s s' /\ m_unSimulationClock s' = m_unSimulationClock s
  | OutOfFuel _ => False
  end.
Proof using Type.
  intros Hid. unfold reset_object.
  destruct (objects s !! p) as [e|] eqn:Hp; [|split; [apply same_structure_refl|done]].
  destruct (CEntity_Reset e) as [ex|e'] eqn:Hr; [split; [apply same_structure_refl|done]|].
  split; [|done]. split; cbn; try done.
  intros q. destruct (decide (p = q)) as [<-|Hne].
  - rewrite lookup_insert_eq, Hp. cbn. f_equal. by apply Hid.
  - by rewrite lookup_insert_ne.
Qed.

Lemma reset_all_frame (ps : list string) :
  (forall e e', CEntity_Reset e = inr e' -> GetId e' = GetId e) ->
  forall s,
    match reset_all CEntity_Reset ps s with
    | Returns _ s' | Throws _ s' =>
        same_structure s s' /\ m_unSimulationClock s' = m_unSimulationClock s
    | OutOfFuel _ => False
    end.
Proof using Type.
  intros Hid. induction ps as [|p ps IH]; intros s.
  - split; [apply same_structure_refl|done].
  - cbn [reset_all]. unfold bind at 1.
    pose proof (reset_object_frame p s Hid) as Hp.
    destruct (reset_object CEntity_Reset p s) as [[] s1|ex s1|s1]; try done.
    destruct Hp as [Hs1 Hc1]. specialize (IH s1).
    destruct (reset_all CEntity_Reset ps s1) as [[] s2|ex s2|s2]; try done.
    all: destruct IH as [Hs2 Hc2]; split; [by apply same_structure_trans with s1|congruence].
Qed.

(** C9. Whatever the space, and whether or not the [Reset] of some entity
    throws, [Reset] leaves the clock at zero and the registry with the
    structure it had: the flat collection, the root and controllable
    collections, the type/ID index and the engines hold what they held, and
    every pointer leads to an object with the identifier it had, given that no
    entity changes its identifier when it is reset. *)
Theorem Reset_keeps_registry (s : CSpace) :
  (forall e e', CEntity_Reset e = inr e' -> GetId e' = GetId e) ->
  match Reset CEntity_Reset s with
  | Returns _ s' | Throws _ s' => m_unSimulationClock s' = 0 /\ same_structure s s'
  | OutOfFuel _ => False
  end.
Proof using Type.
  intros Hid. unfold Reset, bind, modify, get. cbn [m_vecEntities].
  match goal with
  | |- context [reset_all CEntity_Reset ?ps ?s0] =>
      pose proof (reset_all_frame ps Hid s0) as H;
      destruct (reset_all CEntity_Reset ps s0) as [[] s'|ex s'|s']
  end; try done.
  all: destruct H as [[] Hc]; split; [done|by split].
Qed.

End ResetFacts.

(** The theorem on a space holding one box away from the origin at tick 7. *)
Lemma Reset_keeps_registry_witness :
  let box := mkEntity "box0" "box" None ClassEmbodied (mkVector3 1 2 0) true [] in
  let s := register box (mkSpace 7 ∅ [] [] ∅ [] [everywhere]) in
  match Reset sample_Reset s with
  | Returns _ s' | Throws _ s' => m_unSimulationClock s' = 0 /\ same_structure s s'
  | OutOfFuel _ => False
  end.
Proof.
  intros box s. apply (Reset_keeps_registry sample_Reset s).
  intros e e' [= <-]. reflexivity.
Defined.

(** ** Tag payloads *)

Lemma payload_loop_lookup (rest : list string) :
  forall (i : nat) (instances : list SInstance) (j : nat),
    payload_loop i rest instances !! j
    = match rest !! (j - i)%nat with
      | Some str_payload =>
          if (i <=? j)%nat then Instance_SetPayload str_payload <$> instances !! j
          else instances !! j
      | None => instances !! j
      end.
Proof.
  induction rest as [|p rest IH]; intros i instances j; [done|].
  cbn [payload_loop]. rewrite IH.
  destruct (Nat.leb_spec i j) as [Hij|Hij].
  - destruct (decide (i = j)) as [<-|Hne].
    + rewrite Nat.sub_diag. replace (i - S i)%nat with 0%nat by lia.
      destruct (Nat.leb_spec (S i) i); [lia|].
      rewrite list_lookup_alter_eq.
      change ((p :: rest) !! 0%nat) with (Some p).
      by destruct (rest !! 0%nat).
    + replace (j - i)%nat with (S (j - S i)) by lia.
      change ((p :: rest) !! S (j - S i)) with (rest !! (j - S i)%nat).
      destruct (Nat.leb_spec (S i) j); [|lia].
      by rewrite list_lookup_alter_ne.
  - replace (j - i)%nat with 0%nat by lia. replace (j - S i)%nat with 0%nat by lia.
    change ((p :: rest) !! 0%nat) with (Some p).
    destruct (Nat.leb_spec (S i) j); [lia|].
    rewrite list_lookup_alter_ne by lia. by destruct (rest !! 0%nat).
Qed.

Lemma payload_loop_length (rest : list string) :
  forall (i : nat) (instances : list SInstance),
    length (payload_loop i rest instances) = length instances.
Proof.
  induction rest as [|p rest IH]; intros i instances; [done|].
  cbn [payload_loop]. by rewrite IH, length_alter.
Qed.

(** C10. [SetTagPayloads] with a vector as long as there are tags returns,
    and then tag [i] holds element [i] of the vector, for every [i], the rest
    of each instance being untouched; with a vector of any other size it
    throws and the entity is as it was. *)
Theorem SetTagPayloads_all_or_nothing (vec_payloads : list string) (e : CTagEquippedEntity) :
  (length vec_payloads = length (m_vecInstances e) ->
   exists e',
     SetTagPayloads vec_payloads e = Returns tt e'
     /\ GetContext e' = GetContext e
     /\ TagEquipped_GetId e' = TagEquipped_GetId e
     /\ length (m_vecInstances e') = length (m_vecInstances e)
     /\ (forall i, (GetPayload ∘ Tag) <$> m_vecInstances e' !! i = vec_payloads !! i)
     /\ (forall i, instance_frame <$> m_vecInstances e' !! i
                   = instance_frame <$> m_vecInstances e !! i))
  /\ (length vec_payloads <> length (m_vecInstances e) ->
      SetTagPayloads vec_payloads e = Throws (PayloadSizeError e vec_payloads) e).
Proof.
  unfold SetTagPayloads. split; intros Hlen.
  - rewrite Hlen, Nat.eqb_refl. eexists. split; [reflexivity|]. cbn.
    split; [done|]. split; [done|]. split; [apply payload_loop_length|].
    split; intros i; rewrite payload_loop_lookup, Nat.sub_0_r; cbn.
    + destruct (vec_payloads !! i) as [p|] eqn:Hp.
      * destruct (m_vecInstances e !! i) as [inst|] eqn:Hi; [done|].
        apply lookup_lt_Some in Hp. apply lookup_ge_None in Hi. lia.
      * destruct (m_vecInstances e !! i) as [inst|] eqn:Hi; [|done].
        apply lookup_lt_Some in Hi. apply lookup_ge_None in Hp. lia.
    + destruct (vec_payloads !! i) as [p|]; [|done].
      by destruct (m_vecInstances e !! i).
  - destruct (Nat.eqb_spec (length vec_payloads) (length (m_vecInstances e))); [done|].
    reflexivity.
Qed.

(** * Properties of the rest of the two files *)

(** ** Looking entities up *)

Section MatchingFacts.

Variable MatchPattern : string -> string -> bool.

Lemma matching_from_filter (s : CSpace) (str_pattern : string) (its : list string) :
  forall t_buffer,
    matching_from MatchPattern s str_pattern its t_buffer
    = t_buffer ++ List.filter (matches MatchPattern s str_pattern) its.
Proof.
  induction its as [|it rest IH]; intros t_buffer; cbn.
  - by rewrite app_nil_r.
  - rewrite IH. destruct (matches MatchPattern s str_pattern it); [|done].
    by rewrite <- app_assoc.
Qed.

(** X1. [GetEntitiesMatching] keeps what the buffer held and appends to it the
    pointers of the flat collection whose entity has a matching identifier, in
    the order of the collection. It does not clear the buffer: a second call
    with the same buffer appends the matches once more. *)
Theorem GetEntitiesMatching_appends (t_buffer : list string) (str_pattern : string)
        (s : CSpace) :
  let found := List.filter (matches MatchPattern s str_pattern) (m_vecEntities s) in
  GetEntitiesMatching MatchPattern t_buffer str_pattern s = t_buffer ++ found
  /\ GetEntitiesMatching MatchPattern
       (GetEntitiesMatching MatchPattern t_buffer str_pattern s) str_pattern s
     = t_buffer ++ found ++ found
  /\ (forall p, p ∈ GetEntitiesMatching MatchPattern [] str_pattern s
                <-> p ∈ m_vecEntities s
                    /\ exists e, objects s !! p = Some e
                                 /\ MatchPattern (GetId e) str_pattern = true).
Proof.
  intros found. unfold GetEntitiesMatching. rewrite !matching_from_filter.
  split; [done|]. split; [by rewrite <- app_assoc|].
  intros p. cbn [app]. rewrite list_elem_of_In, filter_In, <- list_elem_of_In.
  unfold matches. split.
  - intros [Hin Hm]. split; [done|].
    destruct (objects s !! p) as [e|]; [by exists e|done].
  - intros [Hin (e & -> & Hm)]. done.
Qed.

End MatchingFacts.

(** X2. [GetEntitiesByType] after the registry operation has added [e]: the
    sub-mapping of the type of [e] is found and leads from the identifier of
    [e] to [e]; the answer for any other type is what it was. Whenever
    [GetEntitiesByType] answers, its mapping holds the entries of the
    type/ID index for that type; when it fails the index has no entry of that
    type. *)
Theorem GetEntitiesByType_after_add (e : CEntity) (s : CSpace) :
  (exists m, GetEntitiesByType (GetTypeDescription e) (register e s) = inr m
             /\ m !! GetId e = Some (GetId e))
  /\ (forall ty, ty <> GetTypeDescription e ->
                 GetEntitiesByType ty (register e s) = GetEntitiesByType ty s)
  /\ (forall ty,
         match GetEntitiesByType ty s with
         | inr m => forall id, m !! id = entry s ty id
         | inl ex => ex = TypeNotFoundError ty /\ forall id, entry s ty id = None
         end).
Proof.
  split; [|split].
  - unfold GetEntitiesByType, register. cbn. rewrite lookup_insert_eq.
    eexists. split; [reflexivity|]. by rewrite lookup_insert_eq.
  - intros ty Hne. unfold GetEntitiesByType, register. cbn.
    by rewrite lookup_insert_ne.
  - intros ty. unfold GetEntitiesByType, entry.
    by destruct (m_mapEntitiesPerTypePerId s !! ty).
Qed.

(** ** The controllable collection *)

Lemma erase_first (p : string) (before after : list string) :
  p ∉ before -> erase p (before ++ p :: after) = before ++ after.
Proof.
  induction before as [|q before IH]; intros Hp; cbn.
  - by rewrite String.eqb_refl.
  - apply not_elem_of_cons in Hp as [Hne Hp].
    destruct (String.eqb_spec q p); [congruence|]. by rewrite IH.
Qed.

Lemma set_controllables_same (s : CSpace) :
  set_controllables (m_vecControllableEntities s) s = s.
Proof. by destruct s. Qed.

(** X3. Removing a controllable entity that was just added, and was not in the
    collection before, gives back the space as it was. *)
Theorem RemoveControllableEntity_after_add (c_entity : string) (s : CSpace) :
  c_entity ∉ m_vecControllableEntities s ->
  bind (AddControllableEntity c_entity) (fun _ => RemoveControllableEntity c_entity) s
  = Returns tt s.
Proof.
  intros Hp. unfold bind, AddControllableEntity, RemoveControllableEntity, modify.
  f_equal. unfold set_controllables at 1. cbn.
  rewrite erase_snoc by done. by destruct s.
Qed.

Lemma RemoveControllableEntity_after_add_witness :
  ("fb1" ∉ m_vecControllableEntities (set_controllables ["fb0"] (empty_space [])))
  /\ bind (AddControllableEntity "fb1") (fun _ => RemoveControllableEntity "fb1")
          (set_controllables ["fb0"] (empty_space []))
     = Returns tt (set_controllables ["fb0"] (empty_space [])).
Proof.
  assert (H : "fb1" ∉ m_vecControllableEntities (set_controllables ["fb0"] (empty_space []))).
  { cbn. intros Hin. apply list_elem_of_singleton in Hin. discriminate. }
  split; [exact H|].
  exact (RemoveControllableEntity_after_add "fb1" (set_controllables ["fb0"] (empty_space [])) H).
Defined.

(** X4. [RemoveControllableEntity] never fails. It takes out the first pointer to
    the entity and nothing else: a pointer held twice is still held once, the
    other pointers keep their order, and the rest of the space is untouched.
    When the entity is not in the collection nothing changes. *)
Theorem RemoveControllableEntity_first_occurrence (c_entity : string) (s : CSpace) :
  (c_entity ∉ m_vecControllableEntities s ->
   RemoveControllableEntity c_entity s = Returns tt s)
  /\ (forall before after,
         m_vecControllableEntities s = before ++ c_entity :: after ->
         c_entity ∉ before ->
         RemoveControllableEntity c_entity s
         = Returns tt (set_controllables (before ++ after) s)).
Proof.
  unfold RemoveControllableEntity, modify. split.
  - intros Hp. rewrite erase_notin by done. by rewrite set_controllables_same.
  - intros before after -> Hp. by rewrite erase_first.
Qed.

(** ** Tear-down *)

Lemma snoc_cases {A} (l : list A) : l = [] \/ exists l0 x, l = l0 ++ [x].
Proof.
  induction l as [|x l0 _] using rev_ind; [by left|right; by exists l0, x].
Qed.

Section DestroyFacts.

Variable RemoveEntity : string -> M CSpace unit.

(** X5. Whatever the removal operation does, [Destroy] does not return while a
    root entity is left: when it returns, the root collection is empty. *)
Theorem Destroy_leaves_no_root (fuel : nat) (s s' : CSpace) :
  Destroy RemoveEntity fuel s = Returns tt s' -> m_vecRootEntities s' = [].
Proof.
  revert s s'. induction fuel as [|fuel IH]; intros s s'; cbn [Destroy].
  - destruct (last (m_vecRootEntities s)) eqn:E; [done|].
    intros [= <-]. by apply last_None.
  - destruct (last (m_vecRootEntities s)) as [back|] eqn:E.
    + unfold bind. destruct (RemoveEntity back s) as [[] s1|ex s1|s1]; try done.
      apply IH.
    + intros [= <-]. by apply last_None.
Qed.

(** X6. If every removal that returns has taken the pointer it was given out of
    the root collection, and no root is held twice, then [Destroy] is the
    removal of the roots one by one, the last of the collection first; one
    unit of fuel per root is enough, and an exception of a removal ends
    [Destroy] with the roots before it still registered. *)
Theorem Destroy_removes_last_first (fuel : nat) (s : CSpace) :
  (forall p s1 s2,
      RemoveEntity p s1 = Returns tt s2 ->
      m_vecRootEntities s2 = erase p (m_vecRootEntities s1)) ->
  NoDup (m_vecRootEntities s) ->
  (length (m_vecRootEntities s) <= fuel)%nat ->
  Destroy RemoveEntity fuel s
  = remove_each RemoveEntity (reverse (m_vecRootEntities s)) s.
Proof.
  intros Hrm. revert s.
  induction fuel as [|fuel IH]; intros s Hnd Hlen.
  - destruct (m_vecRootEntities s) as [|p l] eqn:E; [|cbn in Hlen; lia].
    cbn [Destroy]. by rewrite E.
  - cbn [Destroy].
    destruct (snoc_cases (m_vecRootEntities s)) as [E|(l0 & x & E)]; rewrite E; [done|].
    rewrite E in Hnd, Hlen. rewrite last_snoc, reverse_snoc. cbn [remove_each].
    unfold bind. destruct (RemoveEntity x s) as [[] s1|ex s1|s1] eqn:Hx; try done.
    pose proof (Hrm _ _ _ Hx) as Hroots. rewrite E in Hroots.
    apply NoDup_app in Hnd as (Hl0 & Hx0 & _).
    assert (Hni : x ∉ l0).
    { intros Hin. apply (Hx0 x Hin). by left. }
    rewrite erase_snoc in Hroots by done.
    rewrite <- Hroots. apply IH.
    + by rewrite Hroots.
    + rewrite Hroots. rewrite length_app in Hlen. cbn in Hlen. lia.
Qed.

End DestroyFacts.

Lemma remove_root_erases (p : string) (s1 s2 : CSpace) :
  remove_root p s1 = Returns tt s2 ->
  m_vecRootEntities s2 = erase p (m_vecRootEntities s1).
Proof. by intros [= <-]. Qed.

(** Two roots, "fb0" registered before "fb1". *)
Lemma Destroy_leaves_no_root_witness :
  let s := set_roots ["fb0"; "fb1"] (empty_space []) in
  exists s',
    Destroy remove_root 2 s = Returns tt s' /\ m_vecRootEntities s' = [].
Proof.
  intros s. eexists. split; [reflexivity|].
  apply (Destroy_leaves_no_root remove_root 2 s). reflexivity.
Defined.

Lemma Destroy_removes_last_first_witness :
  let s := set_roots ["fb0"; "fb1"] (empty_space []) in
  Destroy remove_root 2 s = remove_each remove_root (reverse (m_vecRootEntities s)) s.
Proof.
  intros s.
  apply (Destroy_removes_last_first remove_root 2 s).
  - exact remove_root_erases.
  - cbn. apply NoDup_cons. split; [|apply NoDup_singleton].
    intros Hin. apply list_elem_of_singleton in Hin. discriminate.
  - cbn. lia.
Defined.

(** ** Scene construction *)

Lemma bind_ext {S A B} (m : M S A) (k k' : A -> M S B) (s : S) :
  (forall a s', k a s' = k' a s') -> bind m k s = bind m k' s.
Proof. intros H. unfold bind. by destruct (m s). Qed.

Section InitFacts.

Variable RNG : Type.
Variable Uniform : RNG -> Real -> Real -> Real * RNG.
Variable Gaussian : RNG -> Real -> Real -> Real * RNG.
Variable CVector3_text : CVector3 -> string.
Variable stream_address : string.
Variable CFactory_New : string -> Try CEntity.
Variable Init : CEntity -> TConfigurationNode -> Try CEntity.
Variable IsCollidingWithSomething : CSpace -> CEntity -> bool.
Variable AddEntity : CEntity -> M CSpace unit.
Variable GetPhysicsEngines : list CPhysicsEngine.

Abbreviation manual_items_ := (manual_items RNG CFactory_New Init AddEntity).
Abbreviation distribute_items_ :=
  (distribute_items RNG Uniform Gaussian CVector3_text stream_address CFactory_New Init
                    IsCollidingWithSomething).
Abbreviation Space_Init_ :=
  (Space_Init RNG Uniform Gaussian CVector3_text stream_address CFactory_New Init
              IsCollidingWithSomething AddEntity GetPhysicsEngines).

(** The first loop passes over the directives, the second over the rest. *)
Lemma manual_items_filter (items : list TConfigurationNode) (st : Scene RNG) :
  manual_items_ items st = manual_items_ (List.filter placed_manually items) st.
Proof.
  revert st. induction items as [|item items IH]; intros st; [done|].
  cbn [manual_items List.filter]. unfold placed_manually at 1.
  destruct (negb (Value item =? "distribute")%string) eqn:E.
  - cbn [manual_items]. rewrite E. apply bind_ext. intros _ st1. apply IH.
  - unfold bind at 1. cbn. apply IH.
Qed.

Lemma distribute_items_filter (fuel : nat) (items : list TConfigurationNode) (st : Scene RNG) :
  distribute_items_ fuel items st = distribute_items_ fuel (List.filter distributed items) st.
Proof.
  revert st. induction items as [|item items IH]; intros st; [done|].
  cbn [distribute_items List.filter]. unfold distributed at 1.
  destruct (Value item =? "distribute")%string eqn:E.
  - cbn [distribute_items]. rewrite E. apply bind_ext. intros _ st1. apply IH.
  - unfold bind at 1. cbn. apply IH.
Qed.


(** Neither loop touches the two arena members. *)
Lemma manual_items_arena (items : list TConfigurationNode) (st : Scene RNG) :
  match manual_items_ items st with
  | Returns _ st' | Throws _ st' | OutOfFuel st' =>
      m_cArenaCenter RNG st' = m_cArenaCenter RNG st
      /\ m_cArenaSize RNG st' = m_cArenaSize RNG st
  end.
Proof.
  revert st. induction items as [|item items IH]; intros st; [done|].
  cbn [manual_items]. unfold bind at 1.
  assert (H1 : match (if negb (Value item =? "distribute")%string
                      then bind (lift_try (CFactory_New (Value item)))
                             (fun pcEntity =>
                                bind (lift_try (Init pcEntity item))
                                     (fun pcEntity0 => on_space RNG (AddEntity pcEntity0)))
                      else ret tt) st with
               | Returns _ st' | Throws _ st' | OutOfFuel st' =>
                   m_cArenaCenter RNG st' = m_cArenaCenter RNG st
                   /\ m_cArenaSize RNG st' = m_cArenaSize RNG st
               end).
  { destruct (negb _); [|done]. unfold bind, lift_try, on_space.
    destruct (CFactory_New _) as [ex|blank]; [done|].
    destruct (Init _ _) as [ex|e]; [done|].
    by destruct (AddEntity e _). }
  destruct (_ st) as [[] st1|ex st1|st1]; try done.
  destruct H1 as [<- <-]. apply IH.
Qed.

Lemma distribute_items_arena (fuel : nat) (items : list TConfigurationNode) (st : Scene RNG) :
  match distribute_items_ fuel items st with
  | Returns _ st' | Throws _ st' | OutOfFuel st' =>
      m_cArenaCenter RNG st' = m_cArenaCenter RNG st
      /\ m_cArenaSize RNG st' = m_cArenaSize RNG st
  end.
Proof.
  revert st. induction items as [|item items IH]; intros st; [done|].
  cbn [distribute_items]. unfold bind at 1.
  destruct (Value item =? "distribute")%string.
  - unfold on_space_and_rng.
    destruct (Distribute _ _ _ _ _ _ _ _ _ _ _) as [[] [s1 r1]|ex [s1 r1]|[s1 r1]]; try done.
    apply (IH (mkScene RNG s1 r1 (m_cArenaCenter RNG st) (m_cArenaSize RNG st))).
  - apply IH.
Qed.

(** X8. The arena members after [Init]. When [Init] returns, the size is the
    "size" attribute of the arena node, and the centre is its "center"
    attribute, or the centre the space had when the node carries none. When
    the "size" attribute cannot be read, [Init] throws before any entity is
    created: the space is the one it was given, pointing to the simulator's
    engines, and no random number has been drawn. *)
Theorem Space_Init_arena (fuel : nat) (t_tree : TConfigurationNode) (st : Scene RNG) :
  (forall st',
      Space_Init_ fuel t_tree st = Returns tt st' ->
      GetNodeAttribute_vector t_tree "size" = inr (m_cArenaSize RNG st')
      /\ GetNodeAttributeOrDefault_vector t_tree "center" (m_cArenaCenter RNG st)
         = inr (m_cArenaCenter RNG st'))
  /\ (forall ex,
         GetNodeAttribute_vector t_tree "size" = inl ex ->
         exists ex' st',
           Space_Init_ fuel t_tree st = Throws ex' st'
           /\ scene_space RNG st' = set_engines GetPhysicsEngines (scene_space RNG st)
           /\ scene_rng RNG st' = scene_rng RNG st
           /\ m_cArenaSize RNG st' = m_cArenaSize RNG st).
Proof using Type.
  unfold Space_Init, bind, modify, get, lift_try.
  cbn [m_cArenaCenter m_cArenaSize scene_space scene_rng].
  destruct (GetNodeAttributeOrDefault_vector t_tree "center" (m_cArenaCenter RNG st))
    as [exc|cCenter].
  - split; [done|]. intros ex _. by eexists _, _.
  - destruct (GetNodeAttribute_vector t_tree "size") as [exs|cSize].
    + split; [done|]. intros ex _. by eexists _, _.
    + split; [|done]. intros st'.
      match goal with
      | |- context [manual_items_ ?items ?st0] =>
          pose proof (manual_items_arena items st0) as Hm;
          destruct (manual_items_ items st0) as [[] st1|ex st1|st1]; try done
      end.
      pose proof (distribute_items_arena fuel (children t_tree) st1) as Hd.
      destruct (distribute_items_ fuel (children t_tree) st1) as [[] st2|ex st2|st2]; try done.
      intros [= <-]. destruct Hm as [Hm1 Hm2], Hd as [Hd1 Hd2]. cbn in Hm1, Hm2.
      split; congruence.
Qed.

End InitFacts.


(** ** The binder, whatever the entity *)

Lemma existsb_filter_length {A} (f : A -> bool) (l : list A) :
  existsb f l = true <-> (1 <= length (List.filter f l))%nat.
Proof.
  induction l as [|x l IH]; cbn; [split; [done|lia]|].
  destruct (f x); cbn; [split; [lia|done]|apply IH].
Qed.

Section BinderOutcome.

Variable stream_address : string.

(** X9. [AddEntityToPhysicsEngine] returns exactly when the engines can take the
    entity: some domain holds its position, and only one does when it is
    movable. It has then added the root of the entity to every engine whose
    domain holds the position, and changed nothing else. Otherwise it throws
    and leaves the space as it was. *)
Theorem AddEntityToPhysicsEngine_all_or_nothing (c_entity : CEntity) (s : CSpace) :
  match AddEntityToPhysicsEngine stream_address c_entity s with
  | Returns _ s' =>
      housable (m_ptPhysicsEngines s) c_entity
      /\ s' = set_engines (added_to_housing c_entity (m_ptPhysicsEngines s)) s
  | Throws _ s' => ~ housable (m_ptPhysicsEngines s) c_entity /\ s' = s
  | OutOfFuel _ => False
  end.
Proof.
  unfold housable. destruct (IsMovable c_entity) eqn:Hmov.
  - rewrite AddEntityToPhysicsEngine_movable by done.
    destruct (length (List.filter (houses c_entity) (m_ptPhysicsEngines s)))
      as [|[|n]]; split; done.
  - rewrite AddEntityToPhysicsEngine_not_movable by done.
    pose proof (existsb_filter_length (houses c_entity) (m_ptPhysicsEngines s)) as H.
    destruct (existsb (houses c_entity) (m_ptPhysicsEngines s)).
    + split; [|done]. by apply H.
    + split; [|done]. intros Hl. by apply H in Hl.
Qed.

End BinderOutcome.

(** ** Finding the body and the position of an entity *)

Lemma topmost_set_parent (e c : CEntity) : topmost (set_parent e c) = topmost e.
Proof. done. Qed.

(** X10. What [GetEmbodiedEntity] answers. An entity it hands out is embodied and
    has the same root as the entity asked about: it is the entity itself, or
    the component "body" of a composable entity that is not itself embodied.
    It answers [NULL] only for an entity that is neither embodied nor a
    composable entity with a component "body", and it throws only for a
    composable entity whose component "body" is not embodied. *)
Theorem GetEmbodiedEntity_answer (pc_entity : CEntity) :
  match GetEmbodiedEntity pc_entity with
  | inr (Some body) =>
      is_embodied body = true
      /\ topmost body = topmost pc_entity
      /\ (body = pc_entity
          \/ (is_embodied pc_entity = false
              /\ exists c, find_component pc_entity "body" = Some c
                           /\ body = set_parent pc_entity c))
  | inr None =>
      is_embodied pc_entity = false
      /\ (is_composable pc_entity = false \/ find_component pc_entity "body" = None)
  | inl ex =>
      is_composable pc_entity = true
      /\ ex = ComponentTypeError "body" (GetId pc_entity)
      /\ exists c, find_component pc_entity "body" = Some c /\ is_embodied c = false
  end.
Proof.
  unfold GetEmbodiedEntity, HasComponent, GetComponent, try_bind.
  destruct (is_embodied pc_entity) eqn:He; [by auto|].
  destruct (is_composable pc_entity) eqn:Hc; cbn [andb]; [|by auto].
  destruct (find_component pc_entity "body") as [c|] eqn:Hf; [|by auto].
  destruct (is_embodied c) eqn:Hb.
  - split; [done|]. split; [done|]. right. split; [done|]. by exists c.
  - split; [done|]. split; [done|]. by exists c.
Qed.

(** X11. What [GetPositionalEntity] answers, in the same way. Since an embodied
    entity is positional, it answers an embodied entity with the entity
    itself, which is what [GetEmbodiedEntity] answers for it. *)
Theorem GetPositionalEntity_answer (pc_entity : CEntity) :
  match GetPositionalEntity pc_entity with
  | inr (Some positional) =>
      is_positional positional = true
      /\ topmost positional = topmost pc_entity
      /\ (positional = pc_entity
          \/ (is_positional pc_entity = false
              /\ exists c, find_component pc_entity "position" = Some c
                           /\ positional = set_parent pc_entity c))
  | inr None =>
      is_positional pc_entity = false
      /\ (is_composable pc_entity = false \/ find_component pc_entity "position" = None)
  | inl ex =>
      is_composable pc_entity = true
      /\ ex = ComponentTypeError "position" (GetId pc_entity)
      /\ exists c, find_component pc_entity "position" = Some c /\ is_positional c = false
  end
  /\ (is_embodied pc_entity = true ->
      GetPositionalEntity pc_entity = inr (Some pc_entity)
      /\ GetEmbodiedEntity pc_entity = inr (Some pc_entity)).
Proof.
  split.
  - unfold GetPositionalEntity, HasComponent, GetComponent, try_bind.
    destruct (is_positional pc_entity) eqn:He; [by auto|].
    destruct (is_composable pc_entity) eqn:Hc; cbn [andb]; [|by auto].
    destruct (find_component pc_entity "position") as [c|] eqn:Hf; [|by auto].
    destruct (is_positional c) eqn:Hb.
    + split; [done|]. split; [done|]. right. split; [done|]. by exists c.
    + split; [done|]. split; [done|]. by exists c.
  - unfold GetPositionalEntity, GetEmbodiedEntity, is_positional, is_embodied.
    by destruct (GetClass pc_entity).
Qed.

(** ** The generators, retries and degenerate ranges *)

Lemma float_ltb_irrefl (x : float) : (x <? x)%float = false.
Proof.
  rewrite FloatAxioms.ltb_spec. unfold SFltb.
  destruct (SFcompare (Prim2SF x) (Prim2SF x)) as [c|] eqn:E; [|done].
  destruct (SFcompare_refl_not_nan _ _ _ E) as [E' _].
  rewrite E' in E. by injection E as <-.
Qed.

Section GeneratorFacts.

Variable RNG : Type.
Variable Uniform : RNG -> Real -> Real -> Real * RNG.
Variable Gaussian : RNG -> Real -> Real -> Real * RNG.

(** X12. The retry flag matters to the grid generator only: a constant, uniform or
    gaussian generator answers a retry as it answers a first call, it never
    throws, and the generator object is the same after the call. The constant
    generator draws no random number. *)
Theorem call_ignores_retry (g : RealNumberGenerator) (rng : RNG) :
  steady g ->
  call RNG Uniform Gaussian true (g, rng) = call RNG Uniform Gaussian false (g, rng)
  /\ (exists v rng', call RNG Uniform Gaussian false (g, rng) = Returns v (g, rng'))
  /\ (forall v, g = ConstantGenerator v ->
                call RNG Uniform Gaussian false (g, rng) = Returns v (g, rng)).
Proof.
  intros Hs. destruct g as [v|cMin cMax|cMean cStdDev|c l d n]; [| | |done].
  - split; [done|]. split; [by eexists _, _|]. by intros ? [= <-].
  - split; [done|]. split; [|done]. cbn.
    destruct (Uniform_call _ _ _ _ _ _) as [v rng']. by eexists _, _.
  - split; [done|]. split; [|done]. cbn.
    destruct (Gaussian_call _ _ _ _ _ _) as [v rng']. by eexists _, _.
Qed.

(** X13. The uniform generator draws a random number only on an axis where
    [max > min]. With [min = max] it answers that point and leaves the RNG as
    it was. In a planar range (a proper range on X and on Y, one value on Z)
    it draws twice, for X and then for Y, and answers the Z of [max]. *)
Theorem UniformGenerator_draws_on_proper_axes (b_is_retry : bool) (rng : RNG) :
  (forall c,
      call RNG Uniform Gaussian b_is_retry (UniformGenerator c c, rng)
      = Returns c (UniformGenerator c c, rng))
  /\ (forall cMin cMax,
         (GetX cMin <? GetX cMax)%float = true ->
         (GetY cMin <? GetY cMax)%float = true ->
         GetZ cMin = GetZ cMax ->
         call RNG Uniform Gaussian b_is_retry (UniformGenerator cMin cMax, rng)
         = let '(fRandX, rng1) := Uniform rng (GetX cMin) (GetX cMax) in
           let '(fRandY, rng2) := Uniform rng1 (GetY cMin) (GetY cMax) in
           Returns (mkVector3 fRandX fRandY (GetZ cMax)) (UniformGenerator cMin cMax, rng2)).
Proof.
  split.
  - intros [x y z]. cbn. unfold Uniform_call, Uniform_axis. cbn.
    by rewrite !float_ltb_irrefl.
  - intros cMin cMax Hx Hy Hz. cbn. unfold Uniform_call, Uniform_axis.
    rewrite Hx, Hy, Hz, float_ltb_irrefl.
    destruct (Uniform rng _ _) as [fRandX rng1].
    by destruct (Uniform rng1 _ _) as [fRandY rng2].
Qed.

End GeneratorFacts.

Lemma call_ignores_retry_witness :
  let g := GaussianGenerator (mkVector3 0 0 0) (mkVector3 1 1 1) in
  steady g
  /\ call unit lowest_Uniform mean_Gaussian true (g, tt)
     = call unit lowest_Uniform mean_Gaussian false (g, tt)
  /\ (exists v rng', call unit lowest_Uniform mean_Gaussian false (g, tt) = Returns v (g, rng'))
  /\ (forall v, g = ConstantGenerator v ->
                call unit lowest_Uniform mean_Gaussian false (g, tt) = Returns v (g, tt)).
Proof.
  intros g. split; [exact I|].
  exact (call_ignores_retry unit lowest_Uniform mean_Gaussian g tt I).
Defined.

(** ** [CreateGenerator], by method *)

Ltac known_method := intros ? [= <-] H; exfalso; apply H; repeat constructor.

Section CreateGeneratorFacts.

Variable CVector3_text : CVector3 -> string.


End CreateGeneratorFacts.

(** ** [Distribute]: directives that place nothing, and errors *)

Section DistributeEdges.

Variable RNG : Type.
Variable Uniform : RNG -> Real -> Real -> Real * RNG.
Variable Gaussian : RNG -> Real -> Real -> Real * RNG.
Variable CVector3_text : CVector3 -> string.
Variable stream_address : string.
Variable CFactory_New : string -> Try CEntity.
Variable Init : CEntity -> TConfigurationNode -> Try CEntity.
Variable IsCollidingWithSomething : CSpace -> CEntity -> bool.

Abbreviation place3_ :=
  (place RNG Uniform Gaussian stream_address CFactory_New Init IsCollidingWithSomething).
Abbreviation Distribute3_ :=
  (Distribute RNG Uniform Gaussian CVector3_text stream_address CFactory_New Init
              IsCollidingWithSomething).

(** X15. A directive with [quantity = 0] that can be read places nothing: the
    space and the RNG are what they were, whatever the fuel. *)
Theorem Distribute_quantity_zero (t_tree : TConfigurationNode) (d : Directive)
        (s : CSpace) (r : RNG) (fuel : nat) :
  read_directive CVector3_text t_tree = inr d ->
  dir_unQuantity d = 0 ->
  Distribute3_ fuel t_tree (s, r) = Returns tt (s, r).
Proof using Type.
  intros Hread Hq. unfold Distribute, rethrow_nested, bind, lift_try.
  rewrite Hread. unfold with_generators. by rewrite Hq.
Qed.

(** X16. Every exception that leaves [Distribute] is the nested exception of the
    [catch] clause. When the head of the directive cannot be read (a node or
    an attribute is missing, a generator is refused, no entity is given),
    [Distribute] throws that error, nested, and has changed neither the space
    nor the RNG. *)
Theorem Distribute_wraps_errors (t_tree : TConfigurationNode) (s : CSpace) (r : RNG)
        (fuel : nat) :
  (forall ex st',
      Distribute3_ fuel t_tree (s, r) = Throws ex st' ->
      exists inner, ex = DistributeError inner)
  /\ (forall ex,
         read_directive CVector3_text t_tree = inl ex ->
         Distribute3_ fuel t_tree (s, r) = Throws (DistributeError ex) (s, r))
  /\ (forall cEntityNode cPositionNode cOrientationNode,
         GetNode t_tree "position" = inr cPositionNode ->
         GetNode t_tree "orientation" = inr cOrientationNode ->
         GetNode t_tree "entity" = inr cEntityNode ->
         children cEntityNode = [] ->
         exists ex, Distribute3_ fuel t_tree (s, r) = Throws (DistributeError ex) (s, r)).
Proof using Type.
  split; [|split].
  - intros ex st'. unfold Distribute, rethrow_nested.
    destruct (bind _ _ (s, r)) as [[] st1|ex1 st1|st1]; try done.
    intros [= <- <-]. by exists ex1.
  - intros ex Hread. unfold Distribute, rethrow_nested, bind, lift_try. by rewrite Hread.
  - intros cEntityNode cPositionNode cOrientationNode Hp Ho He Hc.
    assert (Hread : exists ex, read_directive CVector3_text t_tree = inl ex).
    { unfold read_directive, try_bind. rewrite Hp, Ho, He, Hc.
      destruct (CreateGenerator CVector3_text cPositionNode); [by eexists|].
      destruct (CreateGenerator CVector3_text cOrientationNode); [by eexists|].
      destruct (GetNodeAttribute_UInt32 cEntityNode "quantity"); [by eexists|].
      destruct (GetNodeAttribute_UInt32 cEntityNode "max_trials"); [by eexists|].
      destruct (GetNodeAttributeOrDefault_UInt64 cEntityNode "base_num" 0); by eexists. }
    destruct Hread as [ex Hread]. exists ex.
    unfold Distribute, rethrow_nested, bind, lift_try. by rewrite Hread.
Qed.

(** X17. An entity that is neither embodied nor positional, and has no such
    component, cannot be distributed: the first pass of the loop throws, the
    entity it built is not registered, and the space is exactly what it
    was. *)
Theorem Distribute_neither_positional_nor_embodied (t_tree : TConfigurationNode)
        (d : Directive) (blank : CEntity) (s0 : CSpace) (r0 : RNG) (fuel : nat) :
  read_directive CVector3_text t_tree = inr d ->
  0 < dir_unQuantity d ->
  has_cells 1 (dir_position d) ->
  has_cells 1 (dir_orientation d) ->
  CFactory_New (Value (dir_itEntity d)) = inr blank ->
  (forall tree,
      ready (copy_id (dir_strBaseId d) (dir_unBaseNum d) 0) tree ->
      Value tree = Value (dir_itEntity d) ->
      exists e,
        Init blank tree = inr e
        /\ GetEmbodiedEntity e = inr None /\ GetPositionalEntity e = inr None) ->
  (1 <= fuel)%nat ->
  exists r',
    Distribute3_ fuel t_tree (s0, r0)
    = Throws (DistributeError (CannotDistributeError (Value (dir_itEntity d)))) (s0, r').
Proof using Type.
  intros Hread Hq Hp Ho Hnew Hinit Hfuel.
  unfold Distribute, rethrow_nested, bind at 1, lift_try at 1. rewrite Hread.
  unfold with_generators.
  destruct (Z.to_nat (dir_unQuantity d)) as [|remaining] eqn:En; [lia|].
  destruct fuel as [|fuel]; [lia|].
  cbn [copies]. unfold bind at 1.
  set (tree := SetNodeAttribute (dir_itEntity d) "id"
                 (AttrString (dir_strBaseId d +:+ ToString (wrap64 (0 + dir_unBaseNum d))))).
  set (st := mkPlacement RNG s0 r0 (dir_position d) (dir_orientation d)).
  destruct (draw_pair RNG Uniform Gaussian false 1 st ltac:(done) Hp Ho ltac:(lia))
    as (cPos & st1 & cOri & st2 & Hpos & Hori & Hsp & _).
  destruct (Hinit (prepared tree cPos cOri)) as (e & Hi & He & Hposl).
  { apply prepared_ready. apply copy_tree_id. }
  { by rewrite prepared_Value. }
  exists (rng RNG st2).
  cbn [place]. unfold bind at 1. unfold lift_try at 1.
  change (Value tree) with (Value (dir_itEntity d)). rewrite Hnew.
  unfold bind at 1. rewrite Hpos.
  unfold bind at 1. rewrite Hori.
  fold (prepared tree cPos cOri).
  unfold bind at 1. unfold lift_try at 1. rewrite Hi.
  unfold bind at 1. unfold lift_try at 1. rewrite He.
  unfold bind at 1. unfold lift_try at 1. rewrite Hposl.
  unfold throw. rewrite prepared_Value. cbn in Hsp. by rewrite Hsp.
Qed.

(** X18. A grid generator refuses every retry. With positions drawn from a grid
    and a budget of at least one retry, a first placement that collides ends
    [Distribute]: the retry throws the error of the grid (which names the
    count of draws made, 1), not the max-trials error, and the colliding
    entity has been removed. *)
Theorem Distribute_grid_collision (t_tree : TConfigurationNode) (d : Directive)
        (c dd : CVector3) (l : Z * Z * Z)
        (blank : CEntity) (s0 : CSpace) (r0 : RNG) (fuel : nat) :
  read_directive CVector3_text t_tree = inr d ->
  dir_position d = GridGenerator c l dd 0 ->
  0 < Grid_cells l ->
  has_cells 1 (dir_orientation d) ->
  0 < dir_unQuantity d ->
  1 <= dir_unMaxTrials d ->
  CFactory_New (Value (dir_itEntity d)) = inr blank ->
  (forall tree,
      ready (copy_id (dir_strBaseId d) (dir_unBaseNum d) 0) tree ->
      Value tree = Value (dir_itEntity d) ->
      exists e body,
        Init blank tree = inr e
        /\ GetEmbodiedEntity e = inr (Some body)
        /\ housable (m_ptPhysicsEngines s0) body
        /\ FreshTree s0 e
        /\ (forall eng, eng ∈ m_ptPhysicsEngines s0 ->
                        GetId (topmost body) ∉ Engine_entities eng)) ->
  (forall s body, IsCollidingWithSomething s body = true) ->
  (2 <= fuel)%nat ->
  exists s' r',
    Distribute3_ fuel t_tree (s0, r0)
    = Throws (DistributeError (GridRetryError 1)) (s', r')
    /\ same_registry s0 s'.
Proof using Type.
  intros Hread Hgrid Hcells Ho Hq Hmt Hnew Hinit Hcoll Hfuel.
  unfold Distribute, rethrow_nested, bind at 1, lift_try at 1. rewrite Hread.
  unfold with_generators.
  destruct (Z.to_nat (dir_unQuantity d)) as [|remaining] eqn:En; [lia|].
  destruct fuel as [|[|fuel]]; [lia|lia|].
  cbn [copies]. unfold bind at 1.
  set (tree := SetNodeAttribute (dir_itEntity d) "id"
                 (AttrString (dir_strBaseId d +:+ ToString (wrap64 (0 + dir_unBaseNum d))))).
  rewrite Hgrid.
  set (st := mkPlacement RNG s0 r0 (GridGenerator c l dd 0) (dir_orientation d)).
  destruct (call_answers RNG Uniform Gaussian false 1 (dir_orientation d) r0
              ltac:(done) Ho ltac:(lia)) as (cOri & go' & r1 & Hcall & _).
  set (st1 := mkPlacement RNG s0 r0 (GridGenerator c l dd 1) (dir_orientation d)).
  set (st2 := mkPlacement RNG s0 r1 (GridGenerator c l dd 1) go').
  assert (Hpos : position_draw RNG Uniform Gaussian false st
                 = Returns (Grid_position c l dd 0) st1).
  { unfold position_draw, st. cbn.
    destruct (Z.ltb_spec 0 (Grid_cells l)); [done|lia]. }
  assert (Hori : orientation_draw RNG Uniform Gaussian false st1 = Returns cOri st2).
  { unfold orientation_draw, st1.
    cbn [space rng pcPositionGenerator pcOrientationGenerator]. by rewrite Hcall. }
  destruct (Hinit (prepared tree (Grid_position c l dd 0) cOri))
    as (e & body & Hi & He & Hh & HF & Hroot).
  { apply prepared_ready. apply copy_tree_id. }
  { by rewrite prepared_Value. }
  destruct (add_then_remove stream_address e body s0 HF Hh Hroot)
    as (s3 & s4 & Hadd & Hrem & Hs4).
  exists s4, r1.
  rewrite (place_embodied_step RNG Uniform Gaussian stream_address CFactory_New Init
             IsCollidingWithSomething (S fuel) 0 (dir_unMaxTrials d) (dir_strBaseId d)
             tree 0 false st blank (Grid_position c l dd 0) st1 cOri st2 e body s3
             Hnew Hpos Hori Hi He Hadd).
  rewrite Hcoll, Hrem. change (wrap32 (0 + 1)) with 1.
  destruct (Z.gtb_spec 1 (dir_unMaxTrials d)); [lia|].
  cbn [place]. unfold bind at 1. unfold lift_try at 1.
  rewrite prepared_Value. change (Value tree) with (Value (dir_itEntity d)). rewrite Hnew.
  unfold bind at 1. unfold position_draw at 1. cbn. done.
Qed.

End DistributeEdges.

(** A directive for no box at all. *)
Lemma Distribute_quantity_zero_witness :
  sample_Distribute false 0 (sample_directive constant_at_origin "box" 0 3 [])
  = Returns tt (empty_space [everywhere], tt).
Proof.
  exact (Distribute_quantity_zero
           unit lowest_Uniform mean_Gaussian sample_text "0x7ffc0d367dd0"
           sample_New sample_Init (fun _ _ => false)
           (sample_directive constant_at_origin "box" 0 3 [])
           (mkDirective (ConstantGenerator origin) (ConstantGenerator origin) 0 3 0
                        (ConfigurationNode "box" [("id", AttrString "box")] []) "box")
           (empty_space [everywhere]) tt 0%nat eq_refl eq_refl).
Defined.

(** What [sample_Init] makes of a plain entity, given a tree that is ready. *)
Lemma sample_Init_plain (type id : string) (tree : TConfigurationNode) :
  ready id tree ->
  exists e,
    sample_Init (mkEntity EmptyString type None ClassEntity origin false []) tree = inr e
    /\ GetEmbodiedEntity e = inr None /\ GetPositionalEntity e = inr None.
Proof.
  intros (Hid & b & p & o & Hb & Hp & Ho).
  unfold sample_Init, try_bind. rewrite Hid, Hb, Hp. cbn. by eexists.
Qed.

(** One "floor", an entity that is neither positional nor embodied. *)
Lemma Distribute_neither_positional_nor_embodied_witness :
  exists r',
    Distribute unit lowest_Uniform mean_Gaussian sample_text "0x7ffc0d367dd0"
               plain_New sample_Init (fun _ _ => false) 1
               (sample_directive constant_at_origin "floor" 1 0 [])
               (empty_space [everywhere], tt)
    = Throws (DistributeError (CannotDistributeError "floor")) (empty_space [everywhere], r').
Proof.
  apply (Distribute_neither_positional_nor_embodied
           unit lowest_Uniform mean_Gaussian sample_text "0x7ffc0d367dd0"
           plain_New sample_Init (fun _ _ => false)
           (sample_directive constant_at_origin "floor" 1 0 [])
           (mkDirective (ConstantGenerator origin) (ConstantGenerator origin) 1 0 0
                        (ConfigurationNode "floor" [("id", AttrString "floor")] []) "floor")
           (mkEntity EmptyString "floor" None ClassEntity origin false [])
           (empty_space [everywhere]) tt 1%nat).
  - reflexivity.
  - reflexivity.
  - exact I.
  - exact I.
  - reflexivity.
  - intros tree Hready _. exact (sample_Init_plain "floor" _ tree Hready).
  - cbn. lia.
Defined.

(** One box on a grid of two cells, a budget of one retry, every placement
    colliding. *)
Lemma Distribute_grid_collision_witness :
  exists s' r',
    sample_Distribute true 2 (sample_directive grid_of_two "box" 1 1 [])
    = Throws (DistributeError (GridRetryError 1)) (s', r')
    /\ same_registry (empty_space [everywhere]) s'.
Proof.
  apply (Distribute_grid_collision
           unit lowest_Uniform mean_Gaussian sample_text "0x7ffc0d367dd0"
           sample_New sample_Init (fun _ _ => true)
           (sample_directive grid_of_two "box" 1 1 [])
           (mkDirective (GridGenerator origin (2, 1, 1) (mkVector3 1 0 0) 0)
                        (ConstantGenerator origin) 1 1 0
                        (ConfigurationNode "box" [("id", AttrString "box")] []) "box")
           origin (mkVector3 1 0 0) (2, 1, 1)
           (mkEntity EmptyString "box" None ClassComposable origin true [])
           (empty_space [everywhere]) tt 2%nat).
  - reflexivity.
  - reflexivity.
  - reflexivity.
  - exact I.
  - reflexivity.
  - cbn. lia.
  - reflexivity.
  - intros tree Hready _.
    destruct (sample_Init_box _ tree Hready) as (e & body & H1 & _ & H2 & H3 & H4 & H5).
    by exists e, body.
  - reflexivity.
  - cbn. lia.
Defined.

(** ** More copies than the grid has cells *)

Section GridExhausted.

Variable RNG : Type.
Variable Uniform : RNG -> Real -> Real -> Real * RNG.
Variable Gaussian : RNG -> Real -> Real -> Real * RNG.
Variable CVector3_text : CVector3 -> string.
Variable stream_address : string.
Variable CFactory_New : string -> Try CEntity.
Variable Init : CEntity -> TConfigurationNode -> Try CEntity.
Variable IsCollidingWithSomething : CSpace -> CEntity -> bool.

Abbreviation place4_ :=
  (place RNG Uniform Gaussian stream_address CFactory_New Init IsCollidingWithSomething).
Abbreviation copies4_ :=
  (copies RNG Uniform Gaussian stream_address CFactory_New Init IsCollidingWithSomething).
Abbreviation Distribute4_ :=
  (Distribute RNG Uniform Gaussian CVector3_text stream_address CFactory_New Init
              IsCollidingWithSomething).

Lemma Grid_cells_range (l : Z * Z * Z) : 0 <= Grid_cells l < 2 ^ 32.
Proof. destruct l as [[l0 l1] l2]. apply wrap32_range. Qed.

(** The draw of a position from a grid with a cell left. *)
Lemma grid_position_draw (c dd : CVector3) (l : Z * Z * Z) (p : Z) (st : Placement RNG) :
  pcPositionGenerator RNG st = GridGenerator c l dd p ->
  0 <= p < Grid_cells l ->
  position_draw RNG Uniform Gaussian false st
  = Returns (Grid_position c l dd p)
            (mkPlacement RNG (space RNG st) (rng RNG st) (GridGenerator c l dd (p + 1))
                         (pcOrientationGenerator RNG st)).
Proof.
  intros Hg Hp. unfold position_draw. rewrite Hg. cbn.
  destruct (Z.ltb_spec p (Grid_cells l)); [|lia].
  pose proof (Grid_cells_range l). by rewrite wrap32_small by lia.
Qed.

(** The draw of a position from a grid with no cell left. *)
Lemma grid_position_exhausted (c dd : CVector3) (l : Z * Z * Z) (st : Placement RNG) :
  pcPositionGenerator RNG st = GridGenerator c l dd (Grid_cells l) ->
  position_draw RNG Uniform Gaussian false st = Throws GridExhaustedError st.
Proof.
  intros Hg. unfold position_draw. rewrite Hg. cbn.
  destruct (Z.ltb_spec (Grid_cells l) (Grid_cells l)); [lia|].
  destruct st. cbn in *. by rewrite Hg.
Qed.

Lemma steady_orientation_draw (b : bool) (st : Placement RNG) :
  steady (pcOrientationGenerator RNG st) ->
  exists cOri r',
    orientation_draw RNG Uniform Gaussian b st
    = Returns cOri (mkPlacement RNG (space RNG st) r' (pcPositionGenerator RNG st)
                                (pcOrientationGenerator RNG st)).
Proof.
  intros Hs.
  destruct (call_answers RNG Uniform Gaussian b 1 (pcOrientationGenerator RNG st)
              (rng RNG st) ltac:(done) ltac:(by apply steady_has_cells) ltac:(lia))
    as (cOri & go' & r' & Hcall & _ & Hsame).
  exists cOri, r'. unfold orientation_draw. rewrite Hcall. by rewrite (Hsame Hs).
Qed.

(** One copy placed at its first trial in the next cell of the grid. *)
Lemma place_grid_first_trial (engines0 : list CPhysicsEngine) (ty id base : string)
      (blank : CEntity) (i mt p : Z) (c dd : CVector3) (l : Z * Z * Z) (fuel : nat)
      (tree : TConfigurationNode) (st : Placement RNG) :
  CFactory_New ty = inr blank ->
  (forall tree',
      ready id tree' -> Value tree' = ty ->
      exists e body,
        Init blank tree' = inr e /\ GetId e = id
        /\ GetEmbodiedEntity e = inr (Some body) /\ housable engines0 body) ->
  (forall s body, IsCollidingWithSomething s body = false) ->
  Value tree = ty -> GetNodeAttribute_string tree "id" = inr id ->
  domains (m_ptPhysicsEngines (space RNG st)) = domains engines0 ->
  pcPositionGenerator RNG st = GridGenerator c l dd p ->
  0 <= p < Grid_cells l ->
  steady (pcOrientationGenerator RNG st) ->
  exists st',
    place4_ (S fuel) i mt base tree 0 false st = Returns tt st'
    /\ m_vecEntities (space RNG st') = m_vecEntities (space RNG st) ++ [id]
    /\ domains (m_ptPhysicsEngines (space RNG st')) = domains engines0
    /\ pcPositionGenerator RNG st' = GridGenerator c l dd (p + 1)
    /\ pcOrientationGenerator RNG st' = pcOrientationGenerator RNG st.
Proof using Type.
  intros Hnew Hinit Hfree Hty Hid Hdom Hg Hp Hs.
  pose proof (grid_position_draw c dd l p st Hg Hp) as Hpos.
  set (st1 := mkPlacement RNG (space RNG st) (rng RNG st) (GridGenerator c l dd (p + 1))
                          (pcOrientationGenerator RNG st)) in *.
  destruct (steady_orientation_draw false st1 Hs) as (cOri & r' & Hori).
  set (st2 := mkPlacement RNG (space RNG st1) r' (pcPositionGenerator RNG st1)
                          (pcOrientationGenerator RNG st1)) in *.
  destruct (Hinit (prepared tree (Grid_position c l dd p) cOri))
    as (e & body & Hi & Hide & He & Hh);
    [by apply prepared_ready|by rewrite prepared_Value|].
  assert (Hh2 : housable (m_ptPhysicsEngines (space RNG st2)) body).
  { apply housable_domains with engines0; [|done].
    change (space RNG st2) with (space RNG st). by rewrite Hdom. }
  exists (with_space RNG
            (set_engines (added_to_housing body (m_ptPhysicsEngines (space RNG st2)))
                         (register e (space RNG st2))) st2).
  split.
  - rewrite (place_embodied_step RNG Uniform Gaussian stream_address CFactory_New Init
               IsCollidingWithSomething fuel i mt base tree 0 false st
               blank (Grid_position c l dd p) st1 cOri st2 e body _
               ltac:(by rewrite Hty) Hpos Hori Hi He
               (add_embodied stream_address e body _ Hh2)).
    by rewrite Hfree.
  - cbn. rewrite Hide. split; [done|]. split; [|done].
    by rewrite added_to_housing_domains.
Qed.

(** The [for] loop on a grid with fewer cells left than copies to place. *)
Lemma copies_grid_exhausted (engines0 : list CPhysicsEngine) (base : string)
      (blank : CEntity) (itEntity : TConfigurationNode) (mt bn : Z) (fuel : nat)
      (c dd : CVector3) (l : Z * Z * Z) :
  CFactory_New (Value itEntity) = inr blank ->
  (forall i tree,
      ready (copy_id base bn i) tree -> Value tree = Value itEntity ->
      exists e body,
        Init blank tree = inr e /\ GetId e = copy_id base bn i
        /\ GetEmbodiedEntity e = inr (Some body) /\ housable engines0 body) ->
  (forall s body, IsCollidingWithSomething s body = false) ->
  (1 <= fuel)%nat ->
  forall (free : nat) (remaining : nat) (i p : Z) (st : Placement RNG),
    domains (m_ptPhysicsEngines (space RNG st)) = domains engines0 ->
    pcPositionGenerator RNG st = GridGenerator c l dd p ->
    0 <= p -> p + Z.of_nat free = Grid_cells l ->
    steady (pcOrientationGenerator RNG st) ->
    (free < remaining)%nat ->
    exists st',
      copies4_ fuel itEntity base mt bn remaining i st = Throws GridExhaustedError st'
      /\ m_vecEntities (space RNG st')
         = m_vecEntities (space RNG st)
             ++ ((fun j : nat => copy_id base bn (i + Z.of_nat j)) <$> seq 0 free).
Proof using Type.
  intros Hnew Hinit Hfree Hfuel. destruct fuel as [|fuel]; [lia|].
  induction free as [|free IH]; intros remaining i p st Hdom Hg Hp0 Hp Hs Hrem.
  - destruct remaining as [|remaining]; [lia|].
    exists st. split; [|cbn; by rewrite app_nil_r].
    cbn [copies place]. unfold bind at 1. unfold bind at 1. unfold lift_try at 1.
    assert (Hv : Value (SetNodeAttribute itEntity "id"
                          (AttrString (base +:+ ToString (wrap64 (i + bn)))))
                 = Value itEntity) by done.
    rewrite Hv, Hnew. unfold bind at 1.
    rewrite (grid_position_exhausted c dd l st); [done|].
    rewrite Hg. f_equal. lia.
  - destruct remaining as [|remaining]; [lia|].
    cbn [copies]. unfold bind at 1.
    destruct (place_grid_first_trial engines0 (Value itEntity) (copy_id base bn i) base blank
                i mt p c dd l fuel
                (SetNodeAttribute itEntity "id" (AttrString (base +:+ ToString (wrap64 (i + bn)))))
                st Hnew (Hinit i) Hfree eq_refl (copy_tree_id _ _) Hdom Hg ltac:(lia) Hs)
      as (st1 & -> & Hv1 & Hd1 & Hg1 & Ho1).
    destruct (IH remaining (i + 1) (p + 1) st1 Hd1 Hg1 ltac:(lia) ltac:(lia)
                 ltac:(by rewrite Ho1) ltac:(lia)) as (st' & -> & Hv').
    exists st'. split; [done|].
    rewrite Hv', Hv1, <- app_assoc. f_equal. cbn [seq fmap list_fmap app].
    rewrite Z.add_0_r. f_equal.
    rewrite <- seq_shift, <- list_fmap_compose.
    apply list_fmap_ext. intros k j _. cbn. f_equal. lia.
Qed.

(** X19. A directive that asks for more copies than its grid of positions has
    cells, with entities that are embodied, can be housed and never collide:
    [Distribute] fills the grid and then throws the error of the grid. The
    copies placed so far stay registered: the flat collection has grown by one
    identifier per cell. *)
Theorem Distribute_grid_exhausted (t_tree : TConfigurationNode) (d : Directive)
        (c dd : CVector3) (l : Z * Z * Z)
        (blank : CEntity) (s0 : CSpace) (r0 : RNG) (fuel : nat) :
  read_directive CVector3_text t_tree = inr d ->
  dir_position d = GridGenerator c l dd 0 ->
  steady (dir_orientation d) ->
  Grid_cells l < dir_unQuantity d ->
  CFactory_New (Value (dir_itEntity d)) = inr blank ->
  (forall i tree,
      ready (copy_id (dir_strBaseId d) (dir_unBaseNum d) i) tree ->
      Value tree = Value (dir_itEntity d) ->
      exists e body,
        Init blank tree = inr e
        /\ GetId e = copy_id (dir_strBaseId d) (dir_unBaseNum d) i
        /\ GetEmbodiedEntity e = inr (Some body)
        /\ housable (m_ptPhysicsEngines s0) body) ->
  (forall s body, IsCollidingWithSomething s body = false) ->
  (1 <= fuel)%nat ->
  exists s' r',
    Distribute4_ fuel t_tree (s0, r0) = Throws (DistributeError GridExhaustedError) (s', r')
    /\ m_vecEntities s'
       = m_vecEntities s0
           ++ ((fun i : nat =>
                  dir_strBaseId d +:+ ToString ((Z.of_nat i + dir_unBaseNum d) mod 2 ^ 64))
                 <$> seq 0 (Z.to_nat (Grid_cells l))).
Proof using Type.
  intros Hread Hg Hs Hq Hnew Hinit Hfree Hfuel.
  pose proof (Grid_cells_range l) as Hc.
  unfold Distribute, rethrow_nested, bind, lift_try. rewrite Hread.
  unfold with_generators.
  set (st := mkPlacement RNG s0 r0 (dir_position d) (dir_orientation d)).
  destruct (copies_grid_exhausted (m_ptPhysicsEngines s0) (dir_strBaseId d) blank
              (dir_itEntity d) (dir_unMaxTrials d) (dir_unBaseNum d) fuel c dd l
              Hnew Hinit Hfree Hfuel (Z.to_nat (Grid_cells l))
              (Z.to_nat (dir_unQuantity d)) 0 0 st
              eq_refl Hg ltac:(lia) ltac:(lia) Hs ltac:(lia))
    as (st' & -> & Hv).
  exists (space RNG st'), (rng RNG st'). split; [done|].
  rewrite Hv. done.
Qed.

End GridExhausted.

(** Three boxes asked for on a grid of two cells. *)
Lemma Distribute_grid_exhausted_witness :
  exists s' r',
    sample_Distribute false 1 (sample_directive grid_of_two "box" 3 0 [])
    = Throws (DistributeError GridExhaustedError) (s', r')
    /\ m_vecEntities s'
       = m_vecEntities (empty_space [everywhere])
           ++ ((fun i : nat => "box" +:+ ToString ((Z.of_nat i + 0) mod 2 ^ 64))
                 <$> seq 0 (Z.to_nat (Grid_cells (2, 1, 1)))).
Proof.
  apply (Distribute_grid_exhausted
           unit lowest_Uniform mean_Gaussian sample_text "0x7ffc0d367dd0"
           sample_New sample_Init (fun _ _ => false)
           (sample_directive grid_of_two "box" 3 0 [])
           (mkDirective (GridGenerator origin (2, 1, 1) (mkVector3 1 0 0) 0)
                        (ConstantGenerator origin) 3 0 0
                        (ConfigurationNode "box" [("id", AttrString "box")] []) "box")
           origin (mkVector3 1 0 0) (2, 1, 1)
           (mkEntity EmptyString "box" None ClassComposable origin true [])
           (empty_space [everywhere]) tt 1%nat).
  - reflexivity.
  - reflexivity.
  - exact I.
  - reflexivity.
  - reflexivity.
  - intros i tree Hready _.
    destruct (sample_Init_box _ tree Hready) as (e & body & H1 & H2 & H3 & H4 & _).
    by exists e, body.
  - reflexivity.
  - cbn. lia.
Defined.

(** ** The tree of a retry *)

Lemma set_attribute_twice (n : string) (a a' : Attribute) (l : list (string * Attribute)) :
  set_attribute n a' (set_attribute n a l) = set_attribute n a' l.
Proof.
  induction l as [|[k x] l IH]; cbn.
  - by rewrite String.eqb_refl.
  - destruct (String.eqb_spec k n) as [->|Hk]; cbn.
    + by rewrite String.eqb_refl.
    + destruct (String.eqb_spec k n); [done|]. by rewrite IH.
Qed.

Lemma set_attribute_swap (n m : string) (a a' b : Attribute) (l : list (string * Attribute)) :
  n <> m ->
  set_attribute n a' (set_attribute m b (set_attribute n a l))
  = set_attribute m b (set_attribute n a' l).
Proof.
  intros Hnm. induction l as [|[k x] l IH]; cbn.
  - destruct (String.eqb_spec n m); [done|]. cbn. by rewrite String.eqb_refl.
  - destruct (String.eqb_spec k n) as [->|Hk]; cbn.
    + destruct (String.eqb_spec n m); [done|]. cbn. by rewrite String.eqb_refl.
    + destruct (String.eqb_spec k m) as [->|Hm]; cbn.
      * destruct (String.eqb_spec m n); [done|]. by rewrite set_attribute_twice.
      * destruct (String.eqb_spec k n); [done|]. by rewrite IH.
Qed.

Lemma set_in_first_alter (child n : string) (a : Attribute) (l : list TConfigurationNode) :
  set_in_first child n a l = alter_first child (fun y => SetNodeAttribute y n a) l.
Proof. induction l as [|y l IH]; cbn; [done|]. by rewrite IH. Qed.

Lemma alter_first_compose (child : string) (f g : TConfigurationNode -> TConfigurationNode)
      (l : list TConfigurationNode) :
  (forall y, Value (g y) = Value y) ->
  alter_first child f (alter_first child g l) = alter_first child (fun y => f (g y)) l.
Proof.
  intros Hg. induction l as [|y l IH]; cbn; [done|].
  destruct (String.eqb (Value y) child) eqn:E; cbn.
  - by rewrite Hg, E.
  - by rewrite E, IH.
Qed.

Lemma alter_first_ext (child : string) (f g : TConfigurationNode -> TConfigurationNode)
      (l : list TConfigurationNode) :
  (forall y, f y = g y) -> alter_first child f l = alter_first child g l.
Proof.
  intros Hfg. induction l as [|y l IH]; cbn; [done|]. by rewrite Hfg, IH.
Qed.

(** X20. The loop keeps the tree of a trial for the next one. The tree a retry
    hands to [Init] is nevertheless the one a first trial with the same draws
    would have handed over: the position and the orientation of the trial
    before are overwritten, and nothing accumulates in the tree. The "body"
    node is created once, and the tag and the attributes of the entity node
    are those of the directive. *)
Theorem retry_tree_overwrites (tEntityTree : TConfigurationNode)
        (cPosition cOrientation cPosition' cOrientation' : CVector3) :
  prepared (prepared tEntityTree cPosition cOrientation) cPosition' cOrientation'
  = prepared tEntityTree cPosition' cOrientation'
  /\ NodeExists (prepared tEntityTree cPosition cOrientation) "body" = true
  /\ Value (prepared tEntityTree cPosition cOrientation) = Value tEntityTree
  /\ attributes (prepared tEntityTree cPosition cOrientation) = attributes tEntityTree.
Proof.
  assert (Hex : NodeExists (prepared tEntityTree cPosition cOrientation) "body" = true).
  { unfold NodeExists, prepared, SetChildAttribute. cbn [children].
    destruct (find_child_ensured tEntityTree) as [b Hb].
    by rewrite (find_child_set_in_first _ _ _ _ _
                  (find_child_set_in_first _ _ _ _ _ Hb)). }
  split; [|split; [done|split; [apply prepared_Value|]]].
  - unfold prepared at 1. rewrite Hex. cbn [negb].
    unfold prepared, SetChildAttribute. cbn [Value attributes children].
    f_equal. rewrite !set_in_first_alter.
    rewrite !alter_first_compose by done.
    apply alter_first_ext. intros [v attrs sub]. unfold SetNodeAttribute. cbn. f_equal.
    rewrite (set_attribute_swap "position" "orientation") by done.
    by rewrite set_attribute_twice.
  - unfold prepared, SetChildAttribute. cbn [attributes].
    by destruct (negb (NodeExists tEntityTree "body")).
Qed.

(** ** The tags, one by one and all at once *)

Lemma payload_each_lookup (str_payload : string) (instances : list SInstance) (j : nat) :
  payload_each str_payload instances !! j = Instance_SetPayload str_payload <$> instances !! j.
Proof.
  revert j. induction instances as [|x l IH]; intros [|j]; cbn; first [done | apply IH].
Qed.

(** X21. [SetTagPayload] with an index below the number of tags returns and has
    set the payload of that tag; the other tags are what they were, and of the
    tag itself only the payload has changed. With any other index it throws
    the index error and the entity is as it was. *)
Theorem SetTagPayload_bounds (un_index : Z) (str_payload : string) (e : CTagEquippedEntity) :
  0 <= un_index ->
  (un_index < Z.of_nat (length (m_vecInstances e)) ->
   exists e',
     SetTagPayload un_index str_payload e = Returns tt e'
     /\ GetContext e' = GetContext e
     /\ TagEquipped_GetId e' = TagEquipped_GetId e
     /\ length (m_vecInstances e') = length (m_vecInstances e)
     /\ (GetPayload ∘ Tag) <$> m_vecInstances e' !! Z.to_nat un_index = Some str_payload
     /\ (forall j, j <> Z.to_nat un_index -> m_vecInstances e' !! j = m_vecInstances e !! j)
     /\ (forall j, instance_frame <$> m_vecInstances e' !! j
                   = instance_frame <$> m_vecInstances e !! j))
  /\ (Z.of_nat (length (m_vecInstances e)) <= un_index ->
      SetTagPayload un_index str_payload e
      = Throws (IndexOutOfBoundsError "SetTagPayload" e un_index) e).
Proof.
  intros H0. unfold SetTagPayload. split; intros Hi.
  - destruct (Z.ltb_spec un_index (Z.of_nat (length (m_vecInstances e)))); [|lia].
    eexists. split; [reflexivity|]. cbn.
    split; [done|]. split; [done|]. split; [by rewrite length_alter|].
    split; [|split].
    + rewrite list_lookup_alter_eq.
      destruct (lookup_lt_is_Some_2 (m_vecInstances e) (Z.to_nat un_index)) as [x ->];
        [lia|done].
    + intros j Hj. by rewrite list_lookup_alter_ne.
    + intros j. destruct (decide (j = Z.to_nat un_index)) as [->|Hj].
      * rewrite list_lookup_alter_eq. by destruct (m_vecInstances e !! Z.to_nat un_index).
      * by rewrite list_lookup_alter_ne.
  - by destruct (Z.ltb_spec un_index (Z.of_nat (length (m_vecInstances e)))); [lia|].
Qed.

Lemma SetTagPayload_bounds_witness :
  let e := two_tags "a" "b" in
  0 <= 1
  /\ (1 < Z.of_nat (length (m_vecInstances e)) ->
      exists e',
        SetTagPayload 1 "c" e = Returns tt e'
        /\ GetContext e' = GetContext e
        /\ TagEquipped_GetId e' = TagEquipped_GetId e
        /\ length (m_vecInstances e') = length (m_vecInstances e)
        /\ (GetPayload ∘ Tag) <$> m_vecInstances e' !! Z.to_nat 1 = Some "c"
        /\ (forall j, j <> Z.to_nat 1 -> m_vecInstances e' !! j = m_vecInstances e !! j)
        /\ (forall j, instance_frame <$> m_vecInstances e' !! j
                      = instance_frame <$> m_vecInstances e !! j))
  /\ (Z.of_nat (length (m_vecInstances e)) <= 1 ->
      SetTagPayload 1 "c" e = Throws (IndexOutOfBoundsError "SetTagPayload" e 1) e).
Proof.
  intros e. split; [lia|]. apply (SetTagPayload_bounds 1 "c" e). lia.
Defined.

(** X22. Reading back through [GetTag]: after [SetTagPayload] has returned, the
    tag at that index is the tag that was there, with the new payload, and
    [GetTag] answers for every other index what it answered before, the index
    error included. *)
Theorem GetTag_after_SetTagPayload (un_index : Z) (str_payload : string)
        (e e' : CTagEquippedEntity) :
  0 <= un_index ->
  SetTagPayload un_index str_payload e = Returns tt e' ->
  (exists tag, GetTag un_index e = inr tag
               /\ GetTag un_index e' = inr (SetPayload str_payload tag))
  /\ (forall j, 0 <= j -> j <> un_index -> GetTag j e' = GetTag j e)
  /\ (forall j, Z.of_nat (length (m_vecInstances e)) <= j ->
                GetTag j e' = inl (IndexOutOfBoundsError "GetTag" e j)).
Proof.
  intros H0. unfold SetTagPayload.
  destruct (Z.ltb_spec un_index (Z.of_nat (length (m_vecInstances e)))) as [Hlt|]; [|done].
  intros [= <-]. unfold GetTag, IndexOutOfBoundsError. cbn. rewrite length_alter.
  split; [|split].
  - destruct (Z.ltb_spec un_index (Z.of_nat (length (m_vecInstances e)))); [|lia].
    rewrite list_lookup_alter_eq.
    destruct (lookup_lt_is_Some_2 (m_vecInstances e) (Z.to_nat un_index)) as [x ->];
      [lia|]. by exists (Tag x).
  - intros j Hj Hne. rewrite list_lookup_alter_ne by lia. done.
  - intros j Hj.
    by destruct (Z.ltb_spec j (Z.of_nat (length (m_vecInstances e)))); [lia|].
Qed.

Lemma GetTag_after_SetTagPayload_witness :
  let e := two_tags "a" "b" in
  let e' := two_tags "a" "c" in
  (exists tag, GetTag 1 e = inr tag /\ GetTag 1 e' = inr (SetPayload "c" tag))
  /\ (forall j, 0 <= j -> j <> 1 -> GetTag j e' = GetTag j e)
  /\ (forall j, Z.of_nat (length (m_vecInstances e)) <= j ->
                GetTag j e' = inl (IndexOutOfBoundsError "GetTag" e j)).
Proof.
  intros e e'. apply (GetTag_after_SetTagPayload 1 "c" e e'); [lia|reflexivity].
Defined.

(** X23. The overload of [SetTagPayloads] that takes one payload does what the
    overload that takes a vector does with as many copies of the payload as
    there are tags; it never throws, and with no tag it changes nothing. *)
Theorem SetTagPayloads_string_as_vector (str_payload : string) (e : CTagEquippedEntity) :
  SetTagPayloads_string str_payload e
  = SetTagPayloads (replicate (length (m_vecInstances e)) str_payload) e
  /\ (m_vecInstances e = [] -> SetTagPayloads_string str_payload e = Returns tt e).
Proof.
  split.
  - unfold SetTagPayloads_string, SetTagPayloads.
    rewrite length_replicate, Nat.eqb_refl. do 2 f_equal.
    apply list_eq. intros j.
    rewrite payload_each_lookup, payload_loop_lookup, Nat.sub_0_r. cbn [Nat.leb].
    destruct (m_vecInstances e !! j) as [x|] eqn:Hj.
    + rewrite lookup_replicate_2; [done|]. by apply lookup_lt_Some in Hj.
    + by destruct (replicate _ _ !! j).
  - unfold SetTagPayloads_string. destruct e as [ctx id l]. cbn. by intros ->.
Qed.

Lemma payloads_one_by_one_loop (ctx id : string) (rest : list string) :
  forall (i : nat) (instances : list SInstance),
    (i + length rest <= length instances)%nat ->
    payloads_one_by_one i rest (mkTagEquipped ctx id instances)
    = Returns tt (mkTagEquipped ctx id (payload_loop i rest instances)).
Proof.
  induction rest as [|p rest IH]; intros i instances Hlen; [done|].
  cbn [payloads_one_by_one payload_loop]. cbn [length] in Hlen.
  unfold bind, SetTagPayload. cbn [m_vecInstances GetContext TagEquipped_GetId].
  destruct (Z.ltb_spec (Z.of_nat i) (Z.of_nat (length instances))); [|lia].
  rewrite Nat2Z.id. apply IH. rewrite length_alter. lia.
Qed.

(** X24. With a vector as long as there are tags, [SetTagPayloads] does what the
    calls [SetTagPayload(0, v[0])], [SetTagPayload(1, v[1])], ... do one after
    the other (the indices being [UInt32] values). *)
Theorem SetTagPayloads_one_by_one (vec_payloads : list string) (e : CTagEquippedEntity) :
  length vec_payloads = length (m_vecInstances e) ->
  Z.of_nat (length vec_payloads) < 2 ^ 32 ->
  SetTagPayloads vec_payloads e = payloads_one_by_one 0 vec_payloads e.
Proof.
  intros Hlen _. unfold SetTagPayloads. rewrite Hlen, Nat.eqb_refl.
  destruct e as [ctx id l]. cbn [m_vecInstances GetContext TagEquipped_GetId] in *.
  rewrite payloads_one_by_one_loop; [done|]. cbn. lia.
Qed.

Lemma SetTagPayloads_one_by_one_witness :
  let e := two_tags "a" "b" in
  SetTagPayloads ["c"; "d"] e = payloads_one_by_one 0 ["c"; "d"] e.
Proof.
  intros e. apply (SetTagPayloads_one_by_one ["c"; "d"] e); [reflexivity|done].
Defined.
